(** * Real-time container log streaming (aslan/core/log/service/sse.go)

    A shallow embedding of the log streaming engine of
    [pkg/microservice/aslan/core/log/service/sse.go] and the properties of
    its specification.

    Go strings are byte sequences: they are modelled as [string], whose
    characters are the 8-bit [ascii] values, so that [String.length] is
    Go's [len] and every index is a byte index. *)

From Stdlib Require Import String Ascii List ZArith Lia Bool Arith.
Import ListNotations.
Open Scope string_scope.
Open Scope list_scope.

(** ** The functions of Go's [strings] package that the file calls *)

Module strings.

(** [strings.HasPrefix(s, prefix)]. *)
Fixpoint HasPrefix (s prefix : string) : bool :=
  match prefix, s with
  | EmptyString, _ => true
  | String _ _, EmptyString => false
  | String p prefix', String c s' =>
      if Ascii.eqb c p then HasPrefix s' prefix' else false
  end.

(** [s[n:]], for [n <= len(s)]. *)
Fixpoint drop (n : nat) (s : string) : string :=
  match n, s with
  | O, _ => s
  | S _, EmptyString => EmptyString
  | S k, String _ s' => drop k s'
  end.

(** [strings.TrimPrefix(s, prefix)]. *)
Definition TrimPrefix (s prefix : string) : string :=
  if HasPrefix s prefix then drop (String.length prefix) s else s.

(** Membership of a byte in a cutset made of ASCII bytes. *)
Fixpoint ContainsByte (cutset : string) (c : ascii) : bool :=
  match cutset with
  | EmptyString => false
  | String d cutset' => if Ascii.eqb c d then true else ContainsByte cutset' c
  end.

(** [strings.TrimRight(s, cutset)] for a cutset of ASCII bytes: every
    trailing byte that belongs to the cutset is removed
    ([trimRightASCII] in the library). *)
Fixpoint TrimRight (s cutset : string) : string :=
  match s with
  | EmptyString => EmptyString
  | String c s' =>
      match TrimRight s' cutset with
      | EmptyString =>
          if ContainsByte cutset c then EmptyString else String c EmptyString
      | r => String c r
      end
  end.

(** [strings.HasSuffix(s, suffix)] and [strings.TrimSuffix(s, suffix)]. *)
Fixpoint rev (s : string) : string :=
  match s with
  | EmptyString => EmptyString
  | String c s' => rev s' ++ String c EmptyString
  end.

Definition HasSuffix (s suffix : string) : bool :=
  HasPrefix (rev s) (rev suffix).

Definition TrimSuffix (s suffix : string) : string :=
  if HasSuffix s suffix
  then rev (drop (String.length suffix) (rev s))
  else s.

(** [strings.Split(s, sep)] for a non-empty separator: the pieces of [s]
    between the successive non-overlapping occurrences of [sep], found
    from the left.  [cur] is the piece being read, and [skip] counts the
    bytes of an occurrence of [sep] that are still to be passed over. *)
Fixpoint genSplit (sep : string) (skip : nat) (cur : string) (s : string)
  : list string :=
  match s with
  | EmptyString => [cur]
  | String c s' =>
      match skip with
      | S k => genSplit sep k cur s'
      | O =>
          if HasPrefix s sep
          then cur :: genSplit sep (String.length sep - 1) EmptyString s'
          else genSplit sep 0 (cur ++ String c EmptyString) s'
      end
  end.

Definition Split (s sep : string) : list string := genSplit sep 0 EmptyString s.

(** [strings.Count(s, "_")]-style count of one byte. *)
Fixpoint CountByte (c : ascii) (s : string) : nat :=
  match s with
  | EmptyString => 0
  | String d s' => (if Ascii.eqb d c then 1 else 0) + CountByte c s'
  end.

(** [strings.Join(elems, sep)]. *)
Fixpoint Join (elems : list string) (sep : string) : string :=
  match elems with
  | [] => EmptyString
  | [e] => e
  | e :: rest => e ++ sep ++ Join rest sep
  end.

(** [strings.Replace(s, old, new, -1)] for a non-empty [old]: every
    non-overlapping occurrence of [old], from the left, becomes [new]. *)
Definition ReplaceAll (s old new : string) : string := Join (Split s old) new.

(** [strings.TrimSpace(s)].  The library decodes UTF-8 and removes the
    leading and trailing code points for which [unicode.IsSpace] holds.
    A position decodes to a code point exactly when the bytes there are
    its encoding, so the function removes, from each end, the byte
    sequences below: the six ASCII spaces, U+0085 and U+00A0 (two
    bytes), and U+1680, U+2000..U+200A, U+2028, U+2029, U+202F, U+205F
    and U+3000 (three bytes). *)
Definition byte (c : ascii) : nat := nat_of_ascii c.

Definition asciiSpace (c : ascii) : bool :=
  let n := byte c in
  ((n =? 9) || (n =? 10) || (n =? 11) || (n =? 12) || (n =? 13) || (n =? 32))%nat.

Definition space2 (c1 c2 : ascii) : bool :=
  ((byte c1 =? 194) && ((byte c2 =? 133) || (byte c2 =? 160)))%nat.

Definition space3 (c1 c2 c3 : ascii) : bool :=
  let a := byte c1 in
  let b := byte c2 in
  let c := byte c3 in
  (((a =? 225) && (b =? 154) && (c =? 128))
   || ((a =? 226) && (b =? 128)
       && (((128 <=? c) && (c <=? 138)) || (c =? 168) || (c =? 169) || (c =? 175)))
   || ((a =? 226) && (b =? 129) && (c =? 159))
   || ((a =? 227) && (b =? 128) && (c =? 128)))%nat.

Fixpoint trimLeftSpace (s : string) : string :=
  match s with
  | EmptyString => s
  | String c1 s1 =>
      if asciiSpace c1 then trimLeftSpace s1
      else
        match s1 with
        | EmptyString => s
        | String c2 s2 =>
            if space2 c1 c2 then trimLeftSpace s2
            else
              match s2 with
              | EmptyString => s
              | String c3 s3 =>
                  if space3 c1 c2 c3 then trimLeftSpace s3 else s
              end
        end
  end.

(** The same scan on the reversed string: [c1] is the last byte. *)
Fixpoint trimLeftSpaceRev (s : string) : string :=
  match s with
  | EmptyString => s
  | String c1 s1 =>
      if asciiSpace c1 then trimLeftSpaceRev s1
      else
        match s1 with
        | EmptyString => s
        | String c2 s2 =>
            if space2 c2 c1 then trimLeftSpaceRev s2
            else
              match s2 with
              | EmptyString => s
              | String c3 s3 =>
                  if space3 c3 c2 c1 then trimLeftSpaceRev s3 else s
              end
        end
  end.

Definition trimRightSpace (s : string) : string :=
  rev (trimLeftSpaceRev (rev s)).

Definition TrimSpace (s : string) : string :=
  trimRightSpace (trimLeftSpace s).

End strings.

(** ** Service-name resolver and test-name derivation *)

(** [parseServiceName] (sse.go, lines 123-140).  The pair is
    [(serviceName, serviceModule)], in the order of the Go results. *)
Definition parseServiceName (fullServiceName serviceModule : string)
  : string * string :=
  if (0 <? String.length serviceModule)%nat then
    (strings.TrimPrefix fullServiceName (serviceModule ++ "_"), serviceModule)
  else
    let serviceName := EmptyString in
    let serviceNames := strings.Split fullServiceName "_" in
    match List.length serviceNames with
    | 1 => (serviceName, nth 0 serviceNames EmptyString)
    | 2 => (nth 1 serviceNames EmptyString, nth 0 serviceNames EmptyString)
    | _ => (serviceName, serviceModule)
    end.

(** [getTestName] (sse.go, lines 299-302). *)
Definition getTestName (serviceName : string) : string :=
  let testName := strings.TrimRight serviceName "-job" in
  testName.


(** ** Contexts, log streams and the observable events of a session *)

(** A value that is either present or comes with a Go [error]. *)
Inductive result (A : Type) : Type :=
| Ok (a : A)
| Err.
Arguments Ok {A} a.
Arguments Err {A}.

(** Instants and durations are counted in nanoseconds, as [time.Duration]. *)
Definition Second : Z := 1000000000.
Definition Minute : Z := 60 * Second.

(** [timeout] (sse.go, lines 43-45). *)
Definition timeout : Z := 5 * Minute.

(** A [context.Context], seen through the instant at which its [Done]
    channel is closed, by cancellation or by its deadline; [None] for a
    context that is never done. *)
Record Context : Type := { Done_at : option Z }.

(** Whether [<-ctx.Done()] is ready at an instant. *)
Definition Done (ctx : Context) (instant : Z) : bool :=
  match Done_at ctx with
  | Some d => (d <=? instant)%Z
  | None => false
  end.

(** [context.WithTimeout(parent, d)] called at instant [now]: the child is
    done at [now + d], or when the parent is done if that comes first. *)
Definition WithTimeout (now : Z) (parent : Context) (d : Z) : Context :=
  {| Done_at :=
       Some (match Done_at parent with
             | Some p => Z.min p (now + d)
             | None => (now + d)%Z
             end) |}.

(** What ends a log stream: [io.EOF], or any other read error. *)
Inductive ReadEnd : Type := EOF | ReadError.

(** The [io.ReadCloser] given by [containerlog.GetContainerLogStream]: the
    bytes it delivers, what follows them, and whether [Close] reports an
    error. *)
Record LogStream : Type := {
  content : string;
  ending : ReadEnd;
  closeFails : bool
}.

(** The [bufio.Reader] over it. *)
Record Reader : Type := { pending : string; atEnd : ReadEnd }.

Definition NewReader (out : LogStream) : Reader :=
  {| pending := content out; atEnd := ending out |}.

(** The bytes up to and including the first [delim], and those after it. *)
Fixpoint cutAfter (delim : ascii) (s : string) : option (string * string) :=
  match s with
  | EmptyString => None
  | String c s' =>
      if Ascii.eqb c delim then Some (String c EmptyString, s')
      else
        match cutAfter delim s' with
        | Some (line, rest) => Some (String c line, rest)
        | None => None
        end
  end.

(** [buf.ReadString(delim)]: the line with its delimiter and no error, or
    the bytes read before the stream ended and the error that ended it. *)
Definition ReadString (buf : Reader) (delim : ascii)
  : string * option ReadEnd * Reader :=
  match cutAfter delim (pending buf) with
  | Some (line, rest) => (line, None, {| pending := rest; atEnd := atEnd buf |})
  | None =>
      (pending buf, Some (atEnd buf),
       {| pending := EmptyString; atEnd := atEnd buf |})
  end.

Definition newline : ascii := ascii_of_nat 10.

Inductive Level : Type := Debug | Info | Error.

Definition Selector : Type := list (string * string).

(** [commonrepo.BuildFindOption], with the fields the file sets. *)
Record BuildFindOption : Type := {
  bfo_ProductName : string;
  bfo_Targets : list string;
  bfo_ServiceName : string
}.

(** How a pod wait ends: a matching pod runs, the context of the wait is
    done first, or the watch fails. *)
Inductive WaitOutcome : Type := WaitOk | WaitTimeout | WaitError.

(** What a session does that can be observed from outside: log records,
    calls to the collaborators, and the operations of the streaming loop,
    which carry the instant at which they take place.  The pod wait is
    recorded with the context it is given and with how and when it ends
    ([None] for a wait that never returns). *)
Inductive event : Type :=
| EvLog (lvl : Level) (format : string)
| EvFindTask (pipelineName typ : string)
| EvBuildFind (opt : BuildFindOption)
| EvWorkflowTaskFind (workflowName : string) (taskID : Z)
| EvTestingFind (name productName : string)
| EvGetClientset (hubServerAddr clusterID : string)
| EvWaitUntilPodRunning (ctx : Context) (ns : string) (selector : Selector)
    (outcome : option (WaitOutcome * Z))
| EvGetKubeClient (hubServerAddr clusterID : string)
| EvListPods (ns : string) (selector : Selector)
| EvGetContainerLogStream (ns podName containerName : string)
    (follow : bool) (tailLines : Z)
| EvSelect (at_ : Z) (ctxDone : bool)
| EvReadString (at_ : Z) (line : string) (err : option ReadEnd)
| EvSend (at_ : Z) (line : string)
| EvClose.

(** The [return] through which [containerLogStream] leaves. *)
Inductive Exit : Type :=
| OpenFailed
| Cancelled
| Completed
| Failed
| OutOfFuel.

(** ** The log streamer *)

(** The [for]/[select] loop of [containerLogStream] (sse.go, lines
    95-120).  [clock k] is the instant of the [k]-th operation of the
    loop; every iteration that goes on consumes at least one byte, so
    [fuel] bounds the number of iterations. *)
Fixpoint streamLoop (fuel : nat) (ctx : Context) (clock : nat -> Z)
  (k : nat) (buf : Reader) : list event * Exit :=
  match fuel with
  | O => ([], OutOfFuel)
  | S fuel' =>
      if Done ctx (clock k) then
        ([EvSelect (clock k) true;
          EvLog Info "Connection is closed, container log stream stopped"],
         Cancelled)
      else
        let '(line, err, buf') := ReadString buf newline in
        let head :=
          [EvSelect (clock k) false; EvReadString (clock (k + 1)) line err] in
        match err with
        | None =>
            let line := strings.TrimSpace line in
            let '(rest, exit) := streamLoop fuel' ctx clock (k + 3) buf' in
            (head ++ EvSend (clock (k + 2)) line :: rest, exit)
        | Some EOF =>
            let line := strings.TrimSpace line in
            (head
               ++ (if (0 <? String.length line)%nat
                   then [EvSend (clock (k + 2)) line] else [])
               ++ [EvLog Info
                     "No more input is available, container log stream stopped"],
             Completed)
        | Some ReadError =>
            (head ++ [EvLog Error "scan container log stream error: %v"],
             Failed)
        end
  end.

Inductive ClientSet : Type := clientset (id : nat).
Inductive KubeClient : Type := kubeclient (id : nat).

(** [containerLogStream] (sse.go, lines 78-121).  [open] is the result of
    [containerlog.GetContainerLogStream]; the deferred function runs when
    the body returns, whatever the [return]. *)
Definition containerLogStream (ctx : Context) (clock : nat -> Z)
  (open : string -> string -> string -> bool -> Z -> ClientSet -> result LogStream)
  (namespace podName containerName : string) (follow : bool) (tailLines : Z)
  (client : ClientSet) : list event * Exit :=
  let entry :=
    [EvLog Info "[GetContainerLogsSSE] Get container log of pod %s";
     EvGetContainerLogStream namespace podName containerName follow tailLines] in
  match open namespace podName containerName follow tailLines client with
  | Err => (entry ++ [EvLog Error "kubeCli.GetContainerLogStream error: %v"],
            OpenFailed)
  | Ok out =>
      let deferred :=
        EvClose
          :: (if closeFails out
              then [EvLog Error "Failed to close container log stream, error: %v"]
              else []) in
      let buf := NewReader out in
      let '(body, exit) :=
        streamLoop (S (String.length (content out))) ctx clock 0 buf in
      (entry ++ body ++ deferred, exit)
  end.

(** ** Requests, records of the metadata store, and the collaborators *)

(** [GetContainerOptions] (sse.go, lines 47-62). *)
Record GetContainerOptions : Type := {
  Namespace : string;
  PipelineName : string;
  SubTask : string;
  JobName : string;
  JobType : string;
  TailLines : Z;
  TaskID : Z;
  PipelineType : string;
  ServiceName : string;
  ServiceModule : string;
  TestName : string;
  EnvName : string;
  ProductName : string;
  ClusterID : string
}.

(** Assignments to the fields that the entry points write through the
    [options] pointer. *)
Definition set_Namespace (v : string) (o : GetContainerOptions) :=
  {| Namespace := v; PipelineName := PipelineName o; SubTask := SubTask o;
     JobName := JobName o; JobType := JobType o; TailLines := TailLines o;
     TaskID := TaskID o; PipelineType := PipelineType o;
     ServiceName := ServiceName o; ServiceModule := ServiceModule o;
     TestName := TestName o; EnvName := EnvName o;
     ProductName := ProductName o; ClusterID := ClusterID o |}.

Definition set_PipelineName (v : string) (o : GetContainerOptions) :=
  {| Namespace := Namespace o; PipelineName := v; SubTask := SubTask o;
     JobName := JobName o; JobType := JobType o; TailLines := TailLines o;
     TaskID := TaskID o; PipelineType := PipelineType o;
     ServiceName := ServiceName o; ServiceModule := ServiceModule o;
     TestName := TestName o; EnvName := EnvName o;
     ProductName := ProductName o; ClusterID := ClusterID o |}.

Definition set_SubTask (v : string) (o : GetContainerOptions) :=
  {| Namespace := Namespace o; PipelineName := PipelineName o; SubTask := v;
     JobName := JobName o; JobType := JobType o; TailLines := TailLines o;
     TaskID := TaskID o; PipelineType := PipelineType o;
     ServiceName := ServiceName o; ServiceModule := ServiceModule o;
     TestName := TestName o; EnvName := EnvName o;
     ProductName := ProductName o; ClusterID := ClusterID o |}.

Definition set_JobName (v : string) (o : GetContainerOptions) :=
  {| Namespace := Namespace o; PipelineName := PipelineName o;
     SubTask := SubTask o; JobName := v; JobType := JobType o;
     TailLines := TailLines o; TaskID := TaskID o;
     PipelineType := PipelineType o; ServiceName := ServiceName o;
     ServiceModule := ServiceModule o; TestName := TestName o;
     EnvName := EnvName o; ProductName := ProductName o;
     ClusterID := ClusterID o |}.

Definition set_JobType (v : string) (o : GetContainerOptions) :=
  {| Namespace := Namespace o; PipelineName := PipelineName o;
     SubTask := SubTask o; JobName := JobName o; JobType := v;
     TailLines := TailLines o; TaskID := TaskID o;
     PipelineType := PipelineType o; ServiceName := ServiceName o;
     ServiceModule := ServiceModule o; TestName := TestName o;
     EnvName := EnvName o; ProductName := ProductName o;
     ClusterID := ClusterID o |}.

Definition set_TaskID (v : Z) (o : GetContainerOptions) :=
  {| Namespace := Namespace o; PipelineName := PipelineName o;
     SubTask := SubTask o; JobName := JobName o; JobType := JobType o;
     TailLines := TailLines o; TaskID := v;
     PipelineType := PipelineType o; ServiceName := ServiceName o;
     ServiceModule := ServiceModule o; TestName := TestName o;
     EnvName := EnvName o; ProductName := ProductName o;
     ClusterID := ClusterID o |}.

Definition set_ClusterID (v : string) (o : GetContainerOptions) :=
  {| Namespace := Namespace o; PipelineName := PipelineName o;
     SubTask := SubTask o; JobName := JobName o; JobType := JobType o;
     TailLines := TailLines o; TaskID := TaskID o;
     PipelineType := PipelineType o; ServiceName := ServiceName o;
     ServiceModule := ServiceModule o; TestName := TestName o;
     EnvName := EnvName o; ProductName := ProductName o; ClusterID := v |}.

(** The constants of the packages [setting] and [config] that the file
    names; their values are declared outside it. *)
Record Settings : Type := {
  setting_LocalClusterID : string;
  setting_AttachedClusterNamespace : string;
  setting_JobLabelSTypeKey : string;
  setting_JobLabelNameKey : string;
  config_Namespace : string;
  config_HubServerAddress : string;
  config_ServiceType : string;
  config_TaskBuild : string;
  config_TaskTestingV2 : string;
  config_JobZadigBuild : string;
  config_JobFreestyle : string;
  config_JobZadigTesting : string;
  config_JobZadigScanning : string;
  config_JobZadigDistributeImage : string;
  config_JobBuild : string;
  config_JobPlugin : string
}.

(** The records of the metadata store, with the fields the file reads. *)
Record Task : Type := { task_TaskID : Z }.
Record PreBuild : Type := { PreBuild_ClusterID : string }.
Record Build : Type := { build_PreBuild : option PreBuild }.
Record PreTest : Type := { PreTest_ClusterID : string }.
Record Testing : Type := { testing_PreTest : option PreTest }.

(** A job's [Spec] payload, seen through what [commonmodels.IToi] makes of
    it in each of the two shapes: the [Properties.ClusterID] of the decoded
    value, or an error. *)
Record JobSpec : Type := {
  asFreestyleSpec : result string;
  asPluginSpec : result string
}.

Record JobTask : Type := {
  job_Name : string;
  job_K8sJobName : string;
  job_JobType : string;
  job_Spec : JobSpec
}.
Record StageTask : Type := { stage_Jobs : list JobTask }.
Record WorkflowTask : Type := { task_Stages : list StageTask }.

(** [label.JobLabel]. *)
Record JobLabel : Type := {
  jl_PipelineName : string;
  jl_TaskID : Z;
  jl_TaskType : string;
  jl_ServiceName : string;
  jl_PipelineType : string
}.

Record Pod : Type := { pod_Name : string }.

(** The collaborators: the metadata store, the cluster client factory and
    the orchestration API.  [now] is the instant at which [waitAndGetLog]
    is entered, [clock] gives the instants of the operations of the
    streaming loop, [PodRunningAt] the instant, if any, from which a pod
    matching the selector is running, and [WatchFailsAt] the instant, if
    any, at which the watch of the pods fails. *)
Record World : Type := {
  now : Z;
  clock : nat -> Z;
  FindTask : string -> string -> result Task;
  BuildFind : BuildFindOption -> result (option Build);
  WorkflowTaskFind : string -> Z -> result WorkflowTask;
  TestingFind : string -> string -> option Testing;
  GetJobLabels : JobLabel -> Selector;
  GetClientset : string -> string -> result ClientSet;
  PodRunningAt : string -> Selector -> ClientSet -> option Z;
  WatchFailsAt : string -> Selector -> ClientSet -> option Z;
  GetKubeClient : string -> string -> result KubeClient;
  ListPods : string -> Selector -> KubeClient -> result (list Pod);
  GetContainerLogStream :
    string -> string -> string -> bool -> Z -> ClientSet -> result LogStream
}.

(** How a call ends: it returns, it panics on a nil pointer, or it never
    returns. *)
Inductive Completion : Type := Returned | Panicked | Hung.

(** ** The pod locator *)

(** Modelled from the spec: [watcher.WaitUntilPodRunning] is not among the
    sources.  The wait, entered at the instant [now], goes on until a pod
    matching the selector is running, the context is done, or the watch
    fails: it succeeds in the first case, fails with a timeout in the
    second and with an error in the third; what comes first decides, a
    failure before a running pod and the timeout before the error when
    they fall together.  The result comes with the instant at which the
    call returns; [None] is a wait that never returns. *)
Definition WaitUntilPodRunning (w : World) (ctx : Context)
  (namespace : string) (selector : Selector) (clientSet : ClientSet)
  : option (WaitOutcome * Z) :=
  let start := now w in
  let failure :=
    match Done_at ctx, WatchFailsAt w namespace selector clientSet with
    | Some d, Some e =>
        if (Z.max start e <? Z.max start d)%Z
        then Some (WaitError, Z.max start e)
        else Some (WaitTimeout, Z.max start d)
    | Some d, None => Some (WaitTimeout, Z.max start d)
    | None, Some e => Some (WaitError, Z.max start e)
    | None, None => None
    end in
  match PodRunningAt w namespace selector clientSet, failure with
  | Some t, Some (how, f) =>
      if (Z.max start t <? f)%Z
      then Some (WaitOk, Z.max start t)
      else Some (how, f)
  | Some t, None => Some (WaitOk, Z.max start t)
  | None, _ => failure
  end.

Section Engine.

Variable cfg : Settings.
Variable w : World.

(** [waitAndGetLog] (sse.go, lines 304-346).  The deferred [cancel] of
    [PodCtx] releases its timer; the streaming runs under [ctx], the
    caller's context. *)
Definition waitAndGetLog (ctx : Context) (selector : Selector)
  (options : GetContainerOptions) : list event * Completion :=
  let PodCtx := WithTimeout (now w) ctx timeout in
  let t0 :=
    [EvLog Debug
       "Waiting until pod is running before establishing the stream. labelSelector: %+v, clusterId: %s, namespace: %s";
     EvGetClientset (config_HubServerAddress cfg) (ClusterID options)] in
  match GetClientset w (config_HubServerAddress cfg) (ClusterID options) with
  | Err =>
      (t0 ++ [EvLog Error "GetContainerLogs, get client set error: %s"],
       Returned)
  | Ok clientSet =>
      let waited :=
        WaitUntilPodRunning w PodCtx (Namespace options) selector clientSet in
      let t1 :=
        t0 ++ [EvWaitUntilPodRunning PodCtx (Namespace options) selector
                 waited] in
      match waited with
      | None => (t1, Hung)
      | Some (WaitTimeout, _) | Some (WaitError, _) =>
          (t1 ++ [EvLog Error "GetContainerLogs, wait pod running error: %s"],
           Returned)
      | Some (WaitOk, _) =>
          let t2 :=
            t1 ++ [EvGetKubeClient (config_HubServerAddress cfg)
                     (ClusterID options)] in
          match GetKubeClient w (config_HubServerAddress cfg)
                  (ClusterID options) with
          | Err =>
              (t2 ++ [EvLog Error "GetContainerLogs, get kube client error: %s"],
               Returned)
          | Ok kubeClient =>
              let t3 := t2 ++ [EvListPods (Namespace options) selector] in
              match ListPods w (Namespace options) selector kubeClient with
              | Err =>
                  (t3 ++ [EvLog Error "GetContainerLogs, get pod error: %+v"],
                   Returned)
              | Ok pods =>
                  let t4 := t3 ++ [EvLog Debug "Found %d running pods"] in
                  match pods with
                  | pod0 :: _ =>
                      (t4 ++ fst (containerLogStream ctx (clock w)
                                    (GetContainerLogStream w)
                                    (Namespace options)
                                    (pod_Name pod0) (SubTask options)
                                    true
                                    (TailLines options)
                                    clientSet),
                       Returned)
                  | [] => (t4, Returned)
                  end
              end
          end
      end
  end.

(** [getWorkflowSelector] (sse.go, lines 348-360).  The two keys are
    distinct constants; the entries with an empty value are deleted. *)
Definition getWorkflowSelector (options : GetContainerOptions) : Selector :=
  let retMap :=
    [(setting_JobLabelSTypeKey cfg,
      strings.ReplaceAll (JobType options) "_" "-");
     (setting_JobLabelNameKey cfg,
      strings.ReplaceAll (JobName options) "_" "-")] in
  filter (fun kv => negb (String.length (snd kv) =? 0)%nat) retMap.

(** The state in which an entry point leaves: the record behind the
    [options] pointer ([None] for a nil pointer), what it did, and how
    it ended. *)
Record Run : Type := {
  final : option GetContainerOptions;
  trace : list event;
  how : Completion
}.

Definition nonempty (s : string) : bool := negb (String.eqb s EmptyString).

(** The job-context resolution of [TaskContainerLogStream] (sse.go, lines
    148-195): the options after it, what it did, and whether the function
    returned from inside it. *)
Definition TaskContainerLogStream_resolve (o : GetContainerOptions)
  : GetContainerOptions * list event * bool :=
  let '(serviceName, serviceModule) :=
    parseServiceName (ServiceName o) (ServiceModule o) in
  if nonempty (EnvName o) && nonempty (ProductName o)
     && String.eqb (PipelineName o) EmptyString
  then
    let o1 :=
      set_PipelineName (serviceName ++ "-" ++ EnvName o ++ "-" ++ "job") o in
    let call := [EvFindTask (PipelineName o1) (config_ServiceType cfg)] in
    match FindTask w (PipelineName o1) (config_ServiceType cfg) with
    | Ok taskObj => (set_TaskID (task_TaskID taskObj) o1, call, false)
    | Err => (o1, call, false)
    end
  else if nonempty (ProductName o) then
    let buildFindOptions :=
      {| bfo_ProductName := ProductName o;
         bfo_Targets := [serviceModule];
         bfo_ServiceName :=
           if nonempty serviceName then serviceName else EmptyString |} in
    let adopt (build : option Build) (tr : list event) :=
      match build with
      | Some b =>
          match build_PreBuild b with
          | Some pre =>
              if nonempty (PreBuild_ClusterID pre) then
                let o' := set_ClusterID (PreBuild_ClusterID pre) o in
                (if String.eqb (PreBuild_ClusterID pre)
                      (setting_LocalClusterID cfg)
                 then set_Namespace (config_Namespace cfg) o'
                 else set_Namespace (setting_AttachedClusterNamespace cfg) o',
                 tr, false)
              else (o, tr, false)
          | None => (o, tr, false)
          end
      | None => (o, tr, false)
      end in
    match BuildFind w buildFindOptions with
    | Ok build => adopt build [EvBuildFind buildFindOptions]
    | Err =>
        (* Maybe this service is a shared service *)
        let buildFindOptions' :=
          {| bfo_ProductName := EmptyString;
             bfo_Targets := [serviceModule];
             bfo_ServiceName :=
               if nonempty serviceName then serviceName else EmptyString |} in
        let tr := [EvBuildFind buildFindOptions; EvBuildFind buildFindOptions'] in
        match BuildFind w buildFindOptions' with
        | Ok build => adopt build tr
        | Err =>
            (o, tr ++ [EvLog Error "Failed to query build for service %s: %s"],
             true)
        end
    end
  else (o, [], false).

(** [TaskContainerLogStream] (sse.go, lines 142-208). *)
Definition TaskContainerLogStream (ctx : Context)
  (options : option GetContainerOptions) : Run :=
  match options with
  | None => {| final := None; trace := []; how := Returned |}
  | Some o =>
      let t0 := [EvLog Debug "Start to get task container log."] in
      let '(o1, tr, returned) := TaskContainerLogStream_resolve o in
      if returned then
        {| final := Some o1; trace := t0 ++ tr; how := Returned |}
      else
        let o2 :=
          if String.eqb (SubTask o1) EmptyString
          then set_SubTask (config_TaskBuild cfg) o1 else o1 in
        let selector :=
          GetJobLabels w
            {| jl_PipelineName := PipelineName o2;
               jl_TaskID := TaskID o2;
               jl_TaskType := SubTask o2;
               jl_ServiceName := ServiceName o2;
               jl_PipelineType := PipelineType o2 |} in
        let '(tw, c) := waitAndGetLog ctx selector o2 in
        {| final := Some o2; trace := t0 ++ tr ++ tw; how := c |}
  end.

(** The job types whose spec is decoded as a [JobTaskFreestyleSpec]: the
    chain of [fallthrough] cases (sse.go, lines 228-238). *)
Definition freestyleShaped (jobType : string) : bool :=
  String.eqb jobType (config_JobZadigBuild cfg)
  || String.eqb jobType (config_JobFreestyle cfg)
  || String.eqb jobType (config_JobZadigTesting cfg)
  || String.eqb jobType (config_JobZadigScanning cfg)
  || String.eqb jobType (config_JobZadigDistributeImage cfg)
  || String.eqb jobType (config_JobBuild cfg).

(** The [switch] on the job type (sse.go, lines 227-255): the cluster id
    of the decoded spec, an error of the decoding, or [None] for a job
    type that is not supported. *)
Definition jobClusterID (job : JobTask) : option (result string) :=
  if freestyleShaped (job_JobType job)
  then Some (asFreestyleSpec (job_Spec job))
  else if String.eqb (job_JobType job) (config_JobPlugin cfg)
       then Some (asPluginSpec (job_Spec job))
       else None.

(** The inner loop of [WorkflowTaskV4ContainerLogStream] over the jobs of
    one stage (sse.go, lines 221-266): the options after it, what it did,
    and whether the function returned from inside it.  [break] leaves
    this loop only. *)
Fixpoint scanJobs (jobs : list JobTask) (o : GetContainerOptions)
  : GetContainerOptions * list event * bool :=
  match jobs with
  | [] => (o, [], false)
  | job :: rest =>
      if negb (String.eqb (job_Name job) (SubTask o)) then scanJobs rest o
      else
        let o1 := set_JobType (job_JobType job)
                    (set_JobName (job_K8sJobName job) o) in
        match jobClusterID job with
        | None =>
            (o1,
             [EvLog Error "get real-time log error, unsupported job type %s"],
             true)
        | Some Err => (o1, [EvLog Error "Failed to parse job spec: %v"], true)
        | Some (Ok clusterID) =>
            let o2 := set_ClusterID clusterID o1 in
            let o3 :=
              if String.eqb (ClusterID o2) EmptyString
              then set_ClusterID (setting_LocalClusterID cfg) o2 else o2 in
            let o4 :=
              if String.eqb (ClusterID o3) (setting_LocalClusterID cfg)
              then set_Namespace (config_Namespace cfg) o3
              else set_Namespace (setting_AttachedClusterNamespace cfg) o3 in
            (o4, [], false)
        end
  end.

(** The outer loop, over the stages (sse.go, lines 220-267). *)
Fixpoint scanStages (stages : list StageTask) (o : GetContainerOptions)
  : GetContainerOptions * list event * bool :=
  match stages with
  | [] => (o, [], false)
  | stage :: rest =>
      let '(o1, tr, returned) := scanJobs (stage_Jobs stage) o in
      if returned then (o1, tr, true)
      else
        let '(o2, tr', returned') := scanStages rest o1 in
        (o2, tr ++ tr', returned')
  end.

(** [WorkflowTaskV4ContainerLogStream] (sse.go, lines 210-271). *)
Definition WorkflowTaskV4ContainerLogStream (ctx : Context)
  (options : option GetContainerOptions) : Run :=
  match options with
  | None => {| final := None; trace := []; how := Returned |}
  | Some o =>
      let t0 :=
        [EvLog Debug "Start to get task container log.";
         EvWorkflowTaskFind (PipelineName o) (TaskID o)] in
      match WorkflowTaskFind w (PipelineName o) (TaskID o) with
      | Err =>
          {| final := Some o;
             trace :=
               t0 ++ [EvLog Error "Failed to find workflow %s taskID %s: %v"];
             how := Returned |}
      | Ok task =>
          let '(o1, tr, returned) := scanStages (task_Stages task) o in
          if returned then
            {| final := Some o1; trace := t0 ++ tr; how := Returned |}
          else
            let selector := getWorkflowSelector o1 in
            let '(tw, c) := waitAndGetLog ctx selector o1 in
            {| final := Some o1; trace := t0 ++ tr ++ tw; how := c |}
      end
  end.

(** [TestJobContainerLogStream] (sse.go, lines 273-297).  Its first
    statement writes through [options]. *)
Definition TestJobContainerLogStream (ctx : Context)
  (options : option GetContainerOptions) : Run :=
  match options with
  | None => {| final := None; trace := []; how := Panicked |}
  | Some o =>
      let o1 := set_SubTask (config_TaskTestingV2 cfg) o in
      let selector :=
        GetJobLabels w
          {| jl_PipelineName := PipelineName o1;
             jl_TaskID := TaskID o1;
             jl_TaskType := SubTask o1;
             jl_ServiceName := ServiceName o1;
             jl_PipelineType := PipelineType o1 |} in
      let t0 :=
        [EvTestingFind (getTestName (ServiceName o1)) EmptyString] in
      let testing :=
        TestingFind w (getTestName (ServiceName o1)) EmptyString in
      let o2 :=
        match testing with
        | Some t =>
            match testing_PreTest t with
            | Some pre =>
                if nonempty (PreTest_ClusterID pre) then
                  let o' := set_ClusterID (PreTest_ClusterID pre) o1 in
                  if String.eqb (PreTest_ClusterID pre)
                       (setting_LocalClusterID cfg)
                  then set_Namespace (config_Namespace cfg) o'
                  else set_Namespace (setting_AttachedClusterNamespace cfg) o'
                else o1
            | None => o1
            end
        | None => o1
        end in
      let '(tw, c) := waitAndGetLog ctx selector o2 in
      {| final := Some o2; trace := t0 ++ tw; how := c |}
  end.

End Engine.

(** ** The specification's own words, to compare the code with *)

(** The namespace rule of the specification: the local cluster id maps to
    the default configured namespace, every other one to the namespace of
    the attached clusters. *)
Definition namespace_of_cluster (cfg : Settings) (clusterID : string) : string :=
  if String.eqb clusterID (setting_LocalClusterID cfg)
  then config_Namespace cfg
  else setting_AttachedClusterNamespace cfg.

(** The newline-terminated lines of an input, each with its terminator,
    and the final partial line, which has none. *)
Fixpoint lines_from (cur : string) (s : string) : list string * string :=
  match s with
  | EmptyString => ([], cur)
  | String c s' =>
      if Ascii.eqb c newline then
        let '(ls, partial) := lines_from EmptyString s' in
        ((cur ++ String c EmptyString)%string :: ls, partial)
      else lines_from (cur ++ String c EmptyString)%string s'
  end.

Definition input_lines (s : string) : list string * string :=
  lines_from EmptyString s.

(** Trimming a trailing ["-job"] suffix. *)
Definition trim_job_suffix (serviceName : string) : string :=
  strings.TrimSuffix serviceName "-job".

(** ** Observations on traces *)

(** The lines sent to [streamChan], in the order of the sends. *)
Fixpoint sends (tr : list event) : list string :=
  match tr with
  | [] => []
  | EvSend _ line :: tr' => line :: sends tr'
  | _ :: tr' => sends tr'
  end.

(** The number of calls to [Close] on the log stream. *)
Fixpoint closes (tr : list event) : nat :=
  match tr with
  | [] => 0
  | EvClose :: tr' => S (closes tr')
  | _ :: tr' => closes tr'
  end.

(** The number of streams opened. *)
Fixpoint opens (tr : list event) : nat :=
  match tr with
  | [] => 0
  | EvGetContainerLogStream _ _ _ _ _ :: tr' => S (opens tr')
  | _ :: tr' => opens tr'
  end.

(** The operations of the streaming loop: the [select], the read and the
    send. *)
Definition loopOperation (e : event) : bool :=
  match e with
  | EvSelect _ _ | EvReadString _ _ _ | EvSend _ _ => true
  | _ => false
  end.

(** The sends that take place at an instant at which the context is
    done. *)
Fixpoint lateSends (ctx : Context) (tr : list event) : list string :=
  match tr with
  | [] => []
  | EvSend at_ line :: tr' =>
      if Done ctx at_ then line :: lateSends ctx tr' else lateSends ctx tr'
  | _ :: tr' => lateSends ctx tr'
  end.

(** ** A sample deployment, for evaluation *)

Definition sample_settings : Settings :=
  {| setting_LocalClusterID := "0123456789abcdef12345678";
     setting_AttachedClusterNamespace := "koderover-agent";
     setting_JobLabelSTypeKey := "s-type";
     setting_JobLabelNameKey := "s-job";
     config_Namespace := "zadig";
     config_HubServerAddress := "http://hub-server:26000";
     config_ServiceType := "service";
     config_TaskBuild := "buildv2";
     config_TaskTestingV2 := "testingv2";
     config_JobZadigBuild := "zadig-build";
     config_JobFreestyle := "freestyle";
     config_JobZadigTesting := "zadig-test";
     config_JobZadigScanning := "zadig-scanning";
     config_JobZadigDistributeImage := "zadig-distribute-image";
     config_JobBuild := "build";
     config_JobPlugin := "plugin" |}.

Definition sample_options : GetContainerOptions :=
  {| Namespace := ""; PipelineName := "wf1"; SubTask := "build-job";
     JobName := ""; JobType := ""; TailLines := 100; TaskID := 7;
     PipelineType := ""; ServiceName := "web-job"; ServiceModule := "";
     TestName := ""; EnvName := ""; ProductName := "shop"; ClusterID := "" |}.

(** A log stream with three lines, the last one without a newline. *)
Definition sample_stream : LogStream :=
  {| content :=
       ("l1" ++ String newline ("l2" ++ String newline "l3"))%string;
     ending := EOF;
     closeFails := false |}.

Definition sample_job : JobTask :=
  {| job_Name := "build-job"; job_K8sJobName := "wf1-7-build-job";
     job_JobType := "zadig-build";
     job_Spec := {| asFreestyleSpec := Ok ""; asPluginSpec := Err |} |}.

(** A world in which everything is found, a pod matching the selector
    runs from the instant [running], if there is one, and the log of its
    container is [stream]. *)
Definition sample_world (stream : LogStream) (running : option Z) : World :=
  {| now := 0;
     clock := Z.of_nat;
     FindTask := fun _ _ => Ok {| task_TaskID := 7 |};
     BuildFind := fun _ =>
       Ok (Some {| build_PreBuild := Some {| PreBuild_ClusterID := "c-42" |} |});
     WorkflowTaskFind := fun _ _ =>
       Ok {| task_Stages := [ {| stage_Jobs := [sample_job] |} ] |};
     TestingFind := fun _ _ =>
       Some {| testing_PreTest :=
                 Some {| PreTest_ClusterID := "0123456789abcdef12345678" |} |};
     GetJobLabels := fun l => [("s-task", jl_PipelineName l)];
     GetClientset := fun _ _ => Ok (clientset 0);
     PodRunningAt := fun _ _ _ => running;
     WatchFailsAt := fun _ _ _ => None;
     GetKubeClient := fun _ _ => Ok (kubeclient 0);
     ListPods := fun _ _ _ => Ok [ {| pod_Name := "pod-0" |} ];
     GetContainerLogStream := fun _ _ _ _ _ _ => Ok stream |}.

(** A context that is never done, and one cancelled at instant 1. *)
Definition background : Context := {| Done_at := None |}.
Definition cancelled_at_1 : Context := {| Done_at := Some 1%Z |}.

(** ** Predicates on inputs and traces used in the statements *)

Definition underscore : ascii := "_"%char.

(** A newline-terminated line: some bytes without a newline, then one. *)
Definition terminated (line : string) : Prop :=
  exists body,
    line = (body ++ String newline "")%string
    /\ strings.CountByte newline body = 0.

(** The push at the end of the input: the trimmed partial line when the
    stream ended with [io.EOF] and the line is not empty. *)
Definition final_push (e : ReadEnd) (partial : string) : list string :=
  match e with
  | EOF =>
      if (0 <? String.length (strings.TrimSpace partial))%nat
      then [strings.TrimSpace partial] else []
  | ReadError => []
  end.

Definition exit_of (e : ReadEnd) : Exit :=
  match e with EOF => Completed | ReadError => Failed end.

(** No operation of the streaming loop. *)
Definition quiet (tr : list event) : bool :=
  forallb (fun e => negb (loopOperation e)) tr.

(** Every [select] takes the branch that the state of the context at that
    instant commands, and every read and every send belongs to an
    iteration whose [select] found the context not done: [armed] holds
    from such a [select] to the send of its iteration. *)
Fixpoint selectGuarded (ctx : Context) (armed : bool) (tr : list event) : bool :=
  match tr with
  | [] => true
  | EvSelect at_ d :: tr' =>
      Bool.eqb d (Done ctx at_) && selectGuarded ctx (negb d) tr'
  | EvReadString _ _ _ :: tr' => armed && selectGuarded ctx armed tr'
  | EvSend _ _ :: tr' => armed && selectGuarded ctx false tr'
  | _ :: tr' => selectGuarded ctx armed tr'
  end.

(** After a [select] that finds the context done, the loop does nothing
    more. *)
Fixpoint quietAfterDone (tr : list event) : bool :=
  match tr with
  | [] => true
  | EvSelect _ true :: tr' => quiet tr'
  | _ :: tr' => quietAfterDone tr'
  end.

(** Instants do not go back. *)
Definition nondecreasing (clock : nat -> Z) : Prop :=
  forall i j, i <= j -> (clock i <= clock j)%Z.

(** A stream that breaks after its first line, and whose [Close] fails. *)
Definition broken_stream : LogStream :=
  {| content := ("l1" ++ String newline "l2")%string;
     ending := ReadError;
     closeFails := true |}.

(** Namespace and cluster id are as they were in [o0], or the namespace is
    the one the rule gives for the cluster id. *)
Definition untouched_or_by_rule (cfg : Settings)
  (o0 o : GetContainerOptions) : Prop :=
  (Namespace o = Namespace o0 /\ ClusterID o = ClusterID o0)
  \/ Namespace o = namespace_of_cluster cfg (ClusterID o).

(** ** Further observations, for the properties beyond the claims *)

(** The last byte of a string belongs to a cutset; [false] for the empty
    string. *)
Fixpoint endsIn (cutset : string) (s : string) : bool :=
  match s with
  | EmptyString => false
  | String c EmptyString => strings.ContainsByte cutset c
  | String _ s' => endsIn cutset s'
  end.

(** Every byte of a string belongs to a cutset. *)
Fixpoint allIn (cutset : string) (s : string) : bool :=
  match s with
  | EmptyString => true
  | String c s' => strings.ContainsByte cutset c && allIn cutset s'
  end.

(** A string with each underscore replaced by a hyphen. *)
Fixpoint hyphenated (s : string) : string :=
  match s with
  | EmptyString => EmptyString
  | String c s' =>
      String (if Ascii.eqb c underscore then "-"%char else c) (hyphenated s')
  end.

(** The calls to the cluster: client factory, pod watch, pod listing and
    log stream. *)
Fixpoint clusterCalls (tr : list event) : nat :=
  match tr with
  | [] => 0
  | EvGetClientset _ _ :: tr'
  | EvWaitUntilPodRunning _ _ _ _ :: tr'
  | EvGetKubeClient _ _ :: tr'
  | EvListPods _ _ :: tr'
  | EvGetContainerLogStream _ _ _ _ _ :: tr' => S (clusterCalls tr')
  | _ :: tr' => clusterCalls tr'
  end.

(** The lookups in the metadata store and the log records: what the
    job-context resolution of an entry point does. *)
Definition metadataEvent (e : event) : bool :=
  match e with
  | EvLog _ _ | EvFindTask _ _ | EvBuildFind _ | EvWorkflowTaskFind _ _
  | EvTestingFind _ _ => true
  | _ => false
  end.

Definition metadataOnly (tr : list event) : bool := forallb metadataEvent tr.


(** ** The environment entry point *)







(** The first byte of a string is an ASCII white space. *)
Definition startsWithSpace (s : string) : bool :=
  match s with
  | EmptyString => false
  | String c _ => strings.asciiSpace c
  end.

(** The last byte of a string is an ASCII white space. *)
Fixpoint endsWithSpace (s : string) : bool :=
  match s with
  | EmptyString => false
  | String c EmptyString => strings.asciiSpace c
  | String _ s' => endsWithSpace s'
  end.

(** A line as the sink expects it: no newline byte, and no ASCII white
    space at either end. *)
Definition cleanLine (line : string) : Prop :=
  strings.CountByte newline line = 0
  /\ startsWithSpace line = false
  /\ endsWithSpace line = false.

(** The fields of a request that no entry point writes. *)
Definition requestCore (o : GetContainerOptions)
  : Z * string * string * string * string * string * string :=
  (TailLines o, PipelineType o, ServiceName o, ServiceModule o, TestName o,
   EnvName o, ProductName o).

(** No job of a stage is named by the sub-task of the request. *)
Definition noJobNamed (subTask : string) (stage : StageTask) : Prop :=
  Forall (fun j => job_Name j <> subTask) (stage_Jobs stage).

(** The number of lookups in the metadata store. *)
Fixpoint lookups (tr : list event) : nat :=
  match tr with
  | [] => 0
  | EvFindTask _ _ :: tr'
  | EvBuildFind _ :: tr'
  | EvWorkflowTaskFind _ _ :: tr'
  | EvTestingFind _ _ :: tr' => S (lookups tr')
  | _ :: tr' => lookups tr'
  end.

(** A world whose metadata store holds nothing, and whose cluster lists
    no pod. *)
Definition bare_world : World :=
  {| now := 0;
     clock := Z.of_nat;
     FindTask := fun _ _ => Err;
     BuildFind := fun _ => Err;
     WorkflowTaskFind := fun _ _ => Err;
     TestingFind := fun _ _ => None;
     GetJobLabels := fun _ => [];
     GetClientset := fun _ _ => Ok (clientset 0);
     PodRunningAt := fun _ _ _ => Some 5%Z;
     WatchFailsAt := fun _ _ _ => None;
     GetKubeClient := fun _ _ => Ok (kubeclient 0);
     ListPods := fun _ _ _ => Ok [];
     GetContainerLogStream := fun _ _ _ _ _ _ => Ok sample_stream |}.

(** A world in which a build is found only when no product is asked
    for. *)
Definition shared_build_world : World :=
  {| now := 0;
     clock := Z.of_nat;
     FindTask := fun _ _ => Err;
     BuildFind := fun opt =>
       if String.eqb (bfo_ProductName opt) "" then
         Ok (Some {| build_PreBuild :=
                       Some {| PreBuild_ClusterID := "c-42" |} |})
       else Err;
     WorkflowTaskFind := fun _ _ => Err;
     TestingFind := fun _ _ => None;
     GetJobLabels := fun _ => [];
     GetClientset := fun _ _ => Ok (clientset 0);
     PodRunningAt := fun _ _ _ => None;
     WatchFailsAt := fun _ _ _ => None;
     GetKubeClient := fun _ _ => Ok (kubeclient 0);
     ListPods := fun _ _ _ => Ok [];
     GetContainerLogStream := fun _ _ _ _ _ _ => Err |}.

(** A request that comes from an environment: no pipeline name. *)
Definition environment_request : GetContainerOptions :=
  {| Namespace := "ns"; PipelineName := ""; SubTask := ""; JobName := "";
     JobType := ""; TailLines := 10; TaskID := 0; PipelineType := "";
     ServiceName := "gw_api"; ServiceModule := ""; TestName := "";
     EnvName := "dev"; ProductName := "shop"; ClusterID := "" |}.

(** A job of an earlier stage with the name of [sample_job], run on an
    attached cluster, and a world whose workflow task holds it in a first
    stage and [sample_job] in a second one. *)
Definition earlier_job : JobTask :=
  {| job_Name := "build-job"; job_K8sJobName := "wf1-7-first";
     job_JobType := "plugin";
     job_Spec := {| asFreestyleSpec := Err; asPluginSpec := Ok "c-1" |} |}.

Definition two_stage_task : WorkflowTask :=
  {| task_Stages :=
       [ {| stage_Jobs := [earlier_job] |};
         {| stage_Jobs := [sample_job; earlier_job] |} ] |}.

Definition two_stage_world : World :=
  {| now := 0;
     clock := Z.of_nat;
     FindTask := fun _ _ => Err;
     BuildFind := fun _ => Err;
     WorkflowTaskFind := fun _ _ => Ok two_stage_task;
     TestingFind := fun _ _ => None;
     GetJobLabels := fun _ => [];
     GetClientset := fun _ _ => Ok (clientset 0);
     PodRunningAt := fun _ _ _ => None;
     WatchFailsAt := fun _ _ _ => None;
     GetKubeClient := fun _ _ => Ok (kubeclient 0);
     ListPods := fun _ _ _ => Ok [];
     GetContainerLogStream := fun _ _ _ _ _ _ => Err |}.

(** What the sink receives from a log stream that is read to its end. *)
Definition fullDelivery (out : LogStream) : list string :=
  map strings.TrimSpace (fst (input_lines (content out)))
    ++ final_push (ending out) (snd (input_lines (content out))).

(** ** The workflow collection (package [mongodb], in the second source file) *)

Module mongodb.

(** The values the file puts under a key of a [bson.M]: a string, or the
    document [{"$in": l}] over a string slice. *)
Inductive value : Type :=
| VString (s : string)
| VIn (l : list string).

(** A [bson.M], with its keys in the order in which the code sets them;
    the keys of one document are distinct. *)
Definition M : Type := list (string * value).

(** The filters the file builds: a [bson.M], or the [bson.D] with the
    one key ["$or"] over a [bson.A] of documents. *)
Inductive filter : Type :=
| FM (m : M)
| FOr (condition : list M).

(** The errors of the driver: [mongo.ErrNoDocuments], or any other. *)
Inductive merror : Type := ErrNoDocuments | ErrOther.

(** [ListWorkflowV4Option] (systemconfig/email.go, lines 85-89). *)
Record ListWorkflowV4Option : Type := {
  opt_ProjectName : string;
  opt_DisplayName : string;
  opt_Names : list string
}.

(** [WorkflowV4] (systemconfig/email.go, lines 125-128), the key of
    [ListByWorkflows]. *)
Record WorkflowV4 : Type := { wf_Name : string; wf_ProjectName : string }.

(** A document of the collection, as decoded by [cursor.All]. *)
Definition Doc : Type := nat.

(** [options.FindOptions]: skip and limit, when set. *)
Definition FindOptions : Type := option (Z * Z).

(** The collection: [CountDocuments] gives a count and maybe an error;
    [Find] gives a cursor, here the documents that [cursor.All] decodes
    or the error of the decoding, or an error. *)
Record Collection : Type := {
  CountDocuments : filter -> Z * option merror;
  Find : filter -> FindOptions -> (list Doc * option merror) + merror
}.

(** The calls to the collection. *)
Inductive call : Type :=
| CallCountDocuments (query : filter)
| CallFind (query : filter) (findOption : FindOptions).

(** A 64-bit signed integer: the value of [z] after wrap-around. *)
Definition int64 (z : Z) : Z :=
  ((z + 9223372036854775808) mod 18446744073709551616 - 9223372036854775808)%Z.

(** [ListByProjectNames] (systemconfig/email.go, lines 161-186): the
    slice ([None] for [nil]), the error, and the calls made. *)
Definition ListByProjectNames (c : Collection) (projects : list string)
  : option (list Doc) * option merror * list call :=
  let resp : list Doc := [] in
  let query :=
    if negb (List.length projects =? 0)%nat then
      if negb (List.length projects =? 1)%nat
         || negb (String.eqb (nth 0 projects EmptyString) "*")
      then Some (FM [("project"%string, VIn projects)])
      else Some (FM [])
    else None in
  match query with
  | None => (Some resp, None, [])
  | Some query =>
      match Find c query None with
      | inr ErrNoDocuments => (None, None, [CallFind query None])
      | inr err => (None, Some err, [CallFind query None])
      | inl (docs, Some err) => (None, Some err, [CallFind query None])
      | inl (docs, None) => (Some docs, None, [CallFind query None])
      end
  end.

(** [ListByWorkflows] (systemconfig/email.go, lines 134-159).  [res] is
    declared without a value: [cursor.All] leaves it [nil] when it decodes
    no document. *)
Definition ListByWorkflows (c : Collection) (workflows : list WorkflowV4)
  : option (list Doc) * option merror * list call :=
  if (List.length workflows =? 0)%nat then (None, None, [])
  else
    let condition :=
      map (fun workflow =>
             [("name"%string, VString (wf_Name workflow));
              ("project"%string, VString (wf_ProjectName workflow))])
        workflows in
    let filter := FOr condition in
    match Find c filter None with
    | inr ErrNoDocuments => (None, None, [CallFind filter None])
    | inr err => (None, Some err, [CallFind filter None])
    | inl (_, Some err) => (None, Some err, [CallFind filter None])
    | inl ([], None) => (None, None, [CallFind filter None])
    | inl (docs, None) => (Some docs, None, [CallFind filter None])
    end.

(** [List] (systemconfig/email.go, lines 219-253): the slice, the count,
    the error, and the calls made. *)
Definition List (c : Collection) (opt : ListWorkflowV4Option)
  (pageNum pageSize : Z)
  : option (list Doc) * Z * option merror * list call :=
  let query0 : M := [] in
  let query1 :=
    if negb (String.eqb (opt_ProjectName opt) "")
    then query0 ++ [("project"%string, VString (opt_ProjectName opt))]
    else query0 in
  let query2 :=
    if negb (String.eqb (opt_DisplayName opt) "")
    then query1 ++ [("display_name"%string, VString (opt_DisplayName opt))]
    else query1 in
  let query3 :=
    if (0 <? List.length (opt_Names opt))%nat
    then query2 ++ [("name"%string, VIn (opt_Names opt))]
    else query2 in
  let query := FM query3 in
  match CountDocuments c query with
  | (count, Some err) => (None, count, Some err, [CallCountDocuments query])
  | (count, None) =>
      let findOption : FindOptions :=
        if (pageNum =? 0)%Z && (pageSize =? 0)%Z then None
        else Some (int64 (int64 (pageNum - 1) * pageSize), pageSize) in
      let calls := [CallCountDocuments query; CallFind query findOption] in
      match Find c query findOption with
      | inr err => (None, count, Some err, calls)
      | inl (docs, Some err) => (None, count, Some err, calls)
      | inl (docs, None) => (Some docs, count, None, calls)
      end
  end.

(** [ListByCursor] (systemconfig/email.go, lines 307-319): the result of
    [Find], and the call. *)
Definition ListByCursor (c : Collection) (opt : ListWorkflowV4Option)
  : ((list Doc * option merror) + merror) * list call :=
  let query0 : M := [] in
  let query1 :=
    if negb (String.eqb (opt_ProjectName opt) "")
    then query0 ++ [("project"%string, VString (opt_ProjectName opt))]
    else query0 in
  let query2 :=
    if negb (String.eqb (opt_DisplayName opt) "")
    then query1 ++ [("display_name"%string, VString (opt_DisplayName opt))]
    else query1 in
  let query3 :=
    if (0 <? List.length (opt_Names opt))%nat
    then query2 ++ [("name"%string, VIn (opt_Names opt))]
    else query2 in
  (Find c (FM query3) None, [CallFind (FM query3) None]).

(** The value under a key of a document. *)
Fixpoint lookup (key : string) (fields : M) : option value :=
  match fields with
  | [] => None
  | (k, v) :: rest => if String.eqb k key then Some v else lookup key rest
  end.

(** The query of a call. *)
Definition queryOf (cl : call) : filter :=
  match cl with
  | CallCountDocuments q => q
  | CallFind q _ => q
  end.

(** A collection that holds three documents. *)
Definition sample_collection : Collection :=
  {| CountDocuments := fun _ => (3%Z, None);
     Find := fun _ _ => inl ([1; 2; 3], None) |}.

End mongodb.

(** A request that names no product. *)
Definition plain_request : GetContainerOptions :=
  {| Namespace := "ns"; PipelineName := "p"; SubTask := ""; JobName := "";
     JobType := ""; TailLines := 10; TaskID := 3; PipelineType := "";
     ServiceName := "svc"; ServiceModule := ""; TestName := "";
     EnvName := "dev"; ProductName := ""; ClusterID := "" |}.

(** * Properties *)

(** ** Evaluation on small inputs *)

Example parse_two : parseServiceName "mod_svc" "" = ("svc", "mod").
Proof. reflexivity. Qed.
Example parse_one : parseServiceName "mod" "" = ("", "mod").
Proof. reflexivity. Qed.
Example parse_three : parseServiceName "a_b_c" "" = ("", "").
Proof. reflexivity. Qed.
Example parse_empty : parseServiceName "" "" = ("", "").
Proof. reflexivity. Qed.
Example parse_explicit : parseServiceName "mod_svc" "mod" = ("svc", "mod").
Proof. reflexivity. Qed.
Example parse_explicit_no_prefix : parseServiceName "svc" "mod" = ("svc", "mod").
Proof. reflexivity. Qed.
Example split_sep2 : strings.Split "a--b-c" "--" = ["a"; "b-c"].
Proof. reflexivity. Qed.
Example replace_all : strings.ReplaceAll "a_b__c" "_" "-" = "a-b--c".
Proof. reflexivity. Qed.
Example trim_space_ascii :
  strings.TrimSpace (String (ascii_of_nat 9) " l1  " ++ String newline "") = "l1".
Proof. reflexivity. Qed.
Example trim_space_nbsp :
  strings.TrimSpace
    (String (ascii_of_nat 194) (String (ascii_of_nat 160)
       ("x" ++ String (ascii_of_nat 226) (String (ascii_of_nat 128)
                 (String (ascii_of_nat 168) "")))))
  = "x".
Proof. reflexivity. Qed.
Example test_name_plain : getTestName "smoke-job" = "smoke".
Proof. reflexivity. Qed.

(** ** Strings *)

Lemma append_nil_r (s : string) : (s ++ "")%string = s.
Proof. induction s as [|c s IH]; simpl; [reflexivity | now rewrite IH]. Qed.

Lemma append_assoc (a b c : string) :
  ((a ++ b) ++ c)%string = (a ++ (b ++ c))%string.
Proof. induction a as [|x a IH]; simpl; [reflexivity | now rewrite IH]. Qed.

Lemma append_snoc (cur : string) (c : ascii) (s : string) :
  ((cur ++ String c "") ++ s)%string = (cur ++ String c s)%string.
Proof. now rewrite append_assoc. Qed.

(** One step of [Split] on ["_"]. *)
Lemma genSplit_underscore_cons (cur : string) (c : ascii) (s : string) :
  strings.genSplit "_" 0 cur (String c s)
  = if Ascii.eqb c underscore
    then cur :: strings.genSplit "_" 0 "" s
    else strings.genSplit "_" 0 (cur ++ String c "") s.
Proof.
  unfold underscore. simpl.
  destruct (Ascii.eqb c "_"); [destruct s|]; reflexivity.
Qed.

(** [Split] yields one segment more than there are separators. *)
Lemma genSplit_length (s : string) : forall cur,
  List.length (strings.genSplit "_" 0 cur s)
  = S (strings.CountByte underscore s).
Proof.
  induction s as [|c s IH]; intro cur; [reflexivity|].
  rewrite genSplit_underscore_cons.
  cbn [strings.CountByte].
  destruct (Ascii.eqb c underscore); cbn [List.length]; rewrite IH; reflexivity.
Qed.

Lemma genSplit_no_separator (s : string) : forall cur,
  strings.CountByte underscore s = 0 ->
  strings.genSplit "_" 0 cur s = [(cur ++ s)%string].
Proof.
  induction s as [|c s IH]; intros cur H.
  - simpl. now rewrite append_nil_r.
  - rewrite genSplit_underscore_cons. cbn [strings.CountByte] in H.
    destruct (Ascii.eqb c underscore); [discriminate|].
    rewrite IH by exact H. now rewrite append_snoc.
Qed.

Lemma genSplit_first_separator (A B : string) : forall cur,
  strings.CountByte underscore A = 0 ->
  strings.genSplit "_" 0 cur (A ++ String underscore B)
  = (cur ++ A)%string :: strings.genSplit "_" 0 "" B.
Proof.
  induction A as [|c A IH]; intros cur H.
  - cbn [append]. rewrite genSplit_underscore_cons.
    rewrite Ascii.eqb_refl. now rewrite append_nil_r.
  - cbn [append]. rewrite genSplit_underscore_cons.
    cbn [strings.CountByte] in H.
    destruct (Ascii.eqb c underscore); [discriminate|].
    rewrite IH by exact H. now rewrite append_snoc.
Qed.

(** The segments, joined with the separator, give the string back, and no
    segment holds a separator. *)
Lemma genSplit_Join (s : string) : forall cur,
  strings.Join (strings.genSplit "_" 0 cur s) "_" = (cur ++ s)%string.
Proof.
  induction s as [|c s IH]; intro cur.
  - simpl. now rewrite append_nil_r.
  - rewrite genSplit_underscore_cons.
    destruct (Ascii.eqb c underscore) eqn:E.
    + apply Ascii.eqb_eq in E. subst c.
      specialize (IH ""%string).
      destruct (strings.genSplit "_" 0 "" s) as [|e rest] eqn:G.
      * pose proof (genSplit_length s "") as L. rewrite G in L. discriminate.
      * cbn [strings.Join]. cbn [strings.Join] in IH.
        change (strings.Join (e :: rest) "_") with
          (match rest with [] => e | _ :: _ => (e ++ "_" ++ strings.Join rest "_")%string end) in IH.
        rewrite IH. reflexivity.
    + rewrite IH. now rewrite append_snoc.
Qed.

Lemma Split_Join (s : string) : strings.Join (strings.Split s "_") "_" = s.
Proof. unfold strings.Split. now rewrite genSplit_Join. Qed.

Lemma Split_length (s : string) :
  List.length (strings.Split s "_") = S (strings.CountByte underscore s).
Proof. apply genSplit_length. Qed.

(** ** Service-name resolver *)

(** C6: with no explicit module, [parseServiceName] splits the composite
    identifier on ["_"]; the split always yields at least one segment; one
    segment is returned as the module with an empty service name, two
    segments as module and service name, and for any other number of
    segments both results are empty.  The function is total and has no
    effect: it is a function of its arguments. *)
Theorem parseServiceName_by_segments (fullServiceName : string) :
  let segments := strings.Split fullServiceName "_" in
  1 <= List.length segments
  /\ (forall a, segments = [a] ->
        parseServiceName fullServiceName "" = (""%string, a))
  /\ (forall a b, segments = [a; b] ->
        parseServiceName fullServiceName "" = (b, a))
  /\ (List.length segments <> 1 -> List.length segments <> 2 ->
        parseServiceName fullServiceName "" = (""%string, ""%string)).
Proof.
  intro segments. unfold parseServiceName. cbn [String.length Nat.ltb Nat.leb].
  fold segments.
  split; [| split; [| split]].
  - subst segments. rewrite Split_length. lia.
  - intros a H. rewrite H. reflexivity.
  - intros a b H. rewrite H. reflexivity.
  - intros H1 H2.
    destruct (List.length segments) as [|[|[|n]]]; try reflexivity; congruence.
Qed.

Lemma parseServiceName_by_segments_witness :
  parseServiceName "mod" "" = (""%string, "mod"%string)
  /\ parseServiceName "mod_svc" "" = ("svc"%string, "mod"%string)
  /\ parseServiceName "a_b_c" "" = (""%string, ""%string).
Proof.
  split; [| split].
  - apply (proj1 (proj2 (parseServiceName_by_segments "mod"))). reflexivity.
  - apply (proj1 (proj2 (proj2 (parseServiceName_by_segments "mod_svc")))).
    reflexivity.
  - apply (proj2 (proj2 (proj2 (parseServiceName_by_segments "a_b_c"))));
      simpl; lia.
Defined.

(** C7, as stated, fails on an identifier without an underscore: the whole
    identifier comes back as the module. *)
Lemma parseServiceName_no_underscore_counterexample :
  strings.CountByte underscore "build" = 0
  /\ parseServiceName "build" "" = (""%string, "build"%string)
  /\ parseServiceName "build" "" <> (""%string, ""%string).
Proof. split; [reflexivity | split; [reflexivity | discriminate]]. Qed.

(** C7, amended: for ["A_B"] with exactly one underscore the module is [A]
    and the service name [B]; an identifier without an underscore is
    returned whole as the module, with an empty service name; with two
    underscores or more both results are empty. *)
Theorem parseServiceName_by_underscores :
  (forall A B,
      strings.CountByte underscore A = 0 ->
      strings.CountByte underscore B = 0 ->
      parseServiceName (A ++ "_" ++ B) "" = (B, A))
  /\ (forall s,
        strings.CountByte underscore s = 0 ->
        parseServiceName s "" = (""%string, s))
  /\ (forall s,
        2 <= strings.CountByte underscore s ->
        parseServiceName s "" = (""%string, ""%string)).
Proof.
  split; [| split].
  - intros A B HA HB.
    unfold parseServiceName. cbn [String.length Nat.ltb Nat.leb].
    unfold strings.Split.
    change ("_" ++ B)%string with (String underscore B).
    rewrite genSplit_first_separator by exact HA.
    rewrite genSplit_no_separator by exact HB.
    reflexivity.
  - intros s H.
    unfold parseServiceName. cbn [String.length Nat.ltb Nat.leb].
    unfold strings.Split.
    rewrite genSplit_no_separator by exact H.
    reflexivity.
  - intros s H.
    unfold parseServiceName. cbn [String.length Nat.ltb Nat.leb].
    rewrite Split_length.
    destruct (strings.CountByte underscore s) as [|[|n]]; [lia | lia | reflexivity].
Qed.

Lemma parseServiceName_by_underscores_witness :
  parseServiceName ("mod" ++ "_" ++ "svc") "" = ("svc"%string, "mod"%string)
  /\ parseServiceName "build" "" = (""%string, "build"%string)
  /\ parseServiceName "a_b_c" "" = (""%string, ""%string).
Proof.
  split; [| split].
  - apply (proj1 parseServiceName_by_underscores); reflexivity.
  - apply (proj1 (proj2 parseServiceName_by_underscores)); reflexivity.
  - apply (proj2 (proj2 parseServiceName_by_underscores)). simpl. lia.
Defined.

(** ** Test name *)

(** C8: [getTestName] removes every trailing byte that is one of [-], [j],
    [o], [b], where trimming the suffix ["-job"] removes those four bytes
    only: on ["web-job"] the code yields ["we"], the suffix rule ["web"];
    on ["job"], which has no such suffix, the code yields the empty
    string. *)
Theorem getTestName_trims_cutset :
  getTestName "web-job" = "we"%string
  /\ trim_job_suffix "web-job" = "web"%string
  /\ getTestName "job" = ""%string
  /\ trim_job_suffix "job" = "job"%string.
Proof. repeat split. Qed.

(** ** Reading lines *)

Lemma cutAfter_shorter (delim : ascii) (s : string) : forall line rest,
  cutAfter delim s = Some (line, rest) ->
  String.length rest < String.length s.
Proof.
  induction s as [|c s IH]; intros line rest H; [discriminate|].
  cbn [cutAfter] in H.
  destruct (Ascii.eqb c delim).
  - inversion H; subst. simpl. lia.
  - destruct (cutAfter delim s) as [[l r]|]; [|discriminate].
    inversion H; subst. specialize (IH l rest eq_refl). simpl. lia.
Qed.

(** A read that finds the delimiter returns the first line of the input
    and leaves the lines after it. *)
Lemma lines_from_cut (s : string) : forall cur line rest,
  cutAfter newline s = Some (line, rest) ->
  lines_from cur s
  = ((cur ++ line)%string :: fst (input_lines rest), snd (input_lines rest)).
Proof.
  unfold input_lines.
  induction s as [|c s IH]; intros cur line rest H; [discriminate|].
  cbn [cutAfter] in H. cbn [lines_from].
  destruct (Ascii.eqb c newline).
  - inversion H; subst.
    destruct (lines_from "" rest) as [ls p]. reflexivity.
  - destruct (cutAfter newline s) as [[l r]|]; [|discriminate].
    inversion H; subst.
    rewrite (IH _ l rest eq_refl). now rewrite append_snoc.
Qed.

(** A read that does not find it returns the final partial line. *)
Lemma lines_from_no_cut (s : string) : forall cur,
  cutAfter newline s = None ->
  lines_from cur s = ([], (cur ++ s)%string).
Proof.
  induction s as [|c s IH]; intros cur H.
  - simpl. now rewrite append_nil_r.
  - cbn [cutAfter] in H. cbn [lines_from].
    destruct (Ascii.eqb c newline); [discriminate|].
    destruct (cutAfter newline s) as [[l r]|]; [discriminate|].
    rewrite IH by reflexivity. now rewrite append_snoc.
Qed.

Lemma CountByte_app (c : ascii) (a b : string) :
  strings.CountByte c (a ++ b)
  = strings.CountByte c a + strings.CountByte c b.
Proof. induction a as [|x a IH]; simpl; [reflexivity | rewrite IH; lia]. Qed.

(** [lines_from] cuts its input into terminated lines and a partial line
    without a newline, loses nothing, and yields one line per newline. *)
Lemma lines_from_sound (s : string) : forall cur,
  strings.CountByte newline cur = 0 ->
  (fold_right append (snd (lines_from cur s)) (fst (lines_from cur s))
   = (cur ++ s)%string)
  /\ Forall terminated (fst (lines_from cur s))
  /\ strings.CountByte newline (snd (lines_from cur s)) = 0
  /\ List.length (fst (lines_from cur s)) = strings.CountByte newline s.
Proof.
  induction s as [|c s IH]; intros cur Hcur.
  - simpl. rewrite append_nil_r. repeat split; auto.
  - cbn [lines_from strings.CountByte].
    destruct (Ascii.eqb c newline) eqn:E.
    + apply Ascii.eqb_eq in E. subst c.
      destruct (IH ""%string eq_refl) as (H1 & H2 & H3 & H4).
      destruct (lines_from "" s) as [ls p]. cbn [fst snd] in *.
      repeat split.
      * cbn [fold_right]. rewrite H1. cbn [append]. now rewrite append_snoc.
      * constructor; [|exact H2]. exists cur. split; [reflexivity | exact Hcur].
      * exact H3.
      * cbn [List.length]. rewrite H4. reflexivity.
    + assert (Hc : strings.CountByte newline (cur ++ String c "") = 0).
      { rewrite CountByte_app. cbn [strings.CountByte]. rewrite E. lia. }
      destruct (IH _ Hc) as (H1 & H2 & H3 & H4).
      repeat split; auto.
      rewrite H1. apply append_snoc.
Qed.

(** ** Traces of the streaming loop *)

Lemma sends_app (a b : list event) : sends (a ++ b) = sends a ++ sends b.
Proof.
  induction a as [|e a IH]; [reflexivity|].
  destruct e; simpl; rewrite ?IH; reflexivity.
Qed.

Lemma closes_app (a b : list event) : closes (a ++ b) = closes a + closes b.
Proof.
  induction a as [|e a IH]; [reflexivity|].
  destruct e; simpl; rewrite ?IH; reflexivity.
Qed.

Lemma opens_app (a b : list event) : opens (a ++ b) = opens a + opens b.
Proof.
  induction a as [|e a IH]; [reflexivity|].
  destruct e; simpl; rewrite ?IH; reflexivity.
Qed.

Lemma lateSends_app (ctx : Context) (a b : list event) :
  lateSends ctx (a ++ b) = lateSends ctx a ++ lateSends ctx b.
Proof.
  induction a as [|e a IH]; [reflexivity|].
  destruct e; simpl; rewrite ?IH; try reflexivity.
  destruct (Done ctx at_); simpl; rewrite ?IH; reflexivity.
Qed.

(** With enough fuel and a context that is not done, the loop sends the
    trimmed lines in order, then the final partial line. *)
Lemma streamLoop_sends (ctx : Context) (clock : nat -> Z) :
  (forall k, Done ctx (clock k) = false) ->
  forall fuel k buf,
    String.length (pending buf) < fuel ->
    sends (fst (streamLoop fuel ctx clock k buf))
    = map strings.TrimSpace (fst (input_lines (pending buf)))
        ++ final_push (atEnd buf) (snd (input_lines (pending buf)))
    /\ snd (streamLoop fuel ctx clock k buf) = exit_of (atEnd buf).
Proof.
  intros Hctx fuel.
  induction fuel as [|fuel IH]; intros k buf Hfuel; [lia|].
  cbn [streamLoop]. rewrite Hctx.
  unfold ReadString.
  destruct (cutAfter newline (pending buf)) as [[line rest]|] eqn:Hcut.
  - pose proof (cutAfter_shorter _ _ _ _ Hcut) as Hlt.
    specialize (IH (k + 3) {| pending := rest; atEnd := atEnd buf |}).
    cbn [pending atEnd] in IH.
    destruct (IH ltac:(lia)) as [IHs IHe].
    destruct (streamLoop fuel ctx clock (k + 3)
                {| pending := rest; atEnd := atEnd buf |}) as [tr e].
    cbn [fst snd] in *.
    unfold input_lines at 1 2. rewrite (lines_from_cut _ _ _ _ Hcut).
    cbn [fst snd app sends map append]. rewrite IHs. split; [reflexivity | exact IHe].
  - unfold input_lines. rewrite (lines_from_no_cut _ _ Hcut).
    cbn [fst snd map app append].
    destruct (atEnd buf); cbn [fst snd final_push exit_of].
    + split; [|reflexivity].
      rewrite ?sends_app.
      destruct (0 <? String.length (strings.TrimSpace (pending buf)))%nat;
        reflexivity.
    + split; reflexivity.
Qed.

(** ** Line delivery *)

(** C1: when the log stream was opened and the context is not done while
    it is read, the input is cut into its newline-terminated lines and a
    final partial line, and the sink receives one push for each terminated
    line, trimmed, in input order; then, if the input ended with [io.EOF]
    and the partial line is not empty once trimmed, that line, once, and
    the session ends as completed. *)
Theorem containerLogStream_delivers_lines
  (ctx : Context) (clock : nat -> Z)
  (open : string -> string -> string -> bool -> Z -> ClientSet -> result LogStream)
  (namespace podName containerName : string) (follow : bool) (tailLines : Z)
  (client : ClientSet) (out : LogStream) :
  open namespace podName containerName follow tailLines client = Ok out ->
  (forall k, Done ctx (clock k) = false) ->
  let run :=
    containerLogStream ctx clock open namespace podName containerName follow
      tailLines client in
  let lines := fst (input_lines (content out)) in
  let partial := snd (input_lines (content out)) in
  fold_right append partial lines = content out
  /\ Forall terminated lines
  /\ strings.CountByte newline partial = 0
  /\ List.length lines = strings.CountByte newline (content out)
  /\ sends (fst run)
     = map strings.TrimSpace lines ++ final_push (ending out) partial
  /\ snd run = exit_of (ending out).
Proof.
  intros Hopen Hctx run lines partial.
  destruct (lines_from_sound (content out) ""%string eq_refl)
    as (H1 & H2 & H3 & H4).
  repeat (split; [assumption|]).
  subst run. unfold containerLogStream. rewrite Hopen.
  destruct (streamLoop_sends ctx clock Hctx
              (S (String.length (content out))) 0 (NewReader out)
              ltac:(simpl; lia)) as [Hs He].
  destruct (streamLoop (S (String.length (content out))) ctx clock 0
              (NewReader out)) as [body exit].
  cbn [fst snd] in *. split; [|exact He].
  rewrite !sends_app, Hs. cbn [NewReader pending atEnd].
  destruct (closeFails out); cbn [sends app]; now rewrite app_nil_r.
Qed.

Lemma containerLogStream_delivers_lines_witness :
  sends (fst (containerLogStream background Z.of_nat
                (fun _ _ _ _ _ _ => Ok sample_stream)
                "zadig" "pod-0" "build-job" true 100 (clientset 0)))
  = ["l1"%string; "l2"%string; "l3"%string]
  /\ snd (containerLogStream background Z.of_nat
            (fun _ _ _ _ _ _ => Ok sample_stream)
            "zadig" "pod-0" "build-job" true 100 (clientset 0))
     = Completed.
Proof.
  pose proof (containerLogStream_delivers_lines background Z.of_nat
                (fun _ _ _ _ _ _ => Ok sample_stream)
                "zadig" "pod-0" "build-job" true 100 (clientset 0)
                sample_stream eq_refl (fun _ => eq_refl)) as H.
  cbv zeta in H.
  destruct H as (_ & _ & _ & _ & Hs & He).
  split; [rewrite Hs; reflexivity | rewrite He; reflexivity].
Defined.

(** ** Cancellation *)

Lemma Done_later (ctx : Context) (a b : Z) :
  Done ctx a = true -> (a <= b)%Z -> Done ctx b = true.
Proof.
  unfold Done. destruct (Done_at ctx) as [d|]; [|discriminate].
  intros H Hab. apply Z.leb_le in H. apply Z.leb_le. lia.
Qed.

Lemma quiet_selectGuarded (ctx : Context) (tr : list event) : forall armed,
  quiet tr = true -> selectGuarded ctx armed tr = true.
Proof.
  induction tr as [|e tr IH]; intros armed H; [reflexivity|].
  cbn [quiet forallb] in H. apply andb_true_iff in H. destruct H as [He Ht].
  destruct e; cbn [loopOperation negb] in He; try discriminate;
    cbn [selectGuarded]; apply IH; exact Ht.
Qed.

Lemma selectGuarded_app (ctx : Context) (a b : list event) : forall armed,
  selectGuarded ctx armed a = true -> quiet b = true ->
  selectGuarded ctx armed (a ++ b) = true.
Proof.
  induction a as [|e a IH]; intros armed Ha Hb.
  - now apply quiet_selectGuarded.
  - destruct e; cbn [app selectGuarded] in *;
      try (apply IH; assumption);
      apply andb_true_iff in Ha; destruct Ha as [H1 H2];
      apply andb_true_iff; (split; [exact H1 | apply IH; assumption]).
Qed.

Lemma quiet_app (a b : list event) :
  quiet a = true -> quiet b = true -> quiet (a ++ b) = true.
Proof. unfold quiet. intros Ha Hb. now rewrite forallb_app, Ha, Hb. Qed.

Lemma quietAfterDone_app (a b : list event) :
  quietAfterDone a = true -> quiet b = true -> quietAfterDone (a ++ b) = true.
Proof.
  induction a as [|e a IH]; intros Ha Hb.
  - cbn [app]. clear Ha. induction b as [|e b IHb]; [reflexivity|].
    cbn [quiet forallb] in Hb. apply andb_true_iff in Hb. destruct Hb as [He Hb].
    destruct e; cbn [loopOperation negb] in He; try discriminate;
      cbn [quietAfterDone]; apply IHb; exact Hb.
  - destruct e; cbn [app quietAfterDone] in *; try (apply IH; assumption).
    destruct ctxDone; [apply quiet_app; assumption | apply IH; assumption].
Qed.

(** The loop obeys its [select]. *)
Lemma streamLoop_guarded (ctx : Context) (clock : nat -> Z) :
  forall fuel k buf,
    selectGuarded ctx false (fst (streamLoop fuel ctx clock k buf)) = true
    /\ quietAfterDone (fst (streamLoop fuel ctx clock k buf)) = true.
Proof.
  induction fuel as [|fuel IH]; intros k buf; [split; reflexivity|].
  cbn [streamLoop].
  destruct (Done ctx (clock k)) eqn:Hd.
  - cbn [fst selectGuarded quietAfterDone]. rewrite Hd. split; reflexivity.
  - destruct (ReadString buf newline) as [[line err] buf'].
    destruct err as [[|]|].
    + cbn [fst app selectGuarded quietAfterDone]. rewrite Hd.
      destruct (0 <? String.length (strings.TrimSpace line))%nat;
        split; reflexivity.
    + cbn [fst app selectGuarded quietAfterDone]. rewrite Hd.
      split; reflexivity.
    + destruct (IH (k + 3) buf') as [IH1 IH2].
      destruct (streamLoop fuel ctx clock (k + 3) buf') as [rest exit].
      cbn [fst app selectGuarded quietAfterDone] in *. rewrite Hd.
      split; [exact IH1 | exact IH2].
Qed.

(** Once the context is done at a [select], the loop sends nothing. *)
Lemma streamLoop_done_no_send (ctx : Context) (clock : nat -> Z) :
  forall fuel k buf,
    Done ctx (clock k) = true ->
    sends (fst (streamLoop fuel ctx clock k buf)) = [].
Proof.
  intros [|fuel] k buf Hd; [reflexivity|].
  cbn [streamLoop]. rewrite Hd. reflexivity.
Qed.

Lemma lateSends_le_sends (ctx : Context) (tr : list event) :
  List.length (lateSends ctx tr) <= List.length (sends tr).
Proof.
  induction tr as [|e tr IH]; [reflexivity|].
  destruct e; cbn [lateSends sends]; try exact IH.
  destruct (Done ctx at_); cbn [List.length]; lia.
Qed.

(** At most one line is sent at an instant at which the context is done:
    the one of the iteration under way. *)
Lemma streamLoop_lateSends (ctx : Context) (clock : nat -> Z) :
  nondecreasing clock ->
  forall fuel k buf,
    List.length (lateSends ctx (fst (streamLoop fuel ctx clock k buf))) <= 1.
Proof.
  intros Hmono.
  induction fuel as [|fuel IH]; intros k buf; [simpl; lia|].
  cbn [streamLoop].
  destruct (Done ctx (clock k)) eqn:Hd; [simpl; lia|].
  destruct (ReadString buf newline) as [[line err] buf'].
  destruct err as [[|]|].
  - cbn [fst app lateSends].
    destruct (0 <? String.length (strings.TrimSpace line))%nat;
      cbn [app lateSends]; [|simpl; lia].
    destruct (Done ctx (clock (k + 2))); simpl; lia.
  - simpl. lia.
  - specialize (IH (k + 3) buf').
    pose proof (streamLoop_done_no_send ctx clock fuel (k + 3) buf') as Hstop.
    pose proof (lateSends_le_sends ctx
                  (fst (streamLoop fuel ctx clock (k + 3) buf'))) as Hle.
    destruct (streamLoop fuel ctx clock (k + 3) buf') as [rest exit].
    cbn [fst app lateSends] in *.
    destruct (Done ctx (clock (k + 2))) eqn:Hs; [|exact IH].
    rewrite Hstop in Hle.
    + cbn [List.length] in *. lia.
    + apply (Done_later ctx (clock (k + 2))); [exact Hs|].
      apply Hmono. lia.
Qed.

(** C2, as stated, fails: the context is consulted by the [select] only.
    With a context cancelled at instant 1, the [select] at instant 0 takes
    the [default] branch, the read returns at instant 1, and the line is
    sent at instant 2, when the context is done. *)
Lemma containerLogStream_late_send_counterexample :
  nondecreasing Z.of_nat
  /\ Done cancelled_at_1 (Z.of_nat 0) = false
  /\ Done cancelled_at_1 2 = true
  /\ fst (containerLogStream cancelled_at_1 Z.of_nat
            (fun _ _ _ _ _ _ => Ok sample_stream)
            "zadig" "pod-0" "build-job" true 100 (clientset 0))
     = [EvLog Info "[GetContainerLogsSSE] Get container log of pod %s";
        EvGetContainerLogStream "zadig" "pod-0" "build-job" true 100;
        EvSelect 0 false;
        EvReadString 1 ("l1" ++ String newline "") None;
        EvSend 2 "l1";
        EvSelect 3 true;
        EvLog Info "Connection is closed, container log stream stopped";
        EvClose]
  /\ lateSends cancelled_at_1
       (fst (containerLogStream cancelled_at_1 Z.of_nat
               (fun _ _ _ _ _ _ => Ok sample_stream)
               "zadig" "pod-0" "build-job" true 100 (clientset 0)))
     = ["l1"%string].
Proof.
  split; [intros i j H; lia|].
  split; [reflexivity|]. split; [reflexivity|].
  split; reflexivity.
Qed.

(** C2, amended: at each iteration the [select] takes the context-done
    branch exactly when the context is done at that instant; every read
    and every send belongs to an iteration whose [select] found the
    context not done; after a [select] that finds it done the loop
    performs no further [select], read or send; and, instants not going
    back, at most one line is sent at an instant at which the context is
    done. *)
Theorem containerLogStream_obeys_select
  (ctx : Context) (clock : nat -> Z)
  (open : string -> string -> string -> bool -> Z -> ClientSet -> result LogStream)
  (namespace podName containerName : string) (follow : bool) (tailLines : Z)
  (client : ClientSet) :
  let tr :=
    fst (containerLogStream ctx clock open namespace podName containerName
           follow tailLines client) in
  selectGuarded ctx false tr = true
  /\ quietAfterDone tr = true
  /\ (nondecreasing clock -> List.length (lateSends ctx tr) <= 1).
Proof.
  intro tr. subst tr. unfold containerLogStream.
  destruct (open namespace podName containerName follow tailLines client)
    as [out|].
  2: { cbn. repeat split. intros _. lia. }
  set (fuel := S (String.length (content out))).
  destruct (streamLoop_guarded ctx clock fuel 0 (NewReader out)) as [Hg Hq].
  pose proof (fun H => streamLoop_lateSends ctx clock H fuel 0 (NewReader out))
    as Hl.
  destruct (streamLoop fuel ctx clock 0 (NewReader out)) as [body exit].
  cbn [fst] in *.
  assert (Hdef : quiet (EvClose :: (if closeFails out
            then [EvLog Error "Failed to close container log stream, error: %v"]
            else [])) = true) by (destruct (closeFails out); reflexivity).
  cbn [app selectGuarded quietAfterDone lateSends].
  split; [apply selectGuarded_app; assumption|].
  split; [apply quietAfterDone_app; assumption|].
  intro Hmono. rewrite lateSends_app.
  assert (Hnone : lateSends ctx (EvClose :: (if closeFails out
            then [EvLog Error "Failed to close container log stream, error: %v"]
            else [])) = []) by (destruct (closeFails out); reflexivity).
  rewrite Hnone, app_nil_r. apply Hl. exact Hmono.
Qed.

Lemma containerLogStream_obeys_select_witness :
  nondecreasing Z.of_nat
  /\ List.length
       (lateSends cancelled_at_1
          (fst (containerLogStream cancelled_at_1 Z.of_nat
                  (fun _ _ _ _ _ _ => Ok sample_stream)
                  "zadig" "pod-0" "build-job" true 100 (clientset 0)))) <= 1.
Proof.
  assert (Hmono : nondecreasing Z.of_nat) by (intros i j H; lia).
  split; [exact Hmono|].
  apply (proj2 (proj2 (containerLogStream_obeys_select cancelled_at_1 Z.of_nat
                         (fun _ _ _ _ _ _ => Ok sample_stream)
                         "zadig" "pod-0" "build-job" true 100 (clientset 0)))).
  exact Hmono.
Defined.

(** ** Release of the read handle *)

Lemma streamLoop_never_closes (ctx : Context) (clock : nat -> Z) :
  forall fuel k buf,
    closes (fst (streamLoop fuel ctx clock k buf)) = 0
    /\ opens (fst (streamLoop fuel ctx clock k buf)) = 0.
Proof.
  induction fuel as [|fuel IH]; intros k buf; [split; reflexivity|].
  cbn [streamLoop].
  destruct (Done ctx (clock k)); [split; reflexivity|].
  destruct (ReadString buf newline) as [[line err] buf'].
  destruct err as [[|]|].
  - cbn [fst app closes opens].
    destruct (0 <? String.length (strings.TrimSpace line))%nat;
      split; reflexivity.
  - split; reflexivity.
  - destruct (IH (k + 3) buf') as [IH1 IH2].
    destruct (streamLoop fuel ctx clock (k + 3) buf') as [rest exit].
    cbn [fst app closes opens] in *. split; assumption.
Qed.

(** With one unit of fuel more than there are bytes, the loop leaves
    through one of its three [return]s. *)
Lemma streamLoop_returns (ctx : Context) (clock : nat -> Z) :
  forall fuel k buf,
    String.length (pending buf) < fuel ->
    snd (streamLoop fuel ctx clock k buf) = Cancelled
    \/ snd (streamLoop fuel ctx clock k buf) = Completed
    \/ snd (streamLoop fuel ctx clock k buf) = Failed.
Proof.
  induction fuel as [|fuel IH]; intros k buf Hfuel; [lia|].
  cbn [streamLoop].
  destruct (Done ctx (clock k)); [left; reflexivity|].
  unfold ReadString.
  destruct (cutAfter newline (pending buf)) as [[line rest]|] eqn:Hcut.
  - pose proof (cutAfter_shorter _ _ _ _ Hcut) as Hlt.
    specialize (IH (k + 3) {| pending := rest; atEnd := atEnd buf |}).
    cbn [pending] in IH. specialize (IH ltac:(lia)).
    destruct (streamLoop fuel ctx clock (k + 3)
                {| pending := rest; atEnd := atEnd buf |}) as [tr e].
    exact IH.
  - destruct (atEnd buf); [right; left | right; right]; reflexivity.
Qed.

(** C3: in a session in which the log stream was opened, whatever the
    context and the stream, [containerLogStream] leaves through one of its
    three [return]s (cancellation, end of input, read error), the stream
    was opened once and is closed exactly once, and nothing is read or
    sent after the close. *)
Theorem containerLogStream_closes_once
  (ctx : Context) (clock : nat -> Z)
  (open : string -> string -> string -> bool -> Z -> ClientSet -> result LogStream)
  (namespace podName containerName : string) (follow : bool) (tailLines : Z)
  (client : ClientSet) (out : LogStream) :
  open namespace podName containerName follow tailLines client = Ok out ->
  let run :=
    containerLogStream ctx clock open namespace podName containerName follow
      tailLines client in
  (snd run = Cancelled \/ snd run = Completed \/ snd run = Failed)
  /\ opens (fst run) = 1
  /\ closes (fst run) = 1
  /\ exists before after,
       fst run = before ++ EvClose :: after
       /\ closes before = 0 /\ closes after = 0 /\ quiet after = true.
Proof.
  intros Hopen run. subst run. unfold containerLogStream. rewrite Hopen.
  set (fuel := S (String.length (content out))).
  destruct (streamLoop_never_closes ctx clock fuel 0 (NewReader out)) as [Hc Ho].
  pose proof (streamLoop_returns ctx clock fuel 0 (NewReader out)
                ltac:(subst fuel; simpl; lia)) as Hexit.
  destruct (streamLoop fuel ctx clock 0 (NewReader out)) as [body exit].
  cbn [fst snd] in *.
  split; [exact Hexit|].
  split.
  { cbn [app opens]. rewrite opens_app, Ho.
    destruct (closeFails out); reflexivity. }
  split.
  { cbn [app closes]. rewrite closes_app, Hc.
    destruct (closeFails out); reflexivity. }
  eexists _, _. split.
  { rewrite app_assoc. reflexivity. }
  split; [|destruct (closeFails out); split; reflexivity].
  rewrite closes_app, Hc. reflexivity.
Qed.

Lemma containerLogStream_closes_once_witness :
  (snd (containerLogStream background Z.of_nat
          (fun _ _ _ _ _ _ => Ok sample_stream)
          "zadig" "pod-0" "build-job" true 100 (clientset 0)) = Completed
   /\ closes (fst (containerLogStream background Z.of_nat
                     (fun _ _ _ _ _ _ => Ok sample_stream)
                     "zadig" "pod-0" "build-job" true 100 (clientset 0))) = 1)
  /\ (snd (containerLogStream cancelled_at_1 Z.of_nat
             (fun _ _ _ _ _ _ => Ok sample_stream)
             "zadig" "pod-0" "build-job" true 100 (clientset 0)) = Cancelled
      /\ closes (fst (containerLogStream cancelled_at_1 Z.of_nat
                        (fun _ _ _ _ _ _ => Ok sample_stream)
                        "zadig" "pod-0" "build-job" true 100 (clientset 0))) = 1)
  /\ (snd (containerLogStream background Z.of_nat
             (fun _ _ _ _ _ _ => Ok broken_stream)
             "zadig" "pod-0" "build-job" true 100 (clientset 0)) = Failed
      /\ closes (fst (containerLogStream background Z.of_nat
                        (fun _ _ _ _ _ _ => Ok broken_stream)
                        "zadig" "pod-0" "build-job" true 100 (clientset 0))) = 1).
Proof.
  pose proof (containerLogStream_closes_once background Z.of_nat
                (fun _ _ _ _ _ _ => Ok sample_stream)
                "zadig" "pod-0" "build-job" true 100 (clientset 0)
                sample_stream eq_refl) as H1.
  pose proof (containerLogStream_closes_once cancelled_at_1 Z.of_nat
                (fun _ _ _ _ _ _ => Ok sample_stream)
                "zadig" "pod-0" "build-job" true 100 (clientset 0)
                sample_stream eq_refl) as H2.
  pose proof (containerLogStream_closes_once background Z.of_nat
                (fun _ _ _ _ _ _ => Ok broken_stream)
                "zadig" "pod-0" "build-job" true 100 (clientset 0)
                broken_stream eq_refl) as H3.
  cbv zeta in H1, H2, H3.
  destruct H1 as (_ & _ & C1 & _).
  destruct H2 as (_ & _ & C2 & _).
  destruct H3 as (_ & _ & C3 & _).
  split; [split; [reflexivity | exact C1]|].
  split; [split; [reflexivity | exact C2]|].
  split; [reflexivity | exact C3].
Defined.

(** The failed opening: nothing was opened, and nothing is closed. *)
Lemma containerLogStream_open_failed
  (ctx : Context) (clock : nat -> Z)
  (open : string -> string -> string -> bool -> Z -> ClientSet -> result LogStream)
  (namespace podName containerName : string) (follow : bool) (tailLines : Z)
  (client : ClientSet) :
  open namespace podName containerName follow tailLines client = Err ->
  snd (containerLogStream ctx clock open namespace podName containerName
         follow tailLines client) = OpenFailed
  /\ closes (fst (containerLogStream ctx clock open namespace podName
                    containerName follow tailLines client)) = 0
  /\ sends (fst (containerLogStream ctx clock open namespace podName
                   containerName follow tailLines client)) = [].
Proof.
  intro H. unfold containerLogStream. rewrite H. repeat split.
Qed.

(** ** Pod wait *)

Lemma timeout_value : timeout = 300000000000%Z.
Proof. reflexivity. Qed.

(** The context of the pod wait is done five minutes after the call at
    the latest, and no later than the caller's context. *)
Lemma WithTimeout_deadline (t0 : Z) (ctx : Context) :
  exists d,
    Done_at (WithTimeout t0 ctx timeout) = Some d
    /\ (d <= t0 + timeout)%Z
    /\ (forall p, Done_at ctx = Some p -> (d <= p)%Z).
Proof.
  unfold WithTimeout. cbn [Done_at].
  destruct (Done_at ctx) as [p|].
  - exists (Z.min p (t0 + timeout)). repeat split; [lia|].
    intros q Hq. inversion Hq; subst. lia.
  - exists (t0 + timeout)%Z. repeat split; [lia | discriminate].
Qed.

(** The pod wait of [waitAndGetLog] always returns, five minutes after
    the call at the latest and no later than the end of the caller's
    context; without a running pod it fails, with a timeout unless the
    watch fails. *)
Lemma pod_wait_bounded (w : World) (ctx : Context) (namespace : string)
  (selector : Selector) (clientSet : ClientSet) :
  exists how t,
    WaitUntilPodRunning w (WithTimeout (now w) ctx timeout) namespace selector
      clientSet = Some (how, t)
    /\ (now w <= t <= now w + timeout)%Z
    /\ (forall d, Done_at ctx = Some d -> (t <= Z.max (now w) d)%Z)
    /\ (PodRunningAt w namespace selector clientSet = None -> how <> WaitOk)
    /\ (PodRunningAt w namespace selector clientSet = None ->
        WatchFailsAt w namespace selector clientSet = None ->
        how = WaitTimeout).
Proof.
  unfold WaitUntilPodRunning.
  destruct (WithTimeout_deadline (now w) ctx) as (d & Hd & Hle & Hp).
  rewrite Hd. rewrite timeout_value in *.
  assert (Hparent : forall x p, (x <= Z.max (now w) d)%Z ->
                                Done_at ctx = Some p ->
                                (x <= Z.max (now w) p)%Z).
  { intros x p Hx Hq. specialize (Hp p Hq). lia. }
  destruct (WatchFailsAt w namespace selector clientSet) as [e|].
  - destruct (Z.max (now w) e <? Z.max (now w) d)%Z eqn:Efail;
      [apply Z.ltb_lt in Efail | apply Z.ltb_ge in Efail];
      (destruct (PodRunningAt w namespace selector clientSet) as [r|];
       [ match goal with
         | |- context [(?a <? ?b)%Z] =>
             destruct (a <? b)%Z eqn:Erun;
               [apply Z.ltb_lt in Erun | apply Z.ltb_ge in Erun]
         end
       | ]);
      eexists _, _; (split; [reflexivity|]);
      (split; [lia|]);
      (split; [intros p Hq; apply (Hparent _ p); [lia | exact Hq]|]);
      split; intros; congruence.
  - destruct (PodRunningAt w namespace selector clientSet) as [r|];
      [ match goal with
        | |- context [(?a <? ?b)%Z] =>
            destruct (a <? b)%Z eqn:Erun;
              [apply Z.ltb_lt in Erun | apply Z.ltb_ge in Erun]
        end
      | ];
      eexists _, _; (split; [reflexivity|]);
      (split; [lia|]);
      (split; [intros p Hq; apply (Hparent _ p); [lia | exact Hq]|]);
      split; intros; congruence.
Qed.

(** C4: when no pod matching the selector ever runs, [waitAndGetLog],
    once it has the client of the cluster, waits under the caller's
    context cut at five minutes; the wait fails, with a timeout unless
    the watch fails, at the latest five minutes after the call and no
    later than the end of the caller's context; the function logs the
    failure and returns.  With or without the client, it returns, opens
    no log stream and sends nothing to the sink. *)
Theorem waitAndGetLog_pod_never_running
  (cfg : Settings) (w : World) (ctx : Context) (selector : Selector)
  (options : GetContainerOptions) :
  (forall clientSet,
      PodRunningAt w (Namespace options) selector clientSet = None) ->
  (forall clientSet,
      GetClientset w (config_HubServerAddress cfg) (ClusterID options)
      = Ok clientSet ->
      exists how t,
        fst (waitAndGetLog cfg w ctx selector options)
        = [EvLog Debug
             "Waiting until pod is running before establishing the stream. labelSelector: %+v, clusterId: %s, namespace: %s";
           EvGetClientset (config_HubServerAddress cfg) (ClusterID options);
           EvWaitUntilPodRunning (WithTimeout (now w) ctx timeout)
             (Namespace options) selector (Some (how, t));
           EvLog Error "GetContainerLogs, wait pod running error: %s"]
        /\ how <> WaitOk
        /\ (WatchFailsAt w (Namespace options) selector clientSet = None ->
            how = WaitTimeout)
        /\ (now w <= t <= now w + timeout)%Z
        /\ (forall d, Done_at ctx = Some d -> (t <= Z.max (now w) d)%Z))
  /\ (GetClientset w (config_HubServerAddress cfg) (ClusterID options) = Err ->
      fst (waitAndGetLog cfg w ctx selector options)
      = [EvLog Debug
           "Waiting until pod is running before establishing the stream. labelSelector: %+v, clusterId: %s, namespace: %s";
         EvGetClientset (config_HubServerAddress cfg) (ClusterID options);
         EvLog Error "GetContainerLogs, get client set error: %s"])
  /\ snd (waitAndGetLog cfg w ctx selector options) = Returned
  /\ opens (fst (waitAndGetLog cfg w ctx selector options)) = 0
  /\ sends (fst (waitAndGetLog cfg w ctx selector options)) = [].
Proof.
  intro Hnever. unfold waitAndGetLog.
  destruct (GetClientset w (config_HubServerAddress cfg) (ClusterID options))
    as [cs|].
  2: { split; [discriminate|]. repeat split. }
  destruct (pod_wait_bounded w ctx (Namespace options) selector cs)
    as (how & t & Hwait & Hbound & Hparent & Hfail & Htimeout).
  specialize (Hfail (Hnever cs)). specialize (Htimeout (Hnever cs)).
  rewrite Hwait.
  split.
  { intros clientSet Hcs. inversion Hcs; subst clientSet.
    exists how, t.
    split; [destruct how; [congruence | reflexivity | reflexivity]|].
    repeat split; try assumption; apply Hbound. }
  split; [discriminate|].
  destruct how; [congruence | repeat split | repeat split].
Qed.

Lemma waitAndGetLog_pod_never_running_witness :
  (exists how t,
      fst (waitAndGetLog sample_settings (sample_world sample_stream None)
             background [] sample_options)
      = [EvLog Debug
           "Waiting until pod is running before establishing the stream. labelSelector: %+v, clusterId: %s, namespace: %s";
         EvGetClientset "http://hub-server:26000" "";
         EvWaitUntilPodRunning {| Done_at := Some 300000000000%Z |} "" []
           (Some (how, t));
         EvLog Error "GetContainerLogs, wait pod running error: %s"]
      /\ how = WaitTimeout
      /\ (0 <= t <= 300000000000)%Z)
  /\ sends (fst (waitAndGetLog sample_settings
                   (sample_world sample_stream None) background []
                   sample_options)) = [].
Proof.
  pose proof (waitAndGetLog_pod_never_running sample_settings
                (sample_world sample_stream None) background []
                sample_options (fun _ => eq_refl)) as H.
  destruct H as (Hwait & _ & _ & _ & Hs).
  destruct (Hwait (clientset 0) eq_refl)
    as (how & t & Htrace & _ & Htimeout & Hbound & _).
  split; [|exact Hs].
  exists how, t. split; [exact Htrace|].
  split; [exact (Htimeout eq_refl) | exact Hbound].
Defined.

(** A whole session on the sample deployment: the pod runs from instant
    5, and its three lines reach the sink. *)
Example sample_session :
  sends (trace (WorkflowTaskV4ContainerLogStream sample_settings
                  (sample_world sample_stream (Some 5%Z)) background
                  (Some sample_options)))
  = ["l1"%string; "l2"%string; "l3"%string].
Proof. reflexivity. Qed.

(** ** Follow mode *)

Lemma opens_zero_not_in (tr : list event) :
  opens tr = 0 ->
  forall ns pod c follow tail,
    ~ In (EvGetContainerLogStream ns pod c follow tail) tr.
Proof.
  induction tr as [|e tr IH]; intros H ns pod c follow tail Hin; [exact Hin|].
  destruct Hin as [He|Hin].
  - subst e. discriminate.
  - destruct e; cbn [opens] in H; try discriminate;
      exact (IH H ns pod c follow tail Hin).
Qed.

(** The one opening of [containerLogStream] carries its arguments. *)
Lemma containerLogStream_open_arguments
  (ctx : Context) (clock : nat -> Z)
  (open : string -> string -> string -> bool -> Z -> ClientSet -> result LogStream)
  (namespace podName containerName : string) (follow : bool) (tailLines : Z)
  (client : ClientSet) :
  forall ns pod c f tail,
    In (EvGetContainerLogStream ns pod c f tail)
      (fst (containerLogStream ctx clock open namespace podName containerName
              follow tailLines client)) ->
    ns = namespace /\ pod = podName /\ c = containerName
    /\ f = follow /\ tail = tailLines.
Proof.
  intros ns pod c f tail. unfold containerLogStream.
  destruct (open namespace podName containerName follow tailLines client)
    as [out|].
  - destruct (streamLoop_never_closes ctx clock
                (S (String.length (content out))) 0 (NewReader out)) as [_ Ho].
    destruct (streamLoop (S (String.length (content out))) ctx clock 0
                (NewReader out)) as [body exit].
    cbn [fst app] in *. intros [H|[H|H]]; [discriminate | inversion H; auto |].
    apply in_app_or in H. destruct H as [H|H].
    + exfalso. exact (opens_zero_not_in body Ho _ _ _ _ _ H).
    + exfalso. destruct (closeFails out); cbn in H; intuition discriminate.
  - cbn. intros [H|[H|[H|[]]]]; [discriminate | inversion H; auto | discriminate].
Qed.

(** What [waitAndGetLog] opens. *)
Lemma waitAndGetLog_open_arguments
  (cfg : Settings) (w : World) (ctx : Context) (selector : Selector)
  (options : GetContainerOptions) :
  forall ns pod c f tail,
    In (EvGetContainerLogStream ns pod c f tail)
      (fst (waitAndGetLog cfg w ctx selector options)) ->
    ns = Namespace options /\ c = SubTask options
    /\ f = true /\ tail = TailLines options.
Proof.
  intros ns pod c f tail. unfold waitAndGetLog.
  destruct (GetClientset w (config_HubServerAddress cfg) (ClusterID options))
    as [cs|]; [|cbn; intuition discriminate].
  destruct (WaitUntilPodRunning w (WithTimeout (now w) ctx timeout)
              (Namespace options) selector cs) as [[[ | | ] t]|];
    [| cbn; intuition discriminate | cbn; intuition discriminate | cbn; intuition discriminate].
  destruct (GetKubeClient w (config_HubServerAddress cfg) (ClusterID options))
    as [kc|]; [|cbn; intuition discriminate].
  destruct (ListPods w (Namespace options) selector kc) as [pods|];
    [|cbn; intuition discriminate].
  destruct pods as [|pod0 pods]; [cbn; intuition discriminate|].
  cbn [fst]. intro H. apply in_app_or in H. destruct H as [H|H].
  - cbn in H. intuition discriminate.
  - apply containerLogStream_open_arguments in H. intuition.
Qed.

Ltac split_cases :=
  repeat match goal with
         | |- context [match ?x with _ => _ end] => destruct x
         end.

Lemma resolve_opens_nothing (cfg : Settings) (w : World)
  (o : GetContainerOptions) :
  opens (snd (fst (TaskContainerLogStream_resolve cfg w o))) = 0.
Proof.
  unfold TaskContainerLogStream_resolve. split_cases; reflexivity.
Qed.

Lemma scanJobs_opens_nothing (cfg : Settings) (jobs : list JobTask) :
  forall o, opens (snd (fst (scanJobs cfg jobs o))) = 0.
Proof.
  induction jobs as [|job jobs IH]; intro o; [reflexivity|].
  cbn [scanJobs].
  destruct (negb (String.eqb (job_Name job) (SubTask o))); [apply IH|].
  destruct (jobClusterID cfg job) as [[c|]|]; reflexivity.
Qed.

Lemma scanStages_opens_nothing (cfg : Settings) (stages : list StageTask) :
  forall o, opens (snd (fst (scanStages cfg stages o))) = 0.
Proof.
  induction stages as [|stage stages IH]; intro o; [reflexivity|].
  cbn [scanStages].
  pose proof (scanJobs_opens_nothing cfg (stage_Jobs stage) o) as Hj.
  destruct (scanJobs cfg (stage_Jobs stage) o) as [[o1 tr] returned].
  cbn [fst snd] in Hj.
  destruct returned; [exact Hj|].
  specialize (IH o1).
  destruct (scanStages cfg stages o1) as [[o2 tr'] returned'].
  cbn [fst snd] in *. rewrite opens_app. lia.
Qed.

(** C10: the log stream that [waitAndGetLog] opens, if any, is opened in
    follow mode, for the container named by the [SubTask] field of the
    request, in its namespace and with its tail length, whatever the
    request holds; and every stream opened through one of the three entry
    points is opened in follow mode, for the container named by the
    [SubTask] field the entry point leaves in the request. *)
Theorem log_stream_always_follows (cfg : Settings) (w : World) (ctx : Context) :
  (forall selector options ns pod c f tail,
      In (EvGetContainerLogStream ns pod c f tail)
        (fst (waitAndGetLog cfg w ctx selector options)) ->
      f = true /\ c = SubTask options
      /\ ns = Namespace options /\ tail = TailLines options)
  /\ (forall entry,
        entry = TaskContainerLogStream cfg w ctx
        \/ entry = WorkflowTaskV4ContainerLogStream cfg w ctx
        \/ entry = TestJobContainerLogStream cfg w ctx ->
        forall options ns pod c f tail,
          In (EvGetContainerLogStream ns pod c f tail) (trace (entry options)) ->
          f = true
          /\ exists o, final (entry options) = Some o /\ c = SubTask o).
Proof.
  split.
  { intros selector options ns pod c f tail H.
    apply waitAndGetLog_open_arguments in H. intuition. }
  intros entry He [o|] ns pod c f tail H.
  2: { destruct He as [He|[He|He]]; subst entry; destruct H. }
  destruct He as [He|[He|He]]; subst entry.
  - unfold TaskContainerLogStream in *.
    pose proof (resolve_opens_nothing cfg w o) as Hr.
    destruct (TaskContainerLogStream_resolve cfg w o) as [[o1 tr] returned].
    cbn [fst snd] in Hr.
    destruct returned.
    + cbn [trace app] in H. destruct H as [H|H]; [discriminate|].
      exfalso. exact (opens_zero_not_in tr Hr _ _ _ _ _ H).
    + match type of H with
      | context [waitAndGetLog cfg w ctx ?sel ?o2] =>
          pose proof (waitAndGetLog_open_arguments cfg w ctx sel o2
                        ns pod c f tail) as Hw;
          destruct (waitAndGetLog cfg w ctx sel o2) as [tw cpl];
          cbn [final]; cbn [trace app fst] in H, Hw;
          destruct H as [H|H]; [discriminate|];
          apply in_app_or in H; destruct H as [H|H];
          [exfalso; exact (opens_zero_not_in tr Hr _ _ _ _ _ H)|];
          destruct (Hw H) as (_ & Hc & Hf & _);
          split; [exact Hf | exists o2; split; [reflexivity | exact Hc]]
      end.
  - unfold WorkflowTaskV4ContainerLogStream in *.
    destruct (WorkflowTaskFind w (PipelineName o) (TaskID o)) as [task|].
    2: { cbn in H. intuition discriminate. }
    pose proof (scanStages_opens_nothing cfg (task_Stages task) o) as Hr.
    destruct (scanStages cfg (task_Stages task) o) as [[o1 tr] returned].
    cbn [fst snd] in Hr.
    destruct returned.
    + cbn [trace app] in H. destruct H as [H|[H|H]]; try discriminate.
      exfalso. exact (opens_zero_not_in tr Hr _ _ _ _ _ H).
    + pose proof (waitAndGetLog_open_arguments cfg w ctx
                    (getWorkflowSelector cfg o1) o1 ns pod c f tail) as Hw.
      destruct (waitAndGetLog cfg w ctx (getWorkflowSelector cfg o1) o1)
        as [tw cpl].
      cbn [final]. cbn [trace app fst] in H, Hw.
      destruct H as [H|[H|H]]; try discriminate.
      apply in_app_or in H. destruct H as [H|H];
        [exfalso; exact (opens_zero_not_in tr Hr _ _ _ _ _ H)|].
      destruct (Hw H) as (_ & Hc & Hf & _).
      split; [exact Hf | exists o1; split; [reflexivity | exact Hc]].
  - unfold TestJobContainerLogStream in *.
    match type of H with
    | context [waitAndGetLog cfg w ctx ?sel ?o2] =>
        pose proof (waitAndGetLog_open_arguments cfg w ctx sel o2
                      ns pod c f tail) as Hw;
        destruct (waitAndGetLog cfg w ctx sel o2) as [tw cpl];
        cbn [final]; cbn [trace app fst] in H, Hw;
        destruct H as [H|H]; [discriminate|];
        destruct (Hw H) as (_ & Hc & Hf & _);
        split; [exact Hf | exists o2; split; [reflexivity | exact Hc]]
    end.
Qed.

Lemma log_stream_always_follows_witness :
  In (EvGetContainerLogStream "zadig" "pod-0" "build-job" true 100)
    (trace (WorkflowTaskV4ContainerLogStream sample_settings
              (sample_world sample_stream (Some 5%Z)) background
              (Some sample_options)))
  /\ exists o,
       final (WorkflowTaskV4ContainerLogStream sample_settings
                (sample_world sample_stream (Some 5%Z)) background
                (Some sample_options)) = Some o
       /\ "build-job"%string = SubTask o.
Proof.
  assert (Hin : In (EvGetContainerLogStream "zadig" "pod-0" "build-job" true 100)
    (trace (WorkflowTaskV4ContainerLogStream sample_settings
              (sample_world sample_stream (Some 5%Z)) background
              (Some sample_options)))).
  { vm_compute. do 9 right. left. reflexivity. }
  split; [exact Hin|].
  exact (proj2 (proj2 (log_stream_always_follows sample_settings
                         (sample_world sample_stream (Some 5%Z)) background)
                  _ (or_intror (or_introl eq_refl))
                  (Some sample_options) _ _ _ _ _ Hin)).
Defined.

(** ** Nil options *)

(** The pod wait has a deadline, so that [waitAndGetLog] always returns. *)
Lemma waitAndGetLog_returns (cfg : Settings) (w : World) (ctx : Context)
  (selector : Selector) (options : GetContainerOptions) :
  snd (waitAndGetLog cfg w ctx selector options) = Returned.
Proof.
  unfold waitAndGetLog.
  destruct (GetClientset w (config_HubServerAddress cfg) (ClusterID options))
    as [cs|]; [|reflexivity].
  destruct (pod_wait_bounded w ctx (Namespace options) selector cs)
    as (how & t & Hwait & _).
  rewrite Hwait.
  destruct how; [|reflexivity|reflexivity].
  destruct (GetKubeClient w (config_HubServerAddress cfg) (ClusterID options))
    as [kc|]; [|reflexivity].
  destruct (ListPods w (Namespace options) selector kc) as [[|pod0 pods]|];
    reflexivity.
Qed.

(** C9: on a nil [options] pointer, [TaskContainerLogStream] and
    [WorkflowTaskV4ContainerLogStream] return at once: no collaborator is
    called, nothing is logged and nothing is sent; the first statement of
    [TestJobContainerLogStream] writes through the pointer, so the call
    panics on a nil pointer; with a pointer that is not nil, the three
    entry points return. *)
Theorem nil_options (cfg : Settings) (w : World) (ctx : Context) :
  TaskContainerLogStream cfg w ctx None
  = {| final := None; trace := []; how := Returned |}
  /\ WorkflowTaskV4ContainerLogStream cfg w ctx None
     = {| final := None; trace := []; how := Returned |}
  /\ TestJobContainerLogStream cfg w ctx None
     = {| final := None; trace := []; how := Panicked |}
  /\ (forall o, how (TestJobContainerLogStream cfg w ctx (Some o)) = Returned)
  /\ (forall o, how (TaskContainerLogStream cfg w ctx (Some o)) = Returned)
  /\ (forall o,
        how (WorkflowTaskV4ContainerLogStream cfg w ctx (Some o)) = Returned).
Proof.
  split; [reflexivity|]. split; [reflexivity|]. split; [reflexivity|].
  split; [|split].
  - intro o. unfold TestJobContainerLogStream.
    match goal with
    | |- context [waitAndGetLog cfg w ctx ?sel ?o2] =>
        pose proof (waitAndGetLog_returns cfg w ctx sel o2) as Hw;
        destruct (waitAndGetLog cfg w ctx sel o2) as [tw c]
    end.
    exact Hw.
  - intro o. unfold TaskContainerLogStream.
    destruct (TaskContainerLogStream_resolve cfg w o) as [[o1 tr] returned].
    destruct returned; [reflexivity|].
    match goal with
    | |- context [waitAndGetLog cfg w ctx ?sel ?o2] =>
        pose proof (waitAndGetLog_returns cfg w ctx sel o2) as Hw;
        destruct (waitAndGetLog cfg w ctx sel o2) as [tw c]
    end.
    exact Hw.
  - intro o. unfold WorkflowTaskV4ContainerLogStream.
    destruct (WorkflowTaskFind w (PipelineName o) (TaskID o)) as [task|];
      [|reflexivity].
    destruct (scanStages cfg (task_Stages task) o) as [[o1 tr] returned].
    destruct returned; [reflexivity|].
    pose proof (waitAndGetLog_returns cfg w ctx (getWorkflowSelector cfg o1) o1)
      as Hw.
    destruct (waitAndGetLog cfg w ctx (getWorkflowSelector cfg o1) o1) as [tw c].
    exact Hw.
Qed.

(** ** Namespace rule *)

Lemma nonempty_true (s : string) : s <> ""%string -> nonempty s = true.
Proof.
  intro H. unfold nonempty. destruct (String.eqb s "") eqn:E; [|reflexivity].
  apply String.eqb_eq in E. contradiction.
Qed.

Lemma resolve_by_rule (cfg : Settings) (w : World) (o : GetContainerOptions) :
  untouched_or_by_rule cfg o (fst (fst (TaskContainerLogStream_resolve cfg w o))).
Proof.
  unfold untouched_or_by_rule, TaskContainerLogStream_resolve.
  repeat match goal with
         | |- context [match ?x with _ => _ end] => destruct x eqn:?
         end;
    cbn [fst snd];
    first [ left; split; reflexivity
          | right; unfold namespace_of_cluster; cbn;
            match goal with
            | H : String.eqb _ _ = _ |- _ => rewrite H; reflexivity
            end ].
Qed.

Lemma scanJobs_by_rule (cfg : Settings) (o0 : GetContainerOptions)
  (jobs : list JobTask) :
  forall o,
    untouched_or_by_rule cfg o0 o ->
    untouched_or_by_rule cfg o0 (fst (fst (scanJobs cfg jobs o))).
Proof.
  induction jobs as [|job jobs IH]; intros o H; [exact H|].
  cbn [scanJobs].
  destruct (negb (String.eqb (job_Name job) (SubTask o))); [apply IH; exact H|].
  destruct (jobClusterID cfg job) as [[c|]|]; cbn [fst]; [|exact H|exact H].
  right. cbn.
  destruct (String.eqb c "") eqn:E1; cbn;
    match goal with
    | |- context [String.eqb ?a ?b] => destruct (String.eqb a b) eqn:E2
    end;
    cbn; unfold namespace_of_cluster; cbn; rewrite ?E2; reflexivity.
Qed.

Lemma scanStages_by_rule (cfg : Settings) (o0 : GetContainerOptions)
  (stages : list StageTask) :
  forall o,
    untouched_or_by_rule cfg o0 o ->
    untouched_or_by_rule cfg o0 (fst (fst (scanStages cfg stages o))).
Proof.
  induction stages as [|stage stages IH]; intros o H; [exact H|].
  cbn [scanStages].
  pose proof (scanJobs_by_rule cfg o0 (stage_Jobs stage) o H) as Hj.
  destruct (scanJobs cfg (stage_Jobs stage) o) as [[o1 tr] returned].
  cbn [fst] in Hj.
  destruct returned; [exact Hj|].
  specialize (IH o1 Hj).
  destruct (scanStages cfg stages o1) as [[o2 tr'] returned'].
  exact IH.
Qed.

(** The jobs before the one named by the sub-task are passed over. *)
Lemma scanJobs_skip (cfg : Settings) (o : GetContainerOptions)
  (before : list JobTask) :
  forall rest,
    Forall (fun j => job_Name j <> SubTask o) before ->
    scanJobs cfg (before ++ rest) o = scanJobs cfg rest o.
Proof.
  induction before as [|j before IH]; intros rest H; [reflexivity|].
  inversion H as [|? ? Hj Hrest]; subst.
  cbn [app scanJobs].
  apply String.eqb_neq in Hj. rewrite Hj. cbn [negb].
  apply IH. exact Hrest.
Qed.

(** C5: the rule sends the local cluster id to the default namespace and
    every other cluster id to the namespace of the attached clusters.
    Each of the three entry points leaves the namespace and the cluster id
    of the request as they were, or leaves the cluster id it adopted with
    the namespace the rule gives for it.  The environment-log variant
    assigns none of the two; the build-log variant and the test-job
    variant adopt a non-empty cluster id of the build or of the test and
    assign the namespace by the rule; the workflow-v4 variant adopts the
    cluster id of the job named by the sub-task, the local one when that
    is empty, and assigns the namespace by the rule, hence the default
    namespace for an empty cluster id. *)
Theorem namespace_rule_shared (cfg : Settings) (w : World) (ctx : Context) :
  namespace_of_cluster cfg (setting_LocalClusterID cfg) = config_Namespace cfg
  /\ (forall c,
        c <> setting_LocalClusterID cfg ->
        namespace_of_cluster cfg c = setting_AttachedClusterNamespace cfg)
  /\ (forall entry,
        entry = TaskContainerLogStream cfg w ctx
        \/ entry = WorkflowTaskV4ContainerLogStream cfg w ctx
        \/ entry = TestJobContainerLogStream cfg w ctx ->
        forall o o',
          final (entry (Some o)) = Some o' -> untouched_or_by_rule cfg o o')
  /\ (forall o,
        EnvName o <> ""%string -> ProductName o <> ""%string ->
        PipelineName o = ""%string ->
        exists o',
          final (TaskContainerLogStream cfg w ctx (Some o)) = Some o'
          /\ Namespace o' = Namespace o /\ ClusterID o' = ClusterID o)
  /\ (forall o b pre,
        PipelineName o <> ""%string -> ProductName o <> ""%string ->
        (forall opt, BuildFind w opt = Ok (Some b)) ->
        build_PreBuild b = Some pre ->
        PreBuild_ClusterID pre <> ""%string ->
        exists o',
          final (TaskContainerLogStream cfg w ctx (Some o)) = Some o'
          /\ ClusterID o' = PreBuild_ClusterID pre
          /\ Namespace o' = namespace_of_cluster cfg (PreBuild_ClusterID pre))
  /\ (forall o t pre,
        TestingFind w (getTestName (ServiceName o)) "" = Some t ->
        testing_PreTest t = Some pre ->
        PreTest_ClusterID pre <> ""%string ->
        exists o',
          final (TestJobContainerLogStream cfg w ctx (Some o)) = Some o'
          /\ ClusterID o' = PreTest_ClusterID pre
          /\ Namespace o' = namespace_of_cluster cfg (PreTest_ClusterID pre))
  /\ (forall o task before job after c,
        WorkflowTaskFind w (PipelineName o) (TaskID o) = Ok task ->
        task_Stages task = [ {| stage_Jobs := before ++ job :: after |} ] ->
        Forall (fun j => job_Name j <> SubTask o) before ->
        job_Name job = SubTask o ->
        jobClusterID cfg job = Some (Ok c) ->
        exists o',
          final (WorkflowTaskV4ContainerLogStream cfg w ctx (Some o)) = Some o'
          /\ ClusterID o'
             = (if String.eqb c "" then setting_LocalClusterID cfg else c)
          /\ Namespace o' = namespace_of_cluster cfg (ClusterID o')
          /\ (c = ""%string -> Namespace o' = config_Namespace cfg)).
Proof.
  split.
  { unfold namespace_of_cluster. now rewrite String.eqb_refl. }
  split.
  { intros c Hc. unfold namespace_of_cluster.
    apply String.eqb_neq in Hc. now rewrite Hc. }
  split.
  { intros entry He o o' Hfinal.
    destruct He as [He|[He|He]]; subst entry.
    - unfold TaskContainerLogStream in Hfinal.
      pose proof (resolve_by_rule cfg w o) as Hr.
      destruct (TaskContainerLogStream_resolve cfg w o) as [[o1 tr] returned].
      cbn [fst] in Hr.
      destruct returned.
      + cbn [final] in Hfinal. inversion Hfinal; subst. exact Hr.
      + match type of Hfinal with
        | context [waitAndGetLog cfg w ctx ?sel ?o2] =>
            destruct (waitAndGetLog cfg w ctx sel o2) as [tw cpl]
        end.
        cbn [final] in Hfinal. inversion Hfinal; subst.
        destruct (String.eqb (SubTask o1) ""); exact Hr.
    - unfold WorkflowTaskV4ContainerLogStream in Hfinal.
      destruct (WorkflowTaskFind w (PipelineName o) (TaskID o)) as [task|].
      2: { cbn [final] in Hfinal. inversion Hfinal; subst.
           left. split; reflexivity. }
      pose proof (scanStages_by_rule cfg o (task_Stages task) o
                    (or_introl (conj eq_refl eq_refl))) as Hr.
      destruct (scanStages cfg (task_Stages task) o) as [[o1 tr] returned].
      cbn [fst] in Hr.
      destruct returned.
      + cbn [final] in Hfinal. inversion Hfinal; subst. exact Hr.
      + destruct (waitAndGetLog cfg w ctx (getWorkflowSelector cfg o1) o1)
          as [tw cpl].
        cbn [final] in Hfinal. inversion Hfinal; subst. exact Hr.
    - unfold TestJobContainerLogStream in Hfinal.
      match type of Hfinal with
      | context [waitAndGetLog cfg w ctx ?sel ?o2] =>
          destruct (waitAndGetLog cfg w ctx sel o2) as [tw cpl]
      end.
      cbn [final] in Hfinal. inversion Hfinal; subst. clear Hfinal.
      unfold untouched_or_by_rule.
      repeat match goal with
             | |- context [match ?x with _ => _ end] => destruct x eqn:?
             end;
        first [ left; split; reflexivity
              | right; unfold namespace_of_cluster; cbn;
                match goal with
                | H : String.eqb _ _ = _ |- _ => rewrite H; reflexivity
                end ]. }
  split.
  { intros o He Hp Hn.
    unfold TaskContainerLogStream, TaskContainerLogStream_resolve.
    rewrite (nonempty_true _ He), (nonempty_true _ Hp), Hn.
    cbn [andb String.eqb].
    destruct (parseServiceName (ServiceName o) (ServiceModule o))
      as [serviceName serviceModule].
    match goal with
    | |- context [FindTask w ?a ?b] => destruct (FindTask w a b)
    end;
      match goal with
      | |- context [waitAndGetLog cfg w ctx ?sel ?o2] =>
          destruct (waitAndGetLog cfg w ctx sel o2) as [tw cpl]
      end;
      cbn [final]; eexists; (split; [reflexivity|]);
      match goal with
      | |- context [String.eqb ?a ?b] => destruct (String.eqb a b)
      end; split; reflexivity. }
  split.
  { intros o b pre Hn Hp Hfind Hpre Hc.
    unfold TaskContainerLogStream, TaskContainerLogStream_resolve.
    apply String.eqb_neq in Hn.
    rewrite Hn, (nonempty_true _ Hp), andb_false_r.
    destruct (parseServiceName (ServiceName o) (ServiceModule o))
      as [serviceName serviceModule].
    rewrite Hfind, Hpre, (nonempty_true _ Hc).
    match goal with
    | |- context [waitAndGetLog cfg w ctx ?sel ?o2] =>
        destruct (waitAndGetLog cfg w ctx sel o2) as [tw cpl]
    end.
    cbn [final]. eexists. split; [reflexivity|].
    unfold namespace_of_cluster.
    destruct (String.eqb (PreBuild_ClusterID pre) (setting_LocalClusterID cfg));
      match goal with
      | |- context [String.eqb ?a ""] => destruct (String.eqb a "")
      end; split; reflexivity. }
  split.
  { intros o t pre Hfind Hpre Hc.
    unfold TestJobContainerLogStream.
    cbn [ServiceName set_SubTask].
    rewrite Hfind, Hpre, (nonempty_true _ Hc).
    match goal with
    | |- context [waitAndGetLog cfg w ctx ?sel ?o2] =>
        destruct (waitAndGetLog cfg w ctx sel o2) as [tw cpl]
    end.
    cbn [final]. eexists. split; [reflexivity|].
    unfold namespace_of_cluster.
    destruct (String.eqb (PreTest_ClusterID pre) (setting_LocalClusterID cfg));
      split; reflexivity. }
  intros o task before job after c Hfind Hstages Hbefore Hname Hjob.
  unfold WorkflowTaskV4ContainerLogStream.
  rewrite Hfind, Hstages. cbn [scanStages stage_Jobs].
  rewrite (scanJobs_skip cfg o before (job :: after) Hbefore).
  cbn [scanJobs]. rewrite Hname, String.eqb_refl. cbn [negb]. rewrite Hjob.
  cbn [app].
  match goal with
  | |- context [waitAndGetLog cfg w ctx ?sel ?o2] =>
      destruct (waitAndGetLog cfg w ctx sel o2) as [tw cpl]
  end.
  cbn [final]. eexists. split; [reflexivity|].
  cbn [ClusterID set_ClusterID set_JobType set_JobName].
  unfold namespace_of_cluster.
  destruct (String.eqb c "") eqn:E1; cbn [ClusterID set_ClusterID].
  - rewrite String.eqb_refl. cbn. rewrite String.eqb_refl.
    repeat split; reflexivity.
  - destruct (String.eqb c (setting_LocalClusterID cfg)) eqn:E2; cbn; rewrite ?E2.
    + repeat split; reflexivity.
    + repeat split; try reflexivity. intro Hc. subst c. discriminate.
Qed.

(** The scenario of the specification: workflow ["wf1"], task 7, sub-task
    ["build-job"], job type ["zadig-build"], and a job spec with an empty
    cluster id. *)
Lemma namespace_rule_shared_witness :
  exists o',
    final (WorkflowTaskV4ContainerLogStream sample_settings
             (sample_world sample_stream (Some 5%Z)) background
             (Some sample_options)) = Some o'
    /\ ClusterID o' = "0123456789abcdef12345678"%string
    /\ Namespace o' = "zadig"%string.
Proof.
  destruct (proj2 (proj2 (proj2 (proj2 (proj2 (proj2
              (namespace_rule_shared sample_settings
                 (sample_world sample_stream (Some 5%Z)) background))))))
              sample_options
              {| task_Stages := [ {| stage_Jobs := [] ++ sample_job :: [] |} ] |}
              [] sample_job [] ""%string
              eq_refl eq_refl (Forall_nil _) eq_refl eq_refl)
    as (o' & Hfinal & Hcluster & _ & Hdefault).
  exists o'. split; [exact Hfinal|]. split; [exact Hcluster|].
  exact (Hdefault eq_refl).
Defined.

(** * Properties beyond the claims *)

(** ** Strings, continued *)

Lemma HasPrefix_app (p x : string) : strings.HasPrefix (p ++ x) p = true.
Proof.
  induction p as [|c p IH]; [destruct x; reflexivity|].
  cbn. now rewrite Ascii.eqb_refl.
Qed.

Lemma drop_app (p x : string) : strings.drop (String.length p) (p ++ x) = x.
Proof. induction p as [|c p IH]; [reflexivity | exact IH]. Qed.

Lemma TrimPrefix_app (p x : string) : strings.TrimPrefix (p ++ x) p = x.
Proof. unfold strings.TrimPrefix. now rewrite HasPrefix_app, drop_app. Qed.

Lemma length_pos_ltb (s : string) :
  s <> ""%string -> (0 <? String.length s)%nat = true.
Proof. destruct s; [congruence | reflexivity]. Qed.

(** A string with a separator is cut at the first one. *)
Lemma cut_at_first (c : ascii) (s : string) :
  1 <= strings.CountByte c s ->
  exists A B,
    s = (A ++ String c B)%string
    /\ strings.CountByte c A = 0
    /\ strings.CountByte c B = strings.CountByte c s - 1.
Proof.
  induction s as [|d s IH]; cbn [strings.CountByte]; intro H; [lia|].
  destruct (Ascii.eqb d c) eqn:E.
  - apply Ascii.eqb_eq in E. subst d.
    exists ""%string, s. repeat split. cbn. lia.
  - destruct (IH ltac:(lia)) as (A & B & Hs & HA & HB).
    exists (String d A), B. subst s. repeat split.
    + cbn [strings.CountByte]. rewrite E. exact HA.
    + rewrite HB. cbn. lia.
Qed.

(** X1: with an explicit module [M], the module is returned as given; a
    composite name ["M_X"] loses its prefix ["M_"], whatever [X] holds, and
    a name that does not start with ["M_"] is returned unchanged as the
    service name. *)
Theorem parseServiceName_explicit_module (fullServiceName M : string) :
  M <> ""%string ->
  snd (parseServiceName fullServiceName M) = M
  /\ (forall X,
        fullServiceName = (M ++ "_" ++ X)%string ->
        parseServiceName fullServiceName M = (X, M))
  /\ (strings.HasPrefix fullServiceName (M ++ "_") = false ->
      parseServiceName fullServiceName M = (fullServiceName, M)).
Proof.
  intro HM. unfold parseServiceName. rewrite (length_pos_ltb M HM).
  split; [reflexivity|]. split.
  - intros X ->. rewrite <- append_assoc. now rewrite TrimPrefix_app.
  - intro H. unfold strings.TrimPrefix. now rewrite H.
Qed.

Lemma parseServiceName_explicit_module_witness :
  parseServiceName "mod_my_svc" "mod" = ("my_svc"%string, "mod"%string)
  /\ parseServiceName "other" "mod" = ("other"%string, "mod"%string).
Proof.
  destruct (parseServiceName_explicit_module "mod_my_svc" "mod"
              ltac:(discriminate)) as (_ & H1 & _).
  destruct (parseServiceName_explicit_module "other" "mod"
              ltac:(discriminate)) as (_ & _ & H2).
  split; [exact (H1 "my_svc"%string eq_refl) | exact (H2 eq_refl)].
Defined.

(** X2: on a composite name ["M_X"] whose module and service name hold no
    underscore, decoding with the explicit module [M] and decoding with no
    module give the same pair; when the service name holds an underscore,
    the explicit decoding still returns it, and the decoding with no module
    returns two empty strings. *)
Theorem parseServiceName_forms_agree (M X : string) :
  M <> ""%string ->
  strings.CountByte underscore M = 0 ->
  (strings.CountByte underscore X = 0 ->
   parseServiceName (M ++ "_" ++ X) M = parseServiceName (M ++ "_" ++ X) "")
  /\ (1 <= strings.CountByte underscore X ->
      parseServiceName (M ++ "_" ++ X) M = (X, M)
      /\ parseServiceName (M ++ "_" ++ X) "" = (""%string, ""%string)).
Proof.
  intros HM HcM.
  assert (Hexp : parseServiceName (M ++ "_" ++ X) M = (X, M)).
  { unfold parseServiceName. rewrite (length_pos_ltb M HM).
    rewrite <- append_assoc. now rewrite TrimPrefix_app. }
  split.
  - intro HcX. rewrite Hexp.
    unfold parseServiceName. cbn [String.length Nat.ltb Nat.leb].
    unfold strings.Split.
    change ("_" ++ X)%string with (String underscore X).
    rewrite genSplit_first_separator by exact HcM.
    rewrite genSplit_no_separator by exact HcX.
    reflexivity.
  - intro HcX. split; [exact Hexp|].
    unfold parseServiceName. cbn [String.length Nat.ltb Nat.leb].
    rewrite Split_length, CountByte_app.
    change ("_" ++ X)%string with (String underscore X).
    cbn [strings.CountByte]. rewrite Ascii.eqb_refl.
    destruct (strings.CountByte underscore X) as [|n]; [lia|].
    rewrite HcM. reflexivity.
Qed.

Lemma parseServiceName_forms_agree_witness :
  parseServiceName ("mod" ++ "_" ++ "svc") "mod"
  = parseServiceName ("mod" ++ "_" ++ "svc") ""
  /\ parseServiceName ("mod" ++ "_" ++ "my_svc") "" = (""%string, ""%string).
Proof.
  destruct (parseServiceName_forms_agree "mod" "svc"
              ltac:(discriminate) eq_refl) as [H1 _].
  destruct (parseServiceName_forms_agree "mod" "my_svc"
              ltac:(discriminate) eq_refl) as [_ H2].
  split; [exact (H1 eq_refl) | exact (proj2 (H2 (le_n 1)))].
Defined.

(** X3: with no explicit module, neither result holds an underscore; an
    identifier without underscore is the module returned, an identifier
    with one underscore is the module, the underscore and the service
    name returned; so an identifier ["A_"] and the identifier ["A"] are
    decoded alike. *)
Theorem parseServiceName_legacy_round_trip (s : string) :
  strings.CountByte underscore (fst (parseServiceName s "")) = 0
  /\ strings.CountByte underscore (snd (parseServiceName s "")) = 0
  /\ (strings.CountByte underscore s = 0 ->
      s = snd (parseServiceName s ""))
  /\ (strings.CountByte underscore s = 1 ->
      s = (snd (parseServiceName s "") ++ "_"
             ++ fst (parseServiceName s ""))%string)
  /\ (strings.CountByte underscore s = 0 ->
      parseServiceName (s ++ "_") "" = parseServiceName s "").
Proof.
  assert (H0 : strings.CountByte underscore s = 0 ->
               parseServiceName s "" = (""%string, s)).
  { intro H. unfold parseServiceName, strings.Split.
    cbn [String.length Nat.ltb Nat.leb].
    now rewrite genSplit_no_separator by exact H. }
  assert (H1 : forall A B,
             strings.CountByte underscore A = 0 ->
             strings.CountByte underscore B = 0 ->
             parseServiceName (A ++ String underscore B) "" = (B, A)).
  { intros A B HA HB. unfold parseServiceName, strings.Split.
    cbn [String.length Nat.ltb Nat.leb].
    rewrite genSplit_first_separator by exact HA.
    now rewrite genSplit_no_separator by exact HB. }
  assert (H2 : 2 <= strings.CountByte underscore s ->
               parseServiceName s "" = (""%string, ""%string)).
  { intro H. unfold parseServiceName. cbn [String.length Nat.ltb Nat.leb].
    rewrite Split_length.
    destruct (strings.CountByte underscore s) as [|[|n]];
      [lia | lia | reflexivity]. }
  destruct (strings.CountByte underscore s) as [|[|n]] eqn:Hc.
  - rewrite (H0 eq_refl). cbn [fst snd].
    split; [reflexivity|]. split; [exact Hc|]. split; [reflexivity|].
    split; [discriminate|]. intros _.
    change (s ++ "_")%string with (s ++ String underscore "")%string.
    now rewrite (H1 s ""%string Hc eq_refl).
  - destruct (cut_at_first underscore s ltac:(lia)) as (A & B & Hs & HA & HB).
    rewrite Hc in HB. cbn in HB. subst s.
    rewrite (H1 A B HA HB). cbn [fst snd].
    split; [exact HB|]. split; [exact HA|]. split; [discriminate|].
    split; [reflexivity | discriminate].
  - rewrite (H2 ltac:(lia)). cbn [fst snd].
    split; [reflexivity|]. split; [reflexivity|]. split; [discriminate|].
    split; discriminate.
Qed.

Lemma parseServiceName_legacy_round_trip_witness :
  "mod_svc"%string
  = (snd (parseServiceName "mod_svc" "") ++ "_"
       ++ fst (parseServiceName "mod_svc" ""))%string
  /\ parseServiceName ("mod" ++ "_") "" = parseServiceName "mod" "".
Proof.
  split.
  - exact (proj1 (proj2 (proj2 (proj2
             (parseServiceName_legacy_round_trip "mod_svc")))) eq_refl).
  - exact (proj2 (proj2 (proj2 (proj2
             (parseServiceName_legacy_round_trip "mod")))) eq_refl).
Defined.

(** ** Trailing bytes *)

Lemma TrimRight_allIn (cutset suffix : string) :
  allIn cutset suffix = true -> strings.TrimRight suffix cutset = ""%string.
Proof.
  induction suffix as [|c s IH]; [reflexivity|].
  cbn [allIn strings.TrimRight]. intro H.
  apply andb_true_iff in H. destruct H as [Hc Hs].
  now rewrite (IH Hs), Hc.
Qed.

Lemma TrimRight_app (cutset t suffix : string) :
  allIn cutset suffix = true ->
  strings.TrimRight (t ++ suffix) cutset = strings.TrimRight t cutset.
Proof.
  intro H. induction t as [|c t IH].
  - cbn [append]. now rewrite TrimRight_allIn.
  - cbn [append strings.TrimRight]. now rewrite IH.
Qed.

Lemma TrimRight_decompose (cutset s : string) :
  exists suffix,
    s = (strings.TrimRight s cutset ++ suffix)%string
    /\ allIn cutset suffix = true.
Proof.
  induction s as [|c s (suffix & Hs & Hall)].
  - exists ""%string. split; reflexivity.
  - cbn [strings.TrimRight].
    destruct (strings.TrimRight s cutset) as [|d r] eqn:E.
    + destruct (strings.ContainsByte cutset c) eqn:Hc.
      * exists (String c s). split; [reflexivity|].
        cbn [allIn]. rewrite Hc. cbn [append] in Hs. now rewrite Hs.
      * exists suffix. cbn [append] in *. subst suffix.
        split; [reflexivity | exact Hall].
    + exists suffix. cbn [append] in *. rewrite <- Hs.
      split; [reflexivity | exact Hall].
Qed.

Lemma TrimRight_not_endsIn (cutset s : string) :
  endsIn cutset (strings.TrimRight s cutset) = false.
Proof.
  induction s as [|c s IH]; [reflexivity|].
  cbn [strings.TrimRight].
  destruct (strings.TrimRight s cutset) as [|d r] eqn:E.
  - destruct (strings.ContainsByte cutset c) eqn:Hc; [reflexivity|].
    cbn [endsIn]. exact Hc.
  - exact IH.
Qed.

Lemma TrimRight_fixed (cutset s : string) :
  endsIn cutset s = false -> strings.TrimRight s cutset = s.
Proof.
  induction s as [|c s IH]; [reflexivity|].
  destruct s as [|d s].
  - cbn. intros ->. reflexivity.
  - intro H. change (endsIn cutset (String d s) = false) in H.
    cbn [strings.TrimRight] in *. rewrite (IH H). reflexivity.
Qed.

Lemma rev_app (a b : string) :
  strings.rev (a ++ b) = (strings.rev b ++ strings.rev a)%string.
Proof.
  induction a as [|c a IH]; cbn [append strings.rev].
  - now rewrite append_nil_r.
  - now rewrite IH, append_assoc.
Qed.

Lemma rev_involutive (s : string) : strings.rev (strings.rev s) = s.
Proof.
  induction s as [|c s IH]; [reflexivity|].
  cbn [strings.rev]. now rewrite rev_app, IH.
Qed.

(** X4: [getTestName] returns a prefix of the service name; what it cuts
    off is made of the bytes [-], [j], [o], [b] only; what it returns does
    not end in one of them; and a second application changes nothing. *)
Theorem getTestName_trims_trailing_bytes (serviceName : string) :
  (exists suffix,
      serviceName = (getTestName serviceName ++ suffix)%string
      /\ allIn "-job" suffix = true)
  /\ endsIn "-job" (getTestName serviceName) = false
  /\ getTestName (getTestName serviceName) = getTestName serviceName.
Proof.
  unfold getTestName. split; [apply TrimRight_decompose|].
  split; [apply TrimRight_not_endsIn|].
  apply TrimRight_fixed, TrimRight_not_endsIn.
Qed.

(** X5: on the job name ["<test>-job"], [getTestName] gives the test name
    back, as trimming the suffix ["-job"] does, exactly when the test name
    does not end in one of the bytes [-], [j], [o], [b]; trimming the
    suffix always gives it back. *)
Theorem getTestName_recovers_test_name (testName : string) :
  trim_job_suffix (testName ++ "-job") = testName
  /\ (getTestName (testName ++ "-job") = testName
      <-> endsIn "-job" testName = false).
Proof.
  split.
  - unfold trim_job_suffix, strings.TrimSuffix, strings.HasSuffix.
    rewrite rev_app, HasPrefix_app.
    change (String.length "-job") with (String.length (strings.rev "-job")).
    now rewrite drop_app, rev_involutive.
  - unfold getTestName. rewrite TrimRight_app by reflexivity. split.
    + intro H. rewrite <- H. apply TrimRight_not_endsIn.
    + apply TrimRight_fixed.
Qed.

(** ** Selector of a workflow job *)

Lemma genSplit_Join_hyphen (s : string) : forall cur,
  strings.Join (strings.genSplit "_" 0 cur s) "-" = (cur ++ hyphenated s)%string.
Proof.
  induction s as [|c s IH]; intro cur.
  - simpl. now rewrite append_nil_r.
  - rewrite genSplit_underscore_cons. cbn [hyphenated].
    destruct (Ascii.eqb c underscore) eqn:E.
    + specialize (IH ""%string).
      destruct (strings.genSplit "_" 0 "" s) as [|e rest] eqn:G.
      * pose proof (genSplit_length s "") as L. rewrite G in L. discriminate.
      * cbn [strings.Join].
        change (strings.Join (e :: rest) "-") with
          (match rest with
           | [] => e
           | _ :: _ => (e ++ "-" ++ strings.Join rest "-")%string
           end) in IH.
        rewrite IH. reflexivity.
    + rewrite IH. now rewrite append_snoc.
Qed.

Lemma ReplaceAll_hyphenated (s : string) :
  strings.ReplaceAll s "_" "-" = hyphenated s.
Proof. unfold strings.ReplaceAll, strings.Split. apply genSplit_Join_hyphen. Qed.

Lemma hyphenated_length (s : string) :
  String.length (hyphenated s) = String.length s.
Proof. induction s as [|c s IH]; cbn; [reflexivity | now rewrite IH]. Qed.

Lemma hyphenated_no_underscore (s : string) :
  strings.CountByte underscore (hyphenated s) = 0.
Proof.
  induction s as [|c s IH]; [reflexivity|].
  cbn [hyphenated strings.CountByte]. rewrite IH.
  destruct (Ascii.eqb c underscore) eqn:E; [reflexivity|].
  rewrite E. reflexivity.
Qed.

(** X6: the selector of a workflow job holds the job type under the type
    key when the job type is not empty, then the job name under the name
    key when the job name is not empty, each with its underscores turned
    into hyphens and its length kept; so no label is empty, no label holds
    an underscore, and a request without job type and job name gets the
    empty selector. *)
Theorem getWorkflowSelector_labels (cfg : Settings) (options : GetContainerOptions) :
  getWorkflowSelector cfg options
  = (if String.eqb (JobType options) "" then []
     else [(setting_JobLabelSTypeKey cfg, hyphenated (JobType options))])
    ++ (if String.eqb (JobName options) "" then []
        else [(setting_JobLabelNameKey cfg, hyphenated (JobName options))])
  /\ (forall k v,
        In (k, v) (getWorkflowSelector cfg options) ->
        v <> ""%string
        /\ strings.CountByte underscore v = 0
        /\ (String.length v = String.length (JobType options)
            \/ String.length v = String.length (JobName options)))
  /\ (JobType options = ""%string -> JobName options = ""%string ->
      getWorkflowSelector cfg options = []).
Proof.
  assert (Hsel : getWorkflowSelector cfg options
    = (if String.eqb (JobType options) "" then []
       else [(setting_JobLabelSTypeKey cfg, hyphenated (JobType options))])
      ++ (if String.eqb (JobName options) "" then []
          else [(setting_JobLabelNameKey cfg, hyphenated (JobName options))])).
  { unfold getWorkflowSelector. rewrite !ReplaceAll_hyphenated.
    cbn [filter snd]. rewrite !hyphenated_length.
    destruct (JobType options) as [|c t]; destruct (JobName options) as [|d n];
      reflexivity. }
  split; [exact Hsel|]. split.
  - intros k v. rewrite Hsel. intro H. apply in_app_or in H.
    destruct H as [H|H].
    + destruct (JobType options) as [|c t] eqn:E; [destruct H|].
      cbn [String.eqb] in H. destruct H as [H|[]]. inversion H; subst.
      split; [cbn; discriminate|].
      split; [exact (hyphenated_no_underscore (String c t))|].
      left. exact (hyphenated_length (String c t)).
    + destruct (JobName options) as [|c t] eqn:E; [destruct H|].
      cbn [String.eqb] in H. destruct H as [H|[]]. inversion H; subst.
      split; [cbn; discriminate|].
      split; [exact (hyphenated_no_underscore (String c t))|].
      right. exact (hyphenated_length (String c t)).
  - intros Ht Hn. rewrite Hsel, Ht, Hn. reflexivity.
Qed.

Lemma getWorkflowSelector_labels_witness :
  getWorkflowSelector sample_settings sample_options = [].
Proof.
  exact (proj2 (proj2 (getWorkflowSelector_labels sample_settings sample_options))
           eq_refl eq_refl).
Defined.

(** ** Trimmed lines *)

Lemma CountByte_rev (c : ascii) (s : string) :
  strings.CountByte c (strings.rev s) = strings.CountByte c s.
Proof.
  induction s as [|d s IH]; [reflexivity|].
  cbn [strings.rev]. rewrite CountByte_app, IH. cbn. lia.
Qed.

(** The left scan returns a suffix of its argument that does not start
    with an ASCII white space. *)
Lemma trimLeftSpace_suffix : forall n s,
  String.length s < n ->
  (exists pre, s = (pre ++ strings.trimLeftSpace s)%string)
  /\ startsWithSpace (strings.trimLeftSpace s) = false.
Proof.
  induction n as [|n IH]; intros s Hn; [lia|].
  destruct s as [|c1 s1]; [split; [exists ""%string|]; reflexivity|].
  cbn [strings.trimLeftSpace]. cbn [String.length] in Hn.
  destruct (strings.asciiSpace c1) eqn:E1.
  { destruct (IH s1 ltac:(lia)) as [[pre Hp] Hs]. split; [|exact Hs].
    exists (String c1 pre). cbn [append]. now rewrite <- Hp. }
  destruct s1 as [|c2 s2].
  { split; [exists ""%string; reflexivity | exact E1]. }
  cbn [String.length] in Hn.
  destruct (strings.space2 c1 c2).
  { destruct (IH s2 ltac:(lia)) as [[pre Hp] Hs]. split; [|exact Hs].
    exists (String c1 (String c2 pre)). cbn [append]. now rewrite <- Hp. }
  destruct s2 as [|c3 s3].
  { split; [exists ""%string; reflexivity | exact E1]. }
  cbn [String.length] in Hn.
  destruct (strings.space3 c1 c2 c3).
  { destruct (IH s3 ltac:(lia)) as [[pre Hp] Hs]. split; [|exact Hs].
    exists (String c1 (String c2 (String c3 pre))). cbn [append].
    now rewrite <- Hp. }
  split; [exists ""%string; reflexivity | exact E1].
Qed.

Lemma trimLeftSpaceRev_suffix : forall n s,
  String.length s < n ->
  (exists pre, s = (pre ++ strings.trimLeftSpaceRev s)%string)
  /\ startsWithSpace (strings.trimLeftSpaceRev s) = false.
Proof.
  induction n as [|n IH]; intros s Hn; [lia|].
  destruct s as [|c1 s1]; [split; [exists ""%string|]; reflexivity|].
  cbn [strings.trimLeftSpaceRev]. cbn [String.length] in Hn.
  destruct (strings.asciiSpace c1) eqn:E1.
  { destruct (IH s1 ltac:(lia)) as [[pre Hp] Hs]. split; [|exact Hs].
    exists (String c1 pre). cbn [append]. now rewrite <- Hp. }
  destruct s1 as [|c2 s2].
  { split; [exists ""%string; reflexivity | exact E1]. }
  cbn [String.length] in Hn.
  destruct (strings.space2 c2 c1).
  { destruct (IH s2 ltac:(lia)) as [[pre Hp] Hs]. split; [|exact Hs].
    exists (String c1 (String c2 pre)). cbn [append]. now rewrite <- Hp. }
  destruct s2 as [|c3 s3].
  { split; [exists ""%string; reflexivity | exact E1]. }
  cbn [String.length] in Hn.
  destruct (strings.space3 c3 c2 c1).
  { destruct (IH s3 ltac:(lia)) as [[pre Hp] Hs]. split; [|exact Hs].
    exists (String c1 (String c2 (String c3 pre))). cbn [append].
    now rewrite <- Hp. }
  split; [exists ""%string; reflexivity | exact E1].
Qed.

Lemma endsWithSpace_snoc (s : string) (c : ascii) :
  endsWithSpace (s ++ String c "") = strings.asciiSpace c.
Proof.
  induction s as [|d s IH]; [reflexivity|].
  cbn [append]. destruct s as [|e s]; [reflexivity|]. exact IH.
Qed.

Lemma endsWithSpace_rev (s : string) :
  endsWithSpace (strings.rev s) = startsWithSpace s.
Proof.
  destruct s as [|c s]; [reflexivity|].
  cbn [strings.rev]. apply endsWithSpace_snoc.
Qed.

Lemma startsWithSpace_app (a b : string) :
  a <> ""%string -> startsWithSpace (a ++ b) = startsWithSpace a.
Proof. destruct a; [congruence | reflexivity]. Qed.

Lemma rev_empty (s : string) : strings.rev s = ""%string -> s = ""%string.
Proof.
  destruct s as [|c s]; [reflexivity|]. cbn [strings.rev].
  destruct (strings.rev s); discriminate.
Qed.

(** What [TrimSpace] returns is a piece of its argument with no ASCII
    white space at either end. *)
Lemma TrimSpace_piece (s : string) :
  (exists pre post, s = (pre ++ strings.TrimSpace s ++ post)%string)
  /\ startsWithSpace (strings.TrimSpace s) = false
  /\ endsWithSpace (strings.TrimSpace s) = false.
Proof.
  unfold strings.TrimSpace, strings.trimRightSpace.
  destruct (trimLeftSpace_suffix (S (String.length s)) s ltac:(lia))
    as [[pre Hpre] Hstart].
  set (u := strings.trimLeftSpace s) in *.
  destruct (trimLeftSpaceRev_suffix (S (String.length (strings.rev u)))
              (strings.rev u) ltac:(lia)) as [[post Hpost] Hstart'].
  set (v := strings.trimLeftSpaceRev (strings.rev u)) in *.
  assert (Hu : u = (strings.rev v ++ strings.rev post)%string).
  { rewrite <- rev_app, <- Hpost. now rewrite rev_involutive. }
  split; [|split].
  - exists pre, (strings.rev post). now rewrite <- Hu.
  - destruct (strings.rev v) as [|c r] eqn:Ev; [reflexivity|].
    rewrite Hu in Hstart. exact Hstart.
  - rewrite endsWithSpace_rev. exact Hstart'.
Qed.

Lemma TrimSpace_count_le (c : ascii) (s : string) :
  strings.CountByte c (strings.TrimSpace s) <= strings.CountByte c s.
Proof.
  destruct (TrimSpace_piece s) as [(pre & post & H) _].
  rewrite H at 2. rewrite !CountByte_app. lia.
Qed.

Lemma asciiSpace_newline : strings.asciiSpace newline = true.
Proof. reflexivity. Qed.

(** A piece of a string that ends with its only newline holds no newline
    unless it ends with it. *)
Lemma piece_of_terminated (body : string) : forall pre mid post,
  strings.CountByte newline body = 0 ->
  (body ++ String newline "")%string = (pre ++ mid ++ post)%string ->
  strings.CountByte newline mid = 0 \/ endsWithSpace mid = true.
Proof.
  intros pre mid post Hbody H.
  assert (Hcount : strings.CountByte newline (pre ++ mid ++ post) = 1).
  { rewrite <- H, CountByte_app, Hbody. reflexivity. }
  rewrite !CountByte_app in Hcount.
  destruct (strings.CountByte newline mid) as [|m] eqn:Hm; [left; reflexivity|].
  right.
  assert (Hpost : post = ""%string).
  { destruct post as [|p post]; [reflexivity|].
    exfalso.
    assert (Hrev : strings.rev (body ++ String newline "")
                   = strings.rev (pre ++ mid ++ String p post))
      by now rewrite H.
    rewrite !rev_app in Hrev. cbn [strings.rev append] in Hrev.
    assert (Hc : strings.CountByte newline
                   (strings.rev post ++ String p "") = 0).
    { rewrite CountByte_app, CountByte_rev.
      cbn [strings.CountByte] in Hcount |- *. lia. }
    destruct (strings.rev post ++ String p "")%string as [|q r] eqn:Eq.
    - destruct (strings.rev post); discriminate.
    - rewrite append_assoc in Hrev. cbn [append] in Hrev.
      inversion Hrev; subst q.
      cbn [strings.CountByte] in Hc. rewrite Ascii.eqb_refl in Hc. lia. }
  subst post. rewrite append_nil_r in H.
  assert (Hrev : strings.rev (body ++ String newline "")
                 = strings.rev (pre ++ mid)) by now rewrite H.
  rewrite !rev_app in Hrev. cbn [strings.rev append] in Hrev.
  destruct mid as [|c mid]; [discriminate|].
  rewrite <- (rev_involutive (String c mid)).
  destruct (strings.rev (String c mid)) as [|q r] eqn:Eq.
  - apply rev_empty in Eq. discriminate.
  - cbn [append] in Hrev. inversion Hrev; subst q.
    cbn [strings.rev]. rewrite endsWithSpace_snoc. apply asciiSpace_newline.
Qed.

Lemma cutAfter_line (s : string) : forall line rest,
  cutAfter newline s = Some (line, rest) ->
  exists body,
    line = (body ++ String newline "")%string
    /\ strings.CountByte newline body = 0.
Proof.
  induction s as [|c s IH]; intros line rest H; [discriminate|].
  cbn [cutAfter] in H.
  destruct (Ascii.eqb c newline) eqn:E.
  - apply Ascii.eqb_eq in E. inversion H; subst.
    exists ""%string. split; reflexivity.
  - destruct (cutAfter newline s) as [[l r]|]; [|discriminate].
    inversion H; subst.
    destruct (IH l rest eq_refl) as (body & Hl & Hb).
    exists (String c body). subst l. split; [reflexivity|].
    cbn [strings.CountByte]. rewrite E. exact Hb.
Qed.

Lemma cutAfter_none (s : string) :
  cutAfter newline s = None -> strings.CountByte newline s = 0.
Proof.
  induction s as [|c s IH]; intro H; [reflexivity|].
  cbn [cutAfter] in H. cbn [strings.CountByte].
  destruct (Ascii.eqb c newline); [discriminate|].
  destruct (cutAfter newline s) as [[l r]|]; [discriminate|].
  now rewrite IH.
Qed.

Lemma TrimSpace_clean_terminated (body : string) :
  strings.CountByte newline body = 0 ->
  cleanLine (strings.TrimSpace (body ++ String newline "")).
Proof.
  intro Hbody.
  destruct (TrimSpace_piece (body ++ String newline ""))
    as ((pre & post & Hp) & Hs & He).
  split; [|split; assumption].
  destruct (piece_of_terminated body pre _ post Hbody Hp) as [H|H];
    [exact H | congruence].
Qed.

Lemma TrimSpace_clean_partial (partial : string) :
  strings.CountByte newline partial = 0 ->
  cleanLine (strings.TrimSpace partial).
Proof.
  intro H. destruct (TrimSpace_piece partial) as (_ & Hs & He).
  split; [|split; assumption].
  pose proof (TrimSpace_count_le newline partial). lia.
Qed.

Lemma streamLoop_clean (ctx : Context) (clock : nat -> Z) :
  forall fuel k buf,
    Forall cleanLine (sends (fst (streamLoop fuel ctx clock k buf))).
Proof.
  induction fuel as [|fuel IH]; intros k buf; [constructor|].
  cbn [streamLoop].
  destruct (Done ctx (clock k)); [constructor|].
  unfold ReadString.
  destruct (cutAfter newline (pending buf)) as [[line rest]|] eqn:Hcut.
  - destruct (cutAfter_line _ _ _ Hcut) as (body & -> & Hbody).
    specialize (IH (k + 3) {| pending := rest; atEnd := atEnd buf |}).
    destruct (streamLoop fuel ctx clock (k + 3)
                {| pending := rest; atEnd := atEnd buf |}) as [tr e].
    cbn [fst app sends] in *.
    constructor; [apply TrimSpace_clean_terminated; exact Hbody | exact IH].
  - pose proof (cutAfter_none _ Hcut) as Hnone.
    destruct (atEnd buf); cbn [fst app sends]; [|constructor].
    destruct (0 <? String.length (strings.TrimSpace (pending buf)))%nat;
      cbn [app sends]; constructor;
      [apply TrimSpace_clean_partial; exact Hnone | constructor].
Qed.

(** X7: whatever the context and the stream, every line that
    [containerLogStream] sends holds no newline byte and has no ASCII
    white space (space, tab, carriage return, ...) at either end. *)
Theorem containerLogStream_sends_clean_lines
  (ctx : Context) (clock : nat -> Z)
  (open : string -> string -> string -> bool -> Z -> ClientSet -> result LogStream)
  (namespace podName containerName : string) (follow : bool) (tailLines : Z)
  (client : ClientSet) :
  Forall cleanLine
    (sends (fst (containerLogStream ctx clock open namespace podName
                   containerName follow tailLines client))).
Proof.
  unfold containerLogStream.
  destruct (open namespace podName containerName follow tailLines client)
    as [out|]; [|constructor].
  pose proof (streamLoop_clean ctx clock (S (String.length (content out))) 0
                (NewReader out)) as H.
  destruct (streamLoop (S (String.length (content out))) ctx clock 0
              (NewReader out)) as [body exit].
  cbn [fst app sends] in *. rewrite sends_app.
  destruct (closeFails out); cbn [sends]; now rewrite app_nil_r.
Qed.

(** ** Streams opened and closed *)


(** [containerLogStream] asks for one stream, and closes the one it got. *)
Lemma containerLogStream_balance
  (ctx : Context) (clock : nat -> Z)
  (open : string -> string -> string -> bool -> Z -> ClientSet -> result LogStream)
  (namespace podName containerName : string) (follow : bool) (tailLines : Z)
  (client : ClientSet) :
  opens (fst (containerLogStream ctx clock open namespace podName
                containerName follow tailLines client)) = 1
  /\ closes (fst (containerLogStream ctx clock open namespace podName
                    containerName follow tailLines client))
     = match open namespace podName containerName follow tailLines client with
       | Ok _ => 1
       | Err => 0
       end.
Proof.
  unfold containerLogStream.
  destruct (open namespace podName containerName follow tailLines client)
    as [out|]; [|split; reflexivity].
  destruct (streamLoop_never_closes ctx clock
              (S (String.length (content out))) 0 (NewReader out)) as [Hc Ho].
  destruct (streamLoop (S (String.length (content out))) ctx clock 0
              (NewReader out)) as [body exit].
  cbn [fst app opens closes] in *.
  rewrite opens_app, closes_app, Hc, Ho.
  destruct (closeFails out); split; reflexivity.
Qed.



(** ** The pod list *)



(** X10: when the client of the cluster is obtained, the pod wait
    succeeds, the pods are listed, and the log of the first pod is
    opened, under a context that is never done the sink receives the
    trimmed lines of that log in order, then its final partial line if
    any; one stream is opened, in follow mode, and it is closed once. *)
Theorem waitAndGetLog_streams_first_pod
  (cfg : Settings) (w : World) (ctx : Context) (selector : Selector)
  (options : GetContainerOptions) (clientSet : ClientSet)
  (kubeClient : KubeClient) (t : Z) (pod0 : Pod) (pods : list Pod)
  (out : LogStream) :
  Done_at ctx = None ->
  GetClientset w (config_HubServerAddress cfg) (ClusterID options)
  = Ok clientSet ->
  WaitUntilPodRunning w (WithTimeout (now w) ctx timeout) (Namespace options)
    selector clientSet = Some (WaitOk, t) ->
  GetKubeClient w (config_HubServerAddress cfg) (ClusterID options)
  = Ok kubeClient ->
  ListPods w (Namespace options) selector kubeClient = Ok (pod0 :: pods) ->
  GetContainerLogStream w (Namespace options) (pod_Name pod0)
    (SubTask options) true (TailLines options) clientSet = Ok out ->
  sends (fst (waitAndGetLog cfg w ctx selector options))
  = map strings.TrimSpace (fst (input_lines (content out)))
      ++ final_push (ending out) (snd (input_lines (content out)))
  /\ opens (fst (waitAndGetLog cfg w ctx selector options)) = 1
  /\ closes (fst (waitAndGetLog cfg w ctx selector options)) = 1
  /\ In (EvGetContainerLogStream (Namespace options) (pod_Name pod0)
           (SubTask options) true (TailLines options))
       (fst (waitAndGetLog cfg w ctx selector options)).
Proof.
  intros Hctx Hcs Hwait Hkc Hpods Hopen.
  unfold waitAndGetLog.
  rewrite Hcs, Hwait, Hkc, Hpods.
  cbn [fst].
  destruct (containerLogStream_balance ctx (clock w) (GetContainerLogStream w)
              (Namespace options) (pod_Name pod0) (SubTask options) true
              (TailLines options) clientSet) as [Ho Hc].
  rewrite Hopen in Hc.
  rewrite !sends_app, !opens_app, !closes_app, Ho, Hc.
  split; [|split; [reflexivity | split; [reflexivity|]]].
  - cbn [sends app]. unfold containerLogStream. rewrite Hopen.
    assert (Hnever : forall k, Done ctx (clock w k) = false).
    { intro k. unfold Done. now rewrite Hctx. }
    destruct (streamLoop_sends ctx (clock w) Hnever
                (S (String.length (content out))) 0 (NewReader out)
                ltac:(simpl; lia)) as [Hs _].
    destruct (streamLoop (S (String.length (content out))) ctx (clock w) 0
                (NewReader out)) as [body exit].
    cbn [fst] in *. rewrite !sends_app, Hs. cbn [NewReader pending atEnd].
    destruct (closeFails out); cbn [sends app]; now rewrite app_nil_r.
  - apply in_or_app. right. unfold containerLogStream.
    destruct (GetContainerLogStream w (Namespace options) (pod_Name pod0)
                (SubTask options) true (TailLines options) clientSet);
      [|right; left; reflexivity].
    destruct (streamLoop _ ctx (clock w) 0 _) as [body exit].
    right. left. reflexivity.
Qed.

Lemma waitAndGetLog_streams_first_pod_witness :
  WaitUntilPodRunning (sample_world sample_stream (Some 5%Z))
    (WithTimeout 0 background timeout) "" [] (clientset 0)
  = Some (WaitOk, 5%Z)
  /\ sends (fst (waitAndGetLog sample_settings
                   (sample_world sample_stream (Some 5%Z)) background []
                   sample_options))
     = ["l1"%string; "l2"%string; "l3"%string].
Proof.
  split; [reflexivity|].
  exact (proj1 (waitAndGetLog_streams_first_pod sample_settings
                  (sample_world sample_stream (Some 5%Z)) background []
                  sample_options (clientset 0) (kubeclient 0) 5
                  {| pod_Name := "pod-0" |} [] sample_stream
                  eq_refl eq_refl eq_refl eq_refl eq_refl eq_refl)).
Defined.

(** ** Job-context resolution, continued *)

Lemma metadataOnly_facts (tr : list event) :
  metadataOnly tr = true ->
  opens tr = 0 /\ closes tr = 0 /\ sends tr = [] /\ clusterCalls tr = 0.
Proof.
  induction tr as [|e tr IH]; intro H; [repeat split|].
  cbn [metadataOnly forallb] in H. apply andb_true_iff in H.
  destruct H as [He Ht]. specialize (IH Ht).
  destruct e; cbn [metadataEvent] in He; try discriminate; exact IH.
Qed.

Lemma metadataOnly_app (a b : list event) :
  metadataOnly a = true -> metadataOnly b = true ->
  metadataOnly (a ++ b) = true.
Proof. unfold metadataOnly. intros Ha Hb. now rewrite forallb_app, Ha, Hb. Qed.

Lemma clusterCalls_app (a b : list event) :
  clusterCalls (a ++ b) = clusterCalls a + clusterCalls b.
Proof.
  induction a as [|e a IH]; [reflexivity|].
  destruct e; cbn [app clusterCalls]; rewrite IH; reflexivity.
Qed.

Lemma resolve_metadataOnly (cfg : Settings) (w : World)
  (o : GetContainerOptions) :
  metadataOnly (snd (fst (TaskContainerLogStream_resolve cfg w o))) = true.
Proof.
  unfold TaskContainerLogStream_resolve. split_cases; reflexivity.
Qed.

Lemma scanJobs_metadataOnly (cfg : Settings) (jobs : list JobTask) :
  forall o, metadataOnly (snd (fst (scanJobs cfg jobs o))) = true.
Proof.
  induction jobs as [|job jobs IH]; intro o; [reflexivity|].
  cbn [scanJobs].
  destruct (negb (String.eqb (job_Name job) (SubTask o))); [apply IH|].
  destruct (jobClusterID cfg job) as [[c|]|]; reflexivity.
Qed.

Lemma scanStages_metadataOnly (cfg : Settings) (stages : list StageTask) :
  forall o, metadataOnly (snd (fst (scanStages cfg stages o))) = true.
Proof.
  induction stages as [|stage stages IH]; intro o; [reflexivity|].
  cbn [scanStages].
  pose proof (scanJobs_metadataOnly cfg (stage_Jobs stage) o) as Hj.
  destruct (scanJobs cfg (stage_Jobs stage) o) as [[o1 tr] returned].
  cbn [fst snd] in Hj.
  destruct returned; [exact Hj|].
  specialize (IH o1).
  destruct (scanStages cfg stages o1) as [[o2 tr'] returned'].
  cbn [fst snd] in *. now apply metadataOnly_app.
Qed.

(** [waitAndGetLog] asks for at most one stream and closes the one it
    got. *)
Lemma waitAndGetLog_balance
  (cfg : Settings) (w : World) (ctx : Context) (selector : Selector)
  (options : GetContainerOptions) :
  opens (fst (waitAndGetLog cfg w ctx selector options)) <= 1
  /\ closes (fst (waitAndGetLog cfg w ctx selector options))
     <= opens (fst (waitAndGetLog cfg w ctx selector options))
  /\ ((forall ns pod c f tail cs,
          GetContainerLogStream w ns pod c f tail cs <> Err) ->
      closes (fst (waitAndGetLog cfg w ctx selector options))
      = opens (fst (waitAndGetLog cfg w ctx selector options))).
Proof.
  unfold waitAndGetLog.
  destruct (GetClientset w (config_HubServerAddress cfg) (ClusterID options))
    as [cs|]; [|cbn; repeat split; lia].
  destruct (WaitUntilPodRunning w (WithTimeout (now w) ctx timeout)
              (Namespace options) selector cs) as [[[ | | ] t]|];
    [| cbn; repeat split; lia | cbn; repeat split; lia | cbn; repeat split; lia].
  destruct (GetKubeClient w (config_HubServerAddress cfg) (ClusterID options))
    as [kc|]; [|cbn; repeat split; lia].
  destruct (ListPods w (Namespace options) selector kc) as [[|pod0 pods]|];
    [cbn; repeat split; lia | | cbn; repeat split; lia].
  cbn [fst].
  destruct (containerLogStream_balance ctx (clock w) (GetContainerLogStream w)
              (Namespace options) (pod_Name pod0) (SubTask options) true
              (TailLines options) cs) as [Ho Hc].
  rewrite !opens_app, !closes_app, Ho, Hc. cbn [opens closes plus].
  pose proof (fun H : forall ns pod c f tail cs0,
                  GetContainerLogStream w ns pod c f tail cs0 <> Err =>
                H (Namespace options) (pod_Name pod0) (SubTask options) true
                  (TailLines options) cs) as Hok.
  destruct (GetContainerLogStream w (Namespace options) (pod_Name pod0)
              (SubTask options) true (TailLines options) cs);
    repeat split; try lia.
  intro H. exfalso. exact (Hok H eq_refl).
Qed.

(** X11: in every session started through one of the three entry points,
    at most one log stream is asked for, no more streams are closed than
    were asked for, and when the opening of a stream never fails, every
    stream asked for is closed. *)
Theorem entry_points_release_streams
  (cfg : Settings) (w : World) (ctx : Context) :
  forall entry,
    entry = TaskContainerLogStream cfg w ctx
    \/ entry = WorkflowTaskV4ContainerLogStream cfg w ctx
    \/ entry = TestJobContainerLogStream cfg w ctx ->
    forall options,
      opens (trace (entry options)) <= 1
      /\ closes (trace (entry options)) <= opens (trace (entry options))
      /\ ((forall ns pod c f tail cs,
              GetContainerLogStream w ns pod c f tail cs <> Err) ->
          closes (trace (entry options)) = opens (trace (entry options))).
Proof.
  intros entry He [o|].
  2: { destruct He as [He|[He|He]]; subst entry; cbn; repeat split; lia. }
  destruct He as [He|[He|He]]; subst entry.
  - unfold TaskContainerLogStream.
    destruct (metadataOnly_facts _ (resolve_metadataOnly cfg w o))
      as (Ho & Hc & _).
    destruct (TaskContainerLogStream_resolve cfg w o) as [[o1 tr] returned].
    cbn [fst snd] in Ho, Hc.
    destruct returned.
    + cbn [trace app opens closes]. rewrite Ho, Hc. repeat split; lia.
    + match goal with
      | |- context [waitAndGetLog cfg w ctx ?sel ?o2] =>
          pose proof (waitAndGetLog_balance cfg w ctx sel o2) as Hw;
          destruct (waitAndGetLog cfg w ctx sel o2) as [tw cpl]
      end.
      cbn [trace fst app opens closes] in *.
      rewrite opens_app, closes_app, Ho, Hc. exact Hw.
  - unfold WorkflowTaskV4ContainerLogStream.
    destruct (WorkflowTaskFind w (PipelineName o) (TaskID o)) as [task|];
      [|cbn; repeat split; lia].
    destruct (metadataOnly_facts _
                (scanStages_metadataOnly cfg (task_Stages task) o))
      as (Ho & Hc & _).
    destruct (scanStages cfg (task_Stages task) o) as [[o1 tr] returned].
    cbn [fst snd] in Ho, Hc.
    destruct returned.
    + cbn [trace app opens closes]. rewrite Ho, Hc. repeat split; lia.
    + pose proof (waitAndGetLog_balance cfg w ctx
                    (getWorkflowSelector cfg o1) o1) as Hw.
      destruct (waitAndGetLog cfg w ctx (getWorkflowSelector cfg o1) o1)
        as [tw cpl].
      cbn [trace fst app opens closes] in *.
      rewrite opens_app, closes_app, Ho, Hc. exact Hw.
  - unfold TestJobContainerLogStream.
    match goal with
    | |- context [waitAndGetLog cfg w ctx ?sel ?o2] =>
        pose proof (waitAndGetLog_balance cfg w ctx sel o2) as Hw;
        destruct (waitAndGetLog cfg w ctx sel o2) as [tw cpl]
    end.
    cbn [trace fst app opens closes] in *. exact Hw.
Qed.

Lemma entry_points_release_streams_witness :
  opens (trace (WorkflowTaskV4ContainerLogStream sample_settings
                  (sample_world sample_stream (Some 5%Z)) background
                  (Some sample_options))) = 1
  /\ closes (trace (WorkflowTaskV4ContainerLogStream sample_settings
                      (sample_world sample_stream (Some 5%Z)) background
                      (Some sample_options)))
     = opens (trace (WorkflowTaskV4ContainerLogStream sample_settings
                       (sample_world sample_stream (Some 5%Z)) background
                       (Some sample_options)))
  /\ closes (trace (TaskContainerLogStream sample_settings
                      (sample_world sample_stream (Some 5%Z)) cancelled_at_1
                      (Some sample_options)))
     <= opens (trace (TaskContainerLogStream sample_settings
                        (sample_world sample_stream (Some 5%Z)) cancelled_at_1
                        (Some sample_options))).
Proof.
  split; [reflexivity|]. split.
  - apply (entry_points_release_streams sample_settings
             (sample_world sample_stream (Some 5%Z)) background
             _ (or_intror (or_introl eq_refl)) (Some sample_options)).
    intros ns pod c f tail cs. discriminate.
  - apply (entry_points_release_streams sample_settings
             (sample_world sample_stream (Some 5%Z)) cancelled_at_1
             _ (or_introl eq_refl) (Some sample_options)).
Defined.

(** ** What the entry points write *)

Lemma resolve_core (cfg : Settings) (w : World) (o : GetContainerOptions) :
  requestCore (fst (fst (TaskContainerLogStream_resolve cfg w o)))
  = requestCore o
  /\ SubTask (fst (fst (TaskContainerLogStream_resolve cfg w o))) = SubTask o
  /\ JobName (fst (fst (TaskContainerLogStream_resolve cfg w o))) = JobName o
  /\ JobType (fst (fst (TaskContainerLogStream_resolve cfg w o))) = JobType o.
Proof.
  unfold TaskContainerLogStream_resolve. split_cases; repeat split.
Qed.

Lemma scanJobs_core (cfg : Settings) (jobs : list JobTask) :
  forall o,
    requestCore (fst (fst (scanJobs cfg jobs o))) = requestCore o
    /\ SubTask (fst (fst (scanJobs cfg jobs o))) = SubTask o
    /\ PipelineName (fst (fst (scanJobs cfg jobs o))) = PipelineName o
    /\ TaskID (fst (fst (scanJobs cfg jobs o))) = TaskID o.
Proof.
  induction jobs as [|job jobs IH]; intro o; [repeat split|].
  cbn [scanJobs].
  destruct (negb (String.eqb (job_Name job) (SubTask o))); [apply IH|].
  destruct (jobClusterID cfg job) as [[c|]|]; cbn [fst]; try (repeat split).
  all: split_cases; reflexivity.
Qed.

Lemma scanStages_core (cfg : Settings) (stages : list StageTask) :
  forall o,
    requestCore (fst (fst (scanStages cfg stages o))) = requestCore o
    /\ SubTask (fst (fst (scanStages cfg stages o))) = SubTask o
    /\ PipelineName (fst (fst (scanStages cfg stages o))) = PipelineName o
    /\ TaskID (fst (fst (scanStages cfg stages o))) = TaskID o.
Proof.
  induction stages as [|stage stages IH]; intro o; [repeat split|].
  cbn [scanStages].
  pose proof (scanJobs_core cfg (stage_Jobs stage) o) as Hj.
  destruct (scanJobs cfg (stage_Jobs stage) o) as [[o1 tr] returned].
  cbn [fst] in Hj.
  destruct returned; [exact Hj|].
  specialize (IH o1).
  destruct (scanStages cfg stages o1) as [[o2 tr'] returned'].
  cbn [fst] in *.
  destruct Hj as (H1 & H2 & H3 & H4). destruct IH as (I1 & I2 & I3 & I4).
  repeat split; congruence.
Qed.

(** X12: the entry points write through [options] a few fields only.
    None of them changes the tail length, the pipeline type, the service
    name and module, the test name, the environment and the product.
    [TaskContainerLogStream] also keeps job name and job type, and keeps
    the sub-task unless it is empty, when it may become the build task;
    [WorkflowTaskV4ContainerLogStream] also keeps sub-task, pipeline name
    and task id; [TestJobContainerLogStream] also keeps pipeline name,
    task id, job name and job type, and sets the sub-task to the testing
    task. *)
Theorem entry_points_frame
  (cfg : Settings) (w : World) (ctx : Context) (o : GetContainerOptions) :
  (forall o',
      final (TaskContainerLogStream cfg w ctx (Some o)) = Some o' ->
      requestCore o' = requestCore o
      /\ JobName o' = JobName o /\ JobType o' = JobType o
      /\ (SubTask o' = SubTask o
          \/ (SubTask o = ""%string /\ SubTask o' = config_TaskBuild cfg)))
  /\ (forall o',
        final (WorkflowTaskV4ContainerLogStream cfg w ctx (Some o)) = Some o' ->
        requestCore o' = requestCore o
        /\ SubTask o' = SubTask o
        /\ PipelineName o' = PipelineName o /\ TaskID o' = TaskID o)
  /\ (forall o',
        final (TestJobContainerLogStream cfg w ctx (Some o)) = Some o' ->
        requestCore o' = requestCore o
        /\ SubTask o' = config_TaskTestingV2 cfg
        /\ PipelineName o' = PipelineName o /\ TaskID o' = TaskID o
        /\ JobName o' = JobName o /\ JobType o' = JobType o).
Proof.
  split; [|split].
  - intros o' Hfinal. unfold TaskContainerLogStream in Hfinal.
    destruct (resolve_core cfg w o) as (Hcore & Hsub & Hname & Htype).
    destruct (TaskContainerLogStream_resolve cfg w o) as [[o1 tr] returned].
    cbn [fst] in *.
    destruct returned.
    + cbn [final] in Hfinal. inversion Hfinal; subst. auto.
    + match type of Hfinal with
      | context [waitAndGetLog cfg w ctx ?sel ?o2] =>
          destruct (waitAndGetLog cfg w ctx sel o2) as [tw cpl]
      end.
      cbn [final] in Hfinal. inversion Hfinal; subst. clear Hfinal.
      destruct (String.eqb (SubTask o1) "") eqn:E.
      * apply String.eqb_eq in E. cbn. repeat split; try assumption.
        right. split; [congruence | reflexivity].
      * auto.
  - intros o' Hfinal. unfold WorkflowTaskV4ContainerLogStream in Hfinal.
    destruct (WorkflowTaskFind w (PipelineName o) (TaskID o)) as [task|].
    2: { cbn [final] in Hfinal. inversion Hfinal; subst. repeat split. }
    pose proof (scanStages_core cfg (task_Stages task) o) as Hcore.
    destruct (scanStages cfg (task_Stages task) o) as [[o1 tr] returned].
    cbn [fst] in Hcore.
    destruct returned.
    + cbn [final] in Hfinal. inversion Hfinal; subst. exact Hcore.
    + destruct (waitAndGetLog cfg w ctx (getWorkflowSelector cfg o1) o1)
        as [tw cpl].
      cbn [final] in Hfinal. inversion Hfinal; subst. exact Hcore.
  - intros o' Hfinal. unfold TestJobContainerLogStream in Hfinal.
    match type of Hfinal with
    | context [waitAndGetLog cfg w ctx ?sel ?o2] =>
        destruct (waitAndGetLog cfg w ctx sel o2) as [tw cpl]
    end.
    cbn [final] in Hfinal. inversion Hfinal; subst. clear Hfinal.
    split_cases; repeat split.
Qed.

Lemma entry_points_frame_witness :
  exists o',
    final (TestJobContainerLogStream sample_settings
             (sample_world sample_stream None) background
             (Some sample_options)) = Some o'
    /\ SubTask o' = "testingv2"%string
    /\ PipelineName o' = "wf1"%string.
Proof.
  eexists. split; [reflexivity|].
  destruct (proj2 (proj2 (entry_points_frame sample_settings
                            (sample_world sample_stream None) background
                            sample_options)) _ eq_refl)
    as (_ & Hs & Hp & _).
  split; [exact Hs | exact Hp].
Defined.

(** X13: the container whose log an entry point reads is, for
    [TaskContainerLogStream], the sub-task of the request, or the build
    task when the request names none; for
    [WorkflowTaskV4ContainerLogStream], the sub-task of the request; for
    [TestJobContainerLogStream], the testing task, whatever sub-task the
    request names. *)
Theorem entry_points_container
  (cfg : Settings) (w : World) (ctx : Context) (o : GetContainerOptions) :
  (forall ns pod c f tail,
      In (EvGetContainerLogStream ns pod c f tail)
        (trace (TaskContainerLogStream cfg w ctx (Some o))) ->
      c = if String.eqb (SubTask o) "" then config_TaskBuild cfg
          else SubTask o)
  /\ (forall ns pod c f tail,
        In (EvGetContainerLogStream ns pod c f tail)
          (trace (WorkflowTaskV4ContainerLogStream cfg w ctx (Some o))) ->
        c = SubTask o)
  /\ (forall ns pod c f tail,
        In (EvGetContainerLogStream ns pod c f tail)
          (trace (TestJobContainerLogStream cfg w ctx (Some o))) ->
        c = config_TaskTestingV2 cfg).
Proof.
  split; [|split]; intros ns pod c f tail H.
  - unfold TaskContainerLogStream in H.
    destruct (resolve_core cfg w o) as (_ & Hsub & _).
    destruct (metadataOnly_facts _ (resolve_metadataOnly cfg w o))
      as (Ho & _).
    destruct (TaskContainerLogStream_resolve cfg w o) as [[o1 tr] returned].
    cbn [fst snd] in *.
    destruct returned.
    + cbn [trace app] in H. destruct H as [H|H]; [discriminate|].
      exfalso. exact (opens_zero_not_in tr Ho _ _ _ _ _ H).
    + match type of H with
      | context [waitAndGetLog cfg w ctx ?sel ?o2] =>
          pose proof (waitAndGetLog_open_arguments cfg w ctx sel o2
                        ns pod c f tail) as Hw;
          destruct (waitAndGetLog cfg w ctx sel o2) as [tw cpl]
      end.
      cbn [trace app fst] in H, Hw.
      destruct H as [H|H]; [discriminate|].
      apply in_app_or in H. destruct H as [H|H];
        [exfalso; exact (opens_zero_not_in tr Ho _ _ _ _ _ H)|].
      destruct (Hw H) as (_ & Hc & _). rewrite Hc, <- Hsub.
      destruct (String.eqb (SubTask o1) ""); reflexivity.
  - unfold WorkflowTaskV4ContainerLogStream in H.
    destruct (WorkflowTaskFind w (PipelineName o) (TaskID o)) as [task|].
    2: { cbn in H. intuition discriminate. }
    destruct (scanStages_core cfg (task_Stages task) o) as (_ & Hsub & _).
    destruct (metadataOnly_facts _
                (scanStages_metadataOnly cfg (task_Stages task) o))
      as (Ho & _).
    destruct (scanStages cfg (task_Stages task) o) as [[o1 tr] returned].
    cbn [fst snd] in *.
    destruct returned.
    + cbn [trace app] in H. destruct H as [H|[H|H]]; try discriminate.
      exfalso. exact (opens_zero_not_in tr Ho _ _ _ _ _ H).
    + pose proof (waitAndGetLog_open_arguments cfg w ctx
                    (getWorkflowSelector cfg o1) o1 ns pod c f tail) as Hw.
      destruct (waitAndGetLog cfg w ctx (getWorkflowSelector cfg o1) o1)
        as [tw cpl].
      cbn [trace app fst] in H, Hw.
      destruct H as [H|[H|H]]; try discriminate.
      apply in_app_or in H. destruct H as [H|H];
        [exfalso; exact (opens_zero_not_in tr Ho _ _ _ _ _ H)|].
      destruct (Hw H) as (_ & Hc & _). congruence.
  - unfold TestJobContainerLogStream in H.
    match type of H with
    | context [waitAndGetLog cfg w ctx ?sel ?o2] =>
        pose proof (waitAndGetLog_open_arguments cfg w ctx sel o2
                      ns pod c f tail) as Hw;
        destruct (waitAndGetLog cfg w ctx sel o2) as [tw cpl]
    end.
    cbn [trace app fst] in H, Hw.
    destruct H as [H|H]; [discriminate|].
    destruct (Hw H) as (_ & Hc & _). rewrite Hc.
    split_cases; reflexivity.
Qed.

Lemma entry_points_container_witness :
  In (EvGetContainerLogStream "zadig" "pod-0" "testingv2" true 100)
    (trace (TestJobContainerLogStream sample_settings
              (sample_world sample_stream (Some 5%Z)) background
              (Some sample_options)))
  /\ "testingv2"%string = config_TaskTestingV2 sample_settings.
Proof.
  assert (Hin : In (EvGetContainerLogStream "zadig" "pod-0" "testingv2" true 100)
    (trace (TestJobContainerLogStream sample_settings
              (sample_world sample_stream (Some 5%Z)) background
              (Some sample_options)))).
  { vm_compute. do 8 right. left. reflexivity. }
  split; [exact Hin|].
  exact (proj2 (proj2 (entry_points_container sample_settings
                         (sample_world sample_stream (Some 5%Z)) background
                         sample_options)) _ _ _ _ _ Hin).
Defined.

(** ** Lookups and cluster calls *)

Lemma lookups_app (a b : list event) : lookups (a ++ b) = lookups a + lookups b.
Proof.
  induction a as [|e a IH]; [reflexivity|].
  destruct e; cbn [app lookups]; rewrite IH; reflexivity.
Qed.

Lemma streamLoop_no_lookup (ctx : Context) (clock : nat -> Z) :
  forall fuel k buf, lookups (fst (streamLoop fuel ctx clock k buf)) = 0.
Proof.
  induction fuel as [|fuel IH]; intros k buf; [reflexivity|].
  cbn [streamLoop].
  destruct (Done ctx (clock k)); [reflexivity|].
  destruct (ReadString buf newline) as [[line err] buf'].
  destruct err as [[|]|].
  - cbn [fst app lookups].
    destruct (0 <? String.length (strings.TrimSpace line))%nat; reflexivity.
  - reflexivity.
  - specialize (IH (k + 3) buf').
    destruct (streamLoop fuel ctx clock (k + 3) buf') as [rest exit].
    cbn [fst app lookups] in *. exact IH.
Qed.

(** The pod search consults the cluster, and not the metadata store. *)
Lemma waitAndGetLog_calls
  (cfg : Settings) (w : World) (ctx : Context) (selector : Selector)
  (options : GetContainerOptions) :
  1 <= clusterCalls (fst (waitAndGetLog cfg w ctx selector options))
  /\ lookups (fst (waitAndGetLog cfg w ctx selector options)) = 0.
Proof.
  unfold waitAndGetLog.
  destruct (GetClientset w (config_HubServerAddress cfg) (ClusterID options))
    as [cs|]; [|cbn; split; [lia | reflexivity]].
  destruct (WaitUntilPodRunning w (WithTimeout (now w) ctx timeout)
              (Namespace options) selector cs) as [[[ | | ] t]|];
    [| cbn; split; [lia | reflexivity] | cbn; split; [lia | reflexivity] | cbn; split; [lia | reflexivity]].
  destruct (GetKubeClient w (config_HubServerAddress cfg) (ClusterID options))
    as [kc|]; [|cbn; split; [lia | reflexivity]].
  destruct (ListPods w (Namespace options) selector kc) as [[|pod0 pods]|];
    [cbn; split; [lia | reflexivity] | | cbn; split; [lia | reflexivity]].
  cbn [fst]. rewrite !clusterCalls_app, !lookups_app.
  split; [cbn; lia|].
  cbn [lookups plus]. unfold containerLogStream.
  destruct (GetContainerLogStream w (Namespace options) (pod_Name pod0)
              (SubTask options) true (TailLines options) cs) as [out|];
    [|reflexivity].
  pose proof (streamLoop_no_lookup ctx (clock w)
                (S (String.length (content out))) 0 (NewReader out)) as Hl.
  destruct (streamLoop (S (String.length (content out))) ctx (clock w) 0
              (NewReader out)) as [body exit].
  cbn [fst app lookups] in *. rewrite lookups_app, Hl.
  destruct (closeFails out); reflexivity.
Qed.

Lemma nonempty_self (s : string) :
  (if nonempty s then s else ""%string) = s.
Proof. destruct s; reflexivity. Qed.

(** X14: for a request with pipeline and product names, when the build
    is found neither for the product nor without it,
    [TaskContainerLogStream] returns after the two lookups, the second
    one for the same module and service name and no product; it leaves
    the request as it was, makes no call to the cluster and sends
    nothing. *)
Theorem TaskContainerLogStream_build_not_found
  (cfg : Settings) (w : World) (ctx : Context) (o : GetContainerOptions) :
  PipelineName o <> ""%string ->
  ProductName o <> ""%string ->
  (forall opt, BuildFind w opt = Err) ->
  final (TaskContainerLogStream cfg w ctx (Some o)) = Some o
  /\ how (TaskContainerLogStream cfg w ctx (Some o)) = Returned
  /\ clusterCalls (trace (TaskContainerLogStream cfg w ctx (Some o))) = 0
  /\ sends (trace (TaskContainerLogStream cfg w ctx (Some o))) = []
  /\ exists opt1 opt2,
       trace (TaskContainerLogStream cfg w ctx (Some o))
       = [EvLog Debug "Start to get task container log.";
          EvBuildFind opt1; EvBuildFind opt2;
          EvLog Error "Failed to query build for service %s: %s"]
       /\ bfo_ProductName opt1 = ProductName o
       /\ bfo_ProductName opt2 = ""%string
       /\ bfo_Targets opt1
          = [snd (parseServiceName (ServiceName o) (ServiceModule o))]
       /\ bfo_ServiceName opt1
          = fst (parseServiceName (ServiceName o) (ServiceModule o))
       /\ bfo_Targets opt2 = bfo_Targets opt1
       /\ bfo_ServiceName opt2 = bfo_ServiceName opt1.
Proof.
  intros Hn Hp Hfind.
  unfold TaskContainerLogStream, TaskContainerLogStream_resolve.
  apply String.eqb_neq in Hn.
  rewrite Hn, (nonempty_true _ Hp), andb_false_r.
  destruct (parseServiceName (ServiceName o) (ServiceModule o))
    as [serviceName serviceModule].
  rewrite !Hfind. cbn [final how trace app clusterCalls sends fst snd].
  repeat (split; [reflexivity|]).
  eexists _, _. split; [reflexivity|].
  cbn [bfo_ProductName bfo_Targets bfo_ServiceName].
  rewrite nonempty_self. repeat split.
Qed.

Lemma TaskContainerLogStream_build_not_found_witness :
  clusterCalls
    (trace (TaskContainerLogStream sample_settings
              bare_world
              background (Some sample_options))) = 0.
Proof.
  apply TaskContainerLogStream_build_not_found;
    [discriminate | discriminate | reflexivity].
Defined.

(** X15: for a request with pipeline and product names, when the build is
    not found for the product and is found without it, the cluster id of
    that build, if not empty, is adopted with the namespace the rule
    gives for it, after exactly two lookups, and the pod search goes on;
    a build whose cluster id is empty leaves namespace and cluster id of
    the request as they were. *)
Theorem TaskContainerLogStream_shared_service
  (cfg : Settings) (w : World) (ctx : Context) (o : GetContainerOptions)
  (b : Build) (pre : PreBuild) :
  PipelineName o <> ""%string ->
  ProductName o <> ""%string ->
  (forall opt, bfo_ProductName opt <> ""%string -> BuildFind w opt = Err) ->
  (forall opt, bfo_ProductName opt = ""%string ->
               BuildFind w opt = Ok (Some b)) ->
  build_PreBuild b = Some pre ->
  exists o',
    final (TaskContainerLogStream cfg w ctx (Some o)) = Some o'
    /\ lookups (trace (TaskContainerLogStream cfg w ctx (Some o))) = 2
    /\ 1 <= clusterCalls (trace (TaskContainerLogStream cfg w ctx (Some o)))
    /\ (PreBuild_ClusterID pre <> ""%string ->
        ClusterID o' = PreBuild_ClusterID pre
        /\ Namespace o' = namespace_of_cluster cfg (PreBuild_ClusterID pre))
    /\ (PreBuild_ClusterID pre = ""%string ->
        ClusterID o' = ClusterID o /\ Namespace o' = Namespace o).
Proof.
  intros Hn Hp Hmiss Hfind Hpre.
  unfold TaskContainerLogStream, TaskContainerLogStream_resolve.
  apply String.eqb_neq in Hn.
  rewrite Hn, (nonempty_true _ Hp), andb_false_r.
  destruct (parseServiceName (ServiceName o) (ServiceModule o))
    as [serviceName serviceModule].
  rewrite Hmiss by exact Hp. rewrite Hfind by reflexivity. rewrite Hpre.
  destruct (nonempty (PreBuild_ClusterID pre)) eqn:Hc.
  - match goal with
    | |- context [waitAndGetLog cfg w ctx ?sel ?o2] =>
        destruct (waitAndGetLog_calls cfg w ctx sel o2) as [Hcalls Hlook];
        destruct (waitAndGetLog cfg w ctx sel o2) as [tw cpl]
    end.
    cbn [final trace fst] in *. eexists. split; [reflexivity|].
    split; [cbn [app lookups]; rewrite Hlook; reflexivity|].
    split; [cbn [app clusterCalls]; exact Hcalls|].
    split.
    + intros _. unfold namespace_of_cluster.
      destruct (String.eqb (PreBuild_ClusterID pre)
                  (setting_LocalClusterID cfg));
        match goal with
        | |- context [String.eqb ?a ""] => destruct (String.eqb a "")
        end; split; reflexivity.
    + intro He. rewrite He in Hc. discriminate.
  - match goal with
    | |- context [waitAndGetLog cfg w ctx ?sel ?o2] =>
        destruct (waitAndGetLog_calls cfg w ctx sel o2) as [Hcalls Hlook];
        destruct (waitAndGetLog cfg w ctx sel o2) as [tw cpl]
    end.
    cbn [final trace fst] in *. eexists. split; [reflexivity|].
    split; [cbn [app lookups]; rewrite Hlook; reflexivity|].
    split; [cbn [app clusterCalls]; exact Hcalls|].
    split.
    + intro He. rewrite (nonempty_true _ He) in Hc. discriminate.
    + intros _. destruct (String.eqb (SubTask o) ""); split; reflexivity.
Qed.

Lemma TaskContainerLogStream_shared_service_witness :
  exists o',
    final (TaskContainerLogStream sample_settings
             shared_build_world
             background (Some sample_options)) = Some o'
    /\ ClusterID o' = "c-42"%string
    /\ Namespace o' = "koderover-agent"%string.
Proof.
  destruct (TaskContainerLogStream_shared_service sample_settings
              shared_build_world
              background sample_options
              {| build_PreBuild := Some {| PreBuild_ClusterID := "c-42" |} |}
              {| PreBuild_ClusterID := "c-42" |})
    as (o' & Hf & _ & _ & Hadopt & _).
  - discriminate.
  - discriminate.
  - intros opt H. cbn. apply String.eqb_neq in H. now rewrite H.
  - intros opt H. cbn. now rewrite H.
  - reflexivity.
  - exists o'. split; [exact Hf|].
    exact (Hadopt ltac:(discriminate)).
Defined.

(** X16: for a request from an environment (environment and product
    named, no pipeline name), [TaskContainerLogStream] names the pipeline
    ["<service>-<env>-job"], looks the task of that name up once, adopts
    its id when it is found and keeps the id of the request when it is
    not, looks no build up, leaves namespace and cluster id as they were,
    and goes on to the pod search in both cases. *)
Theorem TaskContainerLogStream_environment_request
  (cfg : Settings) (w : World) (ctx : Context) (o : GetContainerOptions) :
  EnvName o <> ""%string ->
  ProductName o <> ""%string ->
  PipelineName o = ""%string ->
  exists o',
    final (TaskContainerLogStream cfg w ctx (Some o)) = Some o'
    /\ PipelineName o'
       = (fst (parseServiceName (ServiceName o) (ServiceModule o))
            ++ "-" ++ EnvName o ++ "-job")%string
    /\ TaskID o'
       = match FindTask w (PipelineName o') (config_ServiceType cfg) with
         | Ok taskObj => task_TaskID taskObj
         | Err => TaskID o
         end
    /\ Namespace o' = Namespace o /\ ClusterID o' = ClusterID o
    /\ lookups (trace (TaskContainerLogStream cfg w ctx (Some o))) = 1
    /\ In (EvFindTask (PipelineName o') (config_ServiceType cfg))
         (trace (TaskContainerLogStream cfg w ctx (Some o)))
    /\ 1 <= clusterCalls (trace (TaskContainerLogStream cfg w ctx (Some o))).
Proof.
  intros He Hp Hn.
  unfold TaskContainerLogStream, TaskContainerLogStream_resolve.
  rewrite (nonempty_true _ He), (nonempty_true _ Hp), Hn.
  cbn [andb String.eqb].
  destruct (parseServiceName (ServiceName o) (ServiceModule o))
    as [serviceName serviceModule].
  cbn [fst PipelineName set_PipelineName].
  destruct (FindTask w (serviceName ++ "-" ++ EnvName o ++ "-" ++ "job")
              (config_ServiceType cfg)) as [taskObj|] eqn:Hfind;
    match goal with
    | |- context [waitAndGetLog cfg w ctx ?sel ?o2] =>
        destruct (waitAndGetLog_calls cfg w ctx sel o2) as [Hcalls Hlook];
        destruct (waitAndGetLog cfg w ctx sel o2) as [tw cpl]
    end;
    cbn [final trace fst] in *; eexists; (split; [reflexivity|]);
    cbn [SubTask set_TaskID set_PipelineName];
    destruct (String.eqb (SubTask o) "");
    cbn [PipelineName TaskID Namespace ClusterID set_SubTask set_TaskID
           set_PipelineName];
    change (serviceName ++ "-" ++ EnvName o ++ "-job")%string
      with (serviceName ++ "-" ++ EnvName o ++ "-" ++ "job")%string;
    rewrite Hfind;
    repeat (split; [reflexivity|]);
    (split; [cbn [app lookups]; rewrite Hlook; reflexivity|]);
    (split; [cbn [app]; right; left; reflexivity|]);
    cbn [app clusterCalls]; exact Hcalls.
Qed.

Lemma TaskContainerLogStream_environment_request_witness :
  exists o',
    final (TaskContainerLogStream sample_settings
             (sample_world sample_stream None) background
             (Some environment_request)) = Some o'
    /\ PipelineName o' = "api-dev-job"%string
    /\ TaskID o' = 7%Z.
Proof.
  destruct (TaskContainerLogStream_environment_request sample_settings
              (sample_world sample_stream None) background
              environment_request
              ltac:(discriminate) ltac:(discriminate) eq_refl)
    as (o' & Hf & Hp & Ht & _).
  exists o'. split; [exact Hf|]. split; [exact Hp|].
  rewrite Ht. reflexivity.
Defined.

(** X17: [TestJobContainerLogStream] looks the test up once, under the
    name [getTestName] derives from the service name and with no product,
    and goes on to the pod search whatever the lookup gives; when the
    test is not found, or declares no cluster id, namespace and cluster
    id of the request stay as they were. *)
Theorem TestJobContainerLogStream_lookup
  (cfg : Settings) (w : World) (ctx : Context) (o : GetContainerOptions) :
  (exists rest,
      trace (TestJobContainerLogStream cfg w ctx (Some o))
      = EvTestingFind (getTestName (ServiceName o)) "" :: rest
      /\ lookups rest = 0 /\ 1 <= clusterCalls rest)
  /\ ((TestingFind w (getTestName (ServiceName o)) "" = None
       \/ (exists t,
              TestingFind w (getTestName (ServiceName o)) "" = Some t
              /\ (testing_PreTest t = None
                  \/ exists pre,
                       testing_PreTest t = Some pre
                       /\ PreTest_ClusterID pre = ""%string))) ->
      exists o',
        final (TestJobContainerLogStream cfg w ctx (Some o)) = Some o'
        /\ Namespace o' = Namespace o /\ ClusterID o' = ClusterID o).
Proof.
  unfold TestJobContainerLogStream. cbn [ServiceName set_SubTask].
  split.
  - match goal with
    | |- context [waitAndGetLog cfg w ctx ?sel ?o2] =>
        destruct (waitAndGetLog_calls cfg w ctx sel o2) as [Hcalls Hlook];
        destruct (waitAndGetLog cfg w ctx sel o2) as [tw cpl]
    end.
    cbn [trace fst app] in *. exists tw. repeat split; assumption.
  - intros [Hnone | (t & Hsome & [Hpre | (pre & Hpre & Hc)])].
    + rewrite Hnone.
      match goal with
      | |- context [waitAndGetLog cfg w ctx ?sel ?o2] =>
          destruct (waitAndGetLog cfg w ctx sel o2) as [tw cpl]
      end.
      eexists. repeat split.
    + rewrite Hsome, Hpre.
      match goal with
      | |- context [waitAndGetLog cfg w ctx ?sel ?o2] =>
          destruct (waitAndGetLog cfg w ctx sel o2) as [tw cpl]
      end.
      eexists. repeat split.
    + rewrite Hsome, Hpre, Hc. cbn [nonempty String.eqb negb].
      match goal with
      | |- context [waitAndGetLog cfg w ctx ?sel ?o2] =>
          destruct (waitAndGetLog cfg w ctx sel o2) as [tw cpl]
      end.
      eexists. repeat split.
Qed.

Lemma TestJobContainerLogStream_lookup_witness :
  exists o',
    final (TestJobContainerLogStream sample_settings bare_world background
             (Some sample_options)) = Some o'
    /\ Namespace o' = ""%string /\ ClusterID o' = ""%string.
Proof.
  exact (proj2 (TestJobContainerLogStream_lookup sample_settings bare_world
                  background sample_options) (or_introl eq_refl)).
Defined.

(** ** Stages and jobs of a workflow task *)

(** Scanning two runs of stages: the second run starts from what the
    first one left, unless the function returned from inside the first. *)
Lemma scanStages_app (cfg : Settings) (a b : list StageTask) :
  forall o,
    scanStages cfg (a ++ b) o
    = let '(o1, tr1, returned1) := scanStages cfg a o in
      if returned1 then (o1, tr1, true)
      else
        let '(o2, tr2, returned2) := scanStages cfg b o1 in
        (o2, tr1 ++ tr2, returned2).
Proof.
  induction a as [|stage a IH]; intro o.
  - cbn [app scanStages]. destruct (scanStages cfg b o) as [[o2 tr2] r2].
    reflexivity.
  - cbn [app scanStages].
    destruct (scanJobs cfg (stage_Jobs stage) o) as [[o1 tr] returned].
    destruct returned; [reflexivity|].
    rewrite IH.
    destruct (scanStages cfg a o1) as [[o2 tr2] r2].
    destruct r2; [reflexivity|].
    destruct (scanStages cfg b o2) as [[o3 tr3] r3].
    now rewrite app_assoc.
Qed.

Lemma scanJobs_no_match (cfg : Settings) (o : GetContainerOptions)
  (jobs : list JobTask) :
  Forall (fun j => job_Name j <> SubTask o) jobs ->
  scanJobs cfg jobs o = (o, [], false).
Proof.
  intro H. rewrite <- (app_nil_r jobs).
  now rewrite (scanJobs_skip cfg o jobs [] H).
Qed.

Lemma scanStages_no_match (cfg : Settings) (o : GetContainerOptions)
  (stages : list StageTask) :
  Forall (noJobNamed (SubTask o)) stages ->
  scanStages cfg stages o = (o, [], false).
Proof.
  induction stages as [|stage stages IH]; intro H; [reflexivity|].
  inversion H as [|? ? Hs Hrest]; subst.
  cbn [scanStages]. rewrite (scanJobs_no_match cfg o _ Hs).
  now rewrite (IH Hrest).
Qed.

(** X18: [WorkflowTaskV4ContainerLogStream] gives up without any call to
    the cluster, and sends nothing, when the workflow task is not found,
    and when, the earlier stages being passed, the first job of a stage
    that the sub-task names has a job type that is not supported or a
    spec that does not decode; in the second case job name and job type
    of that job have been written to the request, and the later jobs and
    stages are not looked at. *)
Theorem WorkflowTaskV4ContainerLogStream_gives_up
  (cfg : Settings) (w : World) (ctx : Context) (o : GetContainerOptions) :
  (WorkflowTaskFind w (PipelineName o) (TaskID o) = Err ->
   final (WorkflowTaskV4ContainerLogStream cfg w ctx (Some o)) = Some o
   /\ clusterCalls
        (trace (WorkflowTaskV4ContainerLogStream cfg w ctx (Some o))) = 0
   /\ sends (trace (WorkflowTaskV4ContainerLogStream cfg w ctx (Some o))) = [])
  /\ (forall task before stage after pre job post,
        WorkflowTaskFind w (PipelineName o) (TaskID o) = Ok task ->
        task_Stages task = before ++ stage :: after ->
        snd (scanStages cfg before o) = false ->
        stage_Jobs stage = pre ++ job :: post ->
        Forall (fun j => job_Name j <> SubTask o) pre ->
        job_Name job = SubTask o ->
        jobClusterID cfg job = None \/ jobClusterID cfg job = Some Err ->
        clusterCalls
          (trace (WorkflowTaskV4ContainerLogStream cfg w ctx (Some o))) = 0
        /\ sends
             (trace (WorkflowTaskV4ContainerLogStream cfg w ctx (Some o))) = []
        /\ exists o',
             final (WorkflowTaskV4ContainerLogStream cfg w ctx (Some o))
             = Some o'
             /\ JobName o' = job_K8sJobName job
             /\ JobType o' = job_JobType job).
Proof.
  split.
  - intro Hfind. unfold WorkflowTaskV4ContainerLogStream. rewrite Hfind.
    repeat split.
  - intros task before stage after pre job post Hfind Hstages Hbefore Hjobs
      Hpre Hname Hjob.
    unfold WorkflowTaskV4ContainerLogStream. rewrite Hfind, Hstages.
    rewrite scanStages_app.
    destruct (scanStages_core cfg before o) as (_ & Hsub & _).
    destruct (metadataOnly_facts _ (scanStages_metadataOnly cfg before o))
      as (_ & _ & Hs & Hc).
    destruct (scanStages cfg before o) as [[o1 tr1] r1].
    cbn [fst snd] in *. subst r1.
    cbn [scanStages]. rewrite Hjobs.
    rewrite <- Hsub in Hpre, Hname.
    rewrite (scanJobs_skip cfg o1 pre (job :: post) Hpre).
    cbn [scanJobs]. rewrite Hname, String.eqb_refl. cbn [negb].
    destruct Hjob as [Hjob|Hjob]; rewrite Hjob;
      cbn [final trace app clusterCalls sends];
      rewrite clusterCalls_app, sends_app, Hs, Hc;
      (split; [reflexivity|]); (split; [reflexivity|]);
      eexists; repeat split.
Qed.

Lemma WorkflowTaskV4ContainerLogStream_gives_up_witness :
  clusterCalls
    (trace (WorkflowTaskV4ContainerLogStream sample_settings bare_world
              background (Some sample_options))) = 0.
Proof.
  exact (proj1 (proj2 (proj1 (WorkflowTaskV4ContainerLogStream_gives_up
                                sample_settings bare_world background
                                sample_options) eq_refl))).
Defined.

(** X19: when no job of the workflow task is named by the sub-task,
    [WorkflowTaskV4ContainerLogStream] leaves the request as it was and
    searches the pods with the selector of the request's own job type and
    job name. *)
Theorem WorkflowTaskV4ContainerLogStream_no_job
  (cfg : Settings) (w : World) (ctx : Context) (o : GetContainerOptions)
  (task : WorkflowTask) :
  WorkflowTaskFind w (PipelineName o) (TaskID o) = Ok task ->
  Forall (noJobNamed (SubTask o)) (task_Stages task) ->
  final (WorkflowTaskV4ContainerLogStream cfg w ctx (Some o)) = Some o
  /\ trace (WorkflowTaskV4ContainerLogStream cfg w ctx (Some o))
     = [EvLog Debug "Start to get task container log.";
        EvWorkflowTaskFind (PipelineName o) (TaskID o)]
         ++ fst (waitAndGetLog cfg w ctx (getWorkflowSelector cfg o) o).
Proof.
  intros Hfind Hnone.
  unfold WorkflowTaskV4ContainerLogStream.
  rewrite Hfind, (scanStages_no_match cfg o _ Hnone).
  destruct (waitAndGetLog cfg w ctx (getWorkflowSelector cfg o) o) as [tw cpl].
  split; reflexivity.
Qed.

Lemma WorkflowTaskV4ContainerLogStream_no_job_witness :
  final (WorkflowTaskV4ContainerLogStream sample_settings
           (sample_world sample_stream None) background
           (Some (set_SubTask "deploy" sample_options)))
  = Some (set_SubTask "deploy" sample_options).
Proof.
  refine (proj1 (WorkflowTaskV4ContainerLogStream_no_job sample_settings
                   (sample_world sample_stream None) background
                   (set_SubTask "deploy" sample_options)
                   {| task_Stages := [ {| stage_Jobs := [sample_job] |} ] |}
                   eq_refl _)).
  repeat constructor. discriminate.
Defined.

(** X20: the [break] leaves the loop over the jobs of one stage only.  In
    a stage, the first job named by the sub-task is the one looked at;
    over the stages, the last stage that holds such a job decides: when
    its job decodes to a cluster id, the request ends with job name and
    job type of that job, its cluster id (the local one if empty) and the
    namespace the rule gives for it, whatever the earlier stages
    assigned. *)
Theorem WorkflowTaskV4ContainerLogStream_last_stage_decides
  (cfg : Settings) (w : World) (ctx : Context) (o : GetContainerOptions)
  (task : WorkflowTask) (before after : list StageTask) (stage : StageTask)
  (pre post : list JobTask) (job : JobTask) (c : string) :
  WorkflowTaskFind w (PipelineName o) (TaskID o) = Ok task ->
  task_Stages task = before ++ stage :: after ->
  snd (scanStages cfg before o) = false ->
  stage_Jobs stage = pre ++ job :: post ->
  Forall (fun j => job_Name j <> SubTask o) pre ->
  job_Name job = SubTask o ->
  jobClusterID cfg job = Some (Ok c) ->
  Forall (noJobNamed (SubTask o)) after ->
  exists o',
    final (WorkflowTaskV4ContainerLogStream cfg w ctx (Some o)) = Some o'
    /\ JobName o' = job_K8sJobName job
    /\ JobType o' = job_JobType job
    /\ ClusterID o'
       = (if String.eqb c "" then setting_LocalClusterID cfg else c)
    /\ Namespace o' = namespace_of_cluster cfg (ClusterID o').
Proof.
  intros Hfind Hstages Hbefore Hjobs Hpre Hname Hjob Hafter.
  unfold WorkflowTaskV4ContainerLogStream. rewrite Hfind, Hstages.
  rewrite scanStages_app.
  destruct (scanStages_core cfg before o) as (_ & Hsub & _).
  destruct (scanStages cfg before o) as [[o1 tr1] r1].
  cbn [fst snd] in *. subst r1.
  cbn [scanStages]. rewrite Hjobs.
  rewrite <- Hsub in Hpre, Hname, Hafter.
  rewrite (scanJobs_skip cfg o1 pre (job :: post) Hpre).
  cbn [scanJobs]. rewrite Hname, String.eqb_refl. cbn [negb]. rewrite Hjob.
  match goal with
  | |- context [scanStages cfg after ?o4] =>
      assert (Hsame : SubTask o4 = SubTask o1)
        by (split_cases; reflexivity);
      rewrite <- Hsame in Hafter;
      rewrite (scanStages_no_match cfg o4 after Hafter)
  end.
  match goal with
  | |- context [waitAndGetLog cfg w ctx ?sel ?o2] =>
      destruct (waitAndGetLog cfg w ctx sel o2) as [tw cpl]
  end.
  cbn [final]. eexists. split; [reflexivity|].
  cbn [ClusterID set_ClusterID set_JobType set_JobName].
  unfold namespace_of_cluster.
  destruct (String.eqb c "") eqn:E1; cbn [ClusterID set_ClusterID].
  - rewrite String.eqb_refl. cbn. rewrite String.eqb_refl. repeat split.
  - destruct (String.eqb c (setting_LocalClusterID cfg)) eqn:E2; cbn;
      rewrite ?E2; repeat split.
Qed.

Lemma WorkflowTaskV4ContainerLogStream_last_stage_decides_witness :
  exists o',
    final (WorkflowTaskV4ContainerLogStream sample_settings two_stage_world
             background (Some sample_options)) = Some o'
    /\ JobName o' = "wf1-7-build-job"%string
    /\ ClusterID o' = "0123456789abcdef12345678"%string
    /\ Namespace o' = "zadig"%string.
Proof.
  destruct (WorkflowTaskV4ContainerLogStream_last_stage_decides
              sample_settings two_stage_world background sample_options
              two_stage_task
              [ {| stage_Jobs := [earlier_job] |} ] []
              {| stage_Jobs := [sample_job; earlier_job] |}
              [] [earlier_job] sample_job ""%string
              eq_refl eq_refl eq_refl eq_refl (Forall_nil _) eq_refl eq_refl
              (Forall_nil _))
    as (o' & Hf & Hj & _ & Hc & Hn).
  exists o'. split; [exact Hf|]. split; [exact Hj|]. split; [exact Hc|].
  rewrite Hn, Hc. reflexivity.
Defined.

(** ** Cancellation truncates *)

Lemma streamLoop_prefix (ctx : Context) (clock : nat -> Z) :
  forall fuel k buf,
    String.length (pending buf) < fuel ->
    (exists n,
        sends (fst (streamLoop fuel ctx clock k buf))
        = firstn n
            (map strings.TrimSpace (fst (input_lines (pending buf)))
               ++ final_push (atEnd buf) (snd (input_lines (pending buf)))))
    /\ (snd (streamLoop fuel ctx clock k buf) <> Cancelled ->
        sends (fst (streamLoop fuel ctx clock k buf))
        = map strings.TrimSpace (fst (input_lines (pending buf)))
            ++ final_push (atEnd buf) (snd (input_lines (pending buf)))).
Proof.
  induction fuel as [|fuel IH]; intros k buf Hfuel; [lia|].
  cbn [streamLoop].
  destruct (Done ctx (clock k)).
  { split; [exists 0; reflexivity | intro H; now contradiction H]. }
  unfold ReadString.
  destruct (cutAfter newline (pending buf)) as [[line rest]|] eqn:Hcut.
  - pose proof (cutAfter_shorter _ _ _ _ Hcut) as Hlt.
    specialize (IH (k + 3) {| pending := rest; atEnd := atEnd buf |}).
    cbn [pending atEnd] in IH.
    destruct (IH ltac:(lia)) as [[n Hn] Hfull].
    destruct (streamLoop fuel ctx clock (k + 3)
                {| pending := rest; atEnd := atEnd buf |}) as [tr e].
    cbn [fst snd] in *.
    unfold input_lines at 1 2 3 4. rewrite (lines_from_cut _ _ _ _ Hcut).
    cbn [fst snd app sends map append].
    split.
    + exists (S n). cbn [firstn]. now rewrite Hn.
    + intro He. now rewrite (Hfull He).
  - unfold input_lines. rewrite (lines_from_no_cut _ _ Hcut).
    cbn [fst snd map app append].
    assert (Hs : sends
              (fst (let line := strings.TrimSpace (pending buf) in
                    match atEnd buf with
                    | EOF =>
                        ([EvSelect (clock k) false;
                          EvReadString (clock (k + 1)) (pending buf)
                            (Some EOF)]
                           ++ (if (0 <? String.length line)%nat
                               then [EvSend (clock (k + 2)) line] else [])
                           ++ [EvLog Info
                                 "No more input is available, container log stream stopped"],
                         Completed)
                    | ReadError =>
                        ([EvSelect (clock k) false;
                          EvReadString (clock (k + 1)) (pending buf)
                            (Some ReadError)]
                           ++ [EvLog Error
                                 "scan container log stream error: %v"],
                         Failed)
                    end))
              = final_push (atEnd buf) (pending buf)).
    { destruct (atEnd buf); cbn [fst app sends final_push]; [|reflexivity].
      destruct (0 <? String.length (strings.TrimSpace (pending buf)))%nat;
        reflexivity. }
    split.
    + exists (List.length (final_push (atEnd buf) (pending buf))).
      rewrite firstn_all.
      destruct (atEnd buf); exact Hs.
    + intros _. destruct (atEnd buf); exact Hs.
Qed.

(** X21: whatever the context does, the lines [containerLogStream] sends
    are an initial run of the lines it would send if the stream were read
    to its end: cancellation cuts the delivery short, and never skips,
    repeats or reorders a line; and when the function does not leave
    through the cancellation [return], the delivery is whole. *)
Theorem containerLogStream_cancel_truncates
  (ctx : Context) (clock : nat -> Z)
  (open : string -> string -> string -> bool -> Z -> ClientSet -> result LogStream)
  (namespace podName containerName : string) (follow : bool) (tailLines : Z)
  (client : ClientSet) (out : LogStream) :
  open namespace podName containerName follow tailLines client = Ok out ->
  let run :=
    containerLogStream ctx clock open namespace podName containerName follow
      tailLines client in
  (exists n, sends (fst run) = firstn n (fullDelivery out))
  /\ (snd run <> Cancelled -> sends (fst run) = fullDelivery out).
Proof.
  intros Hopen run. subst run. unfold containerLogStream, fullDelivery.
  rewrite Hopen.
  destruct (streamLoop_prefix ctx clock (S (String.length (content out))) 0
              (NewReader out) ltac:(simpl; lia)) as [[n Hn] Hfull].
  destruct (streamLoop (S (String.length (content out))) ctx clock 0
              (NewReader out)) as [body exit].
  cbn [fst snd NewReader pending atEnd] in *.
  assert (Hs : forall deferred : list event,
             sends deferred = [] ->
             sends ([EvLog Info
                       "[GetContainerLogsSSE] Get container log of pod %s";
                     EvGetContainerLogStream namespace podName containerName
                       follow tailLines] ++ body ++ deferred)
             = sends body).
  { intros deferred Hd. cbn [app sends]. now rewrite sends_app, Hd, app_nil_r. }
  rewrite Hs by (destruct (closeFails out); reflexivity).
  split; [exists n; exact Hn | exact Hfull].
Qed.

Lemma containerLogStream_cancel_truncates_witness :
  exists n,
    sends (fst (containerLogStream cancelled_at_1 Z.of_nat
                  (fun _ _ _ _ _ _ => Ok sample_stream)
                  "zadig" "pod-0" "build-job" true 100 (clientset 0)))
    = firstn n ["l1"%string; "l2"%string; "l3"%string].
Proof.
  exact (proj1 (containerLogStream_cancel_truncates cancelled_at_1 Z.of_nat
                  (fun _ _ _ _ _ _ => Ok sample_stream)
                  "zadig" "pod-0" "build-job" true 100 (clientset 0)
                  sample_stream eq_refl)).
Defined.

(** ** The workflow collection *)

(** X22: [ListByProjectNames] makes no call for an empty list of
    projects and returns an empty slice that is not nil; it asks for
    every document when the list is the single wildcard ["*"], and for
    the documents whose project is in the list in every other case, a
    wildcard among several names being a name like the others; a
    collection that answers with [ErrNoDocuments] gives a nil slice and
    no error.  [ListByWorkflows] makes no call for an empty list and
    returns a nil slice, and otherwise makes one call, whose filter has
    one condition for each workflow. *)
Theorem list_by_names_queries (c : mongodb.Collection) :
  mongodb.ListByProjectNames c [] = (Some [], None, [])
  /\ map mongodb.queryOf (snd (mongodb.ListByProjectNames c ["*"%string]))
     = [mongodb.FM []]
  /\ (forall projects,
        projects <> [] -> projects <> ["*"%string] ->
        map mongodb.queryOf (snd (mongodb.ListByProjectNames c projects))
        = [mongodb.FM [("project"%string, mongodb.VIn projects)]])
  /\ (forall projects,
        projects <> [] ->
        (forall q o, mongodb.Find c q o = inr mongodb.ErrNoDocuments) ->
        fst (mongodb.ListByProjectNames c projects) = (None, None))
  /\ mongodb.ListByWorkflows c [] = (None, None, [])
  /\ (forall workflows,
        workflows <> [] ->
        exists condition,
          snd (mongodb.ListByWorkflows c workflows)
          = [mongodb.CallFind (mongodb.FOr condition) None]
          /\ List.length condition = List.length workflows).
Proof.
  split; [reflexivity|]. split.
  { unfold mongodb.ListByProjectNames. cbn.
    destruct (mongodb.Find c (mongodb.FM []) None) as [[docs [e|]]|[|]];
      reflexivity. }
  split.
  { intros projects Hne Hw. unfold mongodb.ListByProjectNames.
    destruct projects as [|p [|p' rest]]; [congruence | |].
    - cbn [List.length Nat.eqb negb orb nth].
      destruct (String.eqb p "*") eqn:E.
      + apply String.eqb_eq in E. subst p. congruence.
      + cbn [negb].
        destruct (mongodb.Find c _ None) as [[docs [e|]]|[|]]; reflexivity.
    - cbn [List.length Nat.eqb negb orb].
      destruct (mongodb.Find c _ None) as [[docs [e|]]|[|]]; reflexivity. }
  split.
  { intros projects Hne Hnone. unfold mongodb.ListByProjectNames.
    destruct projects as [|p rest]; [congruence|].
    cbn [List.length Nat.eqb negb].
    destruct (negb (List.length rest =? 0)%nat
              || negb (String.eqb (nth 0 (p :: rest) EmptyString) "*"));
      rewrite Hnone; reflexivity. }
  split; [reflexivity|].
  intros workflows Hne. unfold mongodb.ListByWorkflows.
  destruct workflows as [|wf rest]; [congruence|].
  cbn [List.length Nat.eqb].
  eexists.
  destruct (mongodb.Find c _ None) as [[[|doc docs] [e|]]|[|]]; cbn [snd];
    (split; [reflexivity | now rewrite length_map]).
Qed.

Lemma list_by_names_queries_witness :
  map mongodb.queryOf
    (snd (mongodb.ListByProjectNames mongodb.sample_collection
            ["*"%string; "shop"%string]))
  = [mongodb.FM [("project"%string,
                  mongodb.VIn ["*"%string; "shop"%string])]].
Proof.
  apply (proj1 (proj2 (proj2 (list_by_names_queries
                                mongodb.sample_collection))));
    discriminate.
Defined.

(** A collection that decodes no document leaves the slice of
    [ListByWorkflows] nil, and the slice of [ListByProjectNames] empty. *)
Example no_document_slices :
  fst (mongodb.ListByWorkflows
         {| mongodb.CountDocuments := fun _ => (0%Z, None);
            mongodb.Find := fun _ _ => inl ([], None) |}
         [ {| mongodb.wf_Name := "wf1"; mongodb.wf_ProjectName := "shop" |} ])
  = (None, None)
  /\ fst (mongodb.ListByProjectNames
            {| mongodb.CountDocuments := fun _ => (0%Z, None);
               mongodb.Find := fun _ _ => inl ([], None) |}
            ["shop"%string])
     = (Some [], None).
Proof. split; reflexivity. Qed.

Lemma int64_small (z : Z) :
  (- 9223372036854775808 <= z < 9223372036854775808)%Z ->
  mongodb.int64 z = z.
Proof.
  intro H. unfold mongodb.int64.
  rewrite Z.mod_small by lia. lia.
Qed.

(** X23: when the count succeeds, [List] asks for all the documents of
    the query if page number and page size are both zero; otherwise it
    asks for [pageSize] documents at most, after skipping, for a page
    number from 1 on and a product within 64 bits, the documents of the
    pages before: nothing for page 1, and [pageSize] more from one page
    to the next; with page number zero and a positive page size, the skip
    is the negative [- pageSize]. *)
Theorem List_pages (c : mongodb.Collection)
  (opt : mongodb.ListWorkflowV4Option) (pageNum pageSize : Z) :
  (forall q, snd (mongodb.CountDocuments c q) = None) ->
  (- 9223372036854775808 <= pageNum < 9223372036854775807)%Z ->
  (- 9223372036854775808 <= pageSize < 9223372036854775808)%Z ->
  exists query,
    (pageNum = 0%Z -> pageSize = 0%Z ->
     snd (mongodb.List c opt pageNum pageSize)
     = [mongodb.CallCountDocuments query; mongodb.CallFind query None])
    /\ (1 <= pageNum -> 0 <= pageSize ->
        pageNum * pageSize < 9223372036854775808 ->
        snd (mongodb.List c opt pageNum pageSize)
        = [mongodb.CallCountDocuments query;
           mongodb.CallFind query (Some ((pageNum - 1) * pageSize, pageSize))]
        /\ snd (mongodb.List c opt (pageNum + 1) pageSize)
           = [mongodb.CallCountDocuments query;
              mongodb.CallFind query
                (Some ((pageNum - 1) * pageSize + pageSize, pageSize))])%Z
    /\ (pageNum = 1%Z ->
        snd (mongodb.List c opt pageNum pageSize)
        = [mongodb.CallCountDocuments query;
           mongodb.CallFind query (Some (0%Z, pageSize))])
    /\ (pageNum = 0%Z -> (0 < pageSize)%Z ->
        snd (mongodb.List c opt pageNum pageSize)
        = [mongodb.CallCountDocuments query;
           mongodb.CallFind query (Some (- pageSize, pageSize)%Z)]).
Proof.
  intros Hcount Hnum Hsize.
  unfold mongodb.List.
  match goal with
  | |- context [mongodb.CountDocuments c ?q] =>
      exists q; pose proof (Hcount q) as Hq;
      destruct (mongodb.CountDocuments c q) as [count err]
  end.
  cbn [snd] in Hq. subst err.
  split; [|split; [|split]].
  - intros -> ->. cbn [Z.eqb andb].
    destruct (mongodb.Find c _ None) as [[docs [e|]]|e]; reflexivity.
  - intros Hp Hs Hprod.
    split.
    + replace ((pageNum =? 0)%Z) with false by (symmetry; apply Z.eqb_neq; lia).
      cbn [andb]. rewrite (int64_small (pageNum - 1)) by lia.
      rewrite int64_small by nia.
      destruct (mongodb.Find c _ _) as [[docs [e|]]|e]; reflexivity.
    + replace ((pageNum + 1 =? 0)%Z) with false
        by (symmetry; apply Z.eqb_neq; lia).
      cbn [andb]. rewrite (int64_small (pageNum + 1 - 1)) by lia.
      rewrite int64_small by nia.
      replace ((pageNum + 1 - 1) * pageSize)%Z
        with ((pageNum - 1) * pageSize + pageSize)%Z by ring.
      destruct (mongodb.Find c _ _) as [[docs [e|]]|e]; reflexivity.
  - intros ->. cbn [Z.eqb andb Z.sub Z.add Z.opp Z.pos_sub].
    rewrite (int64_small 0) by lia. cbn [Z.mul].
    rewrite (int64_small 0) by lia.
    destruct (mongodb.Find c _ _) as [[docs [e|]]|e]; reflexivity.
  - intros -> Hpos.
    replace ((pageSize =? 0)%Z) with false by (symmetry; apply Z.eqb_neq; lia).
    cbn [Z.eqb andb]. change (0 - 1)%Z with (-1)%Z.
    rewrite (int64_small (-1)) by lia.
    rewrite int64_small by lia.
    replace (-1 * pageSize)%Z with (- pageSize)%Z by ring.
    destruct (mongodb.Find c _ _) as [[docs [e|]]|e]; reflexivity.
Qed.

Lemma List_pages_witness :
  exists query,
    snd (mongodb.List mongodb.sample_collection
           {| mongodb.opt_ProjectName := "shop";
              mongodb.opt_DisplayName := "";
              mongodb.opt_Names := [] |} 2 10)
    = [mongodb.CallCountDocuments query;
       mongodb.CallFind query (Some (10%Z, 10%Z))].
Proof.
  destruct (List_pages mongodb.sample_collection
              {| mongodb.opt_ProjectName := "shop";
                 mongodb.opt_DisplayName := "";
                 mongodb.opt_Names := [] |} 2 10
              (fun _ => eq_refl) ltac:(lia) ltac:(lia))
    as (query & _ & H & _).
  exists query. exact (proj1 (H ltac:(lia) ltac:(lia) ltac:(lia))).
Defined.

(** X24: [List] and [ListByCursor] put the same query to the collection,
    in each of their calls: a document that holds the project under
    ["project"] when the option names one, the display name under
    ["display_name"] when it names one, and the names under ["name"], as
    an ["$in"] condition, when it lists some; an option that names
    nothing gives the empty query, which every document matches. *)
Theorem List_and_ListByCursor_query (c : mongodb.Collection)
  (opt : mongodb.ListWorkflowV4Option) (pageNum pageSize : Z) :
  exists m,
    snd (mongodb.ListByCursor c opt) = [mongodb.CallFind (mongodb.FM m) None]
    /\ snd (mongodb.List c opt pageNum pageSize) <> []
    /\ Forall (fun cl => mongodb.queryOf cl = mongodb.FM m)
         (snd (mongodb.List c opt pageNum pageSize))
    /\ mongodb.lookup "project" m
       = (if String.eqb (mongodb.opt_ProjectName opt) "" then None
          else Some (mongodb.VString (mongodb.opt_ProjectName opt)))
    /\ mongodb.lookup "display_name" m
       = (if String.eqb (mongodb.opt_DisplayName opt) "" then None
          else Some (mongodb.VString (mongodb.opt_DisplayName opt)))
    /\ mongodb.lookup "name" m
       = match mongodb.opt_Names opt with
         | [] => None
         | _ :: _ => Some (mongodb.VIn (mongodb.opt_Names opt))
         end
    /\ (mongodb.opt_ProjectName opt = ""%string ->
        mongodb.opt_DisplayName opt = ""%string ->
        mongodb.opt_Names opt = [] -> m = []).
Proof.
  unfold mongodb.ListByCursor, mongodb.List. cbn [snd].
  match goal with
  | |- context [mongodb.CountDocuments c (mongodb.FM ?q)] => exists q
  end.
  split; [reflexivity|].
  split.
  { intro H.
    destruct (mongodb.CountDocuments c _) as [count [e|]];
      [cbn [snd] in H; discriminate H|].
    destruct (mongodb.Find c _ _) as [[docs [e|]]|e];
      cbn [snd] in H; discriminate H. }
  split.
  { destruct (mongodb.CountDocuments c _) as [count [e|]];
      [cbn [snd]; repeat constructor|].
    destruct (mongodb.Find c _ _) as [[docs [e|]]|e];
      cbn [snd]; repeat constructor. }
  destruct (String.eqb (mongodb.opt_ProjectName opt) "") eqn:E1;
    destruct (String.eqb (mongodb.opt_DisplayName opt) "") eqn:E2;
    destruct (mongodb.opt_Names opt) as [|n ns] eqn:E3;
    cbn; repeat split; try reflexivity; try discriminate;
    intros H1 H2 H3;
    first [ rewrite H1 in E1; discriminate E1
          | rewrite H2 in E2; discriminate E2
          | congruence ].
Qed.

Lemma List_and_ListByCursor_query_witness :
  exists m,
    snd (mongodb.ListByCursor mongodb.sample_collection
           {| mongodb.opt_ProjectName := "";
              mongodb.opt_DisplayName := "";
              mongodb.opt_Names := [] |})
    = [mongodb.CallFind (mongodb.FM m) None]
    /\ m = [].
Proof.
  destruct (List_and_ListByCursor_query mongodb.sample_collection
              {| mongodb.opt_ProjectName := "";
                 mongodb.opt_DisplayName := "";
                 mongodb.opt_Names := [] |} 0 0)
    as (m & H1 & _ & _ & _ & _ & _ & H7).
  exists m. split; [exact H1 | exact (H7 eq_refl eq_refl eq_refl)].
Defined.

(** ** Requests without a product *)

(** X25: for a request that names no product, whatever else it names,
    [TaskContainerLogStream] consults the metadata store for nothing,
    leaves namespace, cluster id, pipeline name and task id as they were,
    and goes on to the pod search. *)
Theorem TaskContainerLogStream_plain_request
  (cfg : Settings) (w : World) (ctx : Context) (o : GetContainerOptions) :
  ProductName o = ""%string ->
  exists o',
    final (TaskContainerLogStream cfg w ctx (Some o)) = Some o'
    /\ lookups (trace (TaskContainerLogStream cfg w ctx (Some o))) = 0
    /\ 1 <= clusterCalls (trace (TaskContainerLogStream cfg w ctx (Some o)))
    /\ Namespace o' = Namespace o /\ ClusterID o' = ClusterID o
    /\ PipelineName o' = PipelineName o /\ TaskID o' = TaskID o.
Proof.
  intro Hp.
  unfold TaskContainerLogStream, TaskContainerLogStream_resolve.
  rewrite Hp. cbn [nonempty String.eqb negb]. rewrite andb_false_r.
  cbn [andb].
  destruct (parseServiceName (ServiceName o) (ServiceModule o))
    as [serviceName serviceModule].
  match goal with
  | |- context [waitAndGetLog cfg w ctx ?sel ?o2] =>
      destruct (waitAndGetLog_calls cfg w ctx sel o2) as [Hcalls Hlook];
      destruct (waitAndGetLog cfg w ctx sel o2) as [tw cpl]
  end.
  cbn [final trace fst app lookups clusterCalls] in *.
  eexists. split; [reflexivity|].
  split; [exact Hlook|]. split; [exact Hcalls|].
  destruct (String.eqb (SubTask o) ""); repeat split.
Qed.

Lemma TaskContainerLogStream_plain_request_witness :
  lookups
    (trace (TaskContainerLogStream sample_settings bare_world background
              (Some plain_request))) = 0.
Proof.
  destruct (TaskContainerLogStream_plain_request sample_settings bare_world
              background
              plain_request
              eq_refl) as (o' & _ & Hl & _).
  exact Hl.
Defined.
